(** * file-watcher: a shallow embedding of the reconciliation engine

    Two source files implement the watcher:
    - [src/lib/index.js]      (module [LibIndex] below): files only;
    - [src/unnamed/part_000]  (module [Part000] below): files and directories.

    JavaScript objects used as maps are insertion-ordered association lists
    ([Obj.t]); the watcher's mutable state, the file system it probes, the
    [FSWatcher] objects it has opened and the calls made to the user callback
    are the components of one [World], threaded through a state-and-exception
    monad [M]. *)

From Stdlib Require Import String Ascii List ZArith Bool Lia.
Import ListNotations.

Local Open Scope string_scope.
Local Open Scope Z_scope.
Local Open Scope list_scope.

(** ** JavaScript objects used as string-keyed maps

    [for (k in o)] enumerates the keys in insertion order; assigning to an
    existing key keeps its place, [delete] removes it. *)
Module Obj.
Definition t (V : Type) : Type := list (string * V).

Fixpoint get {V} (k : string) (o : t V) : option V :=
  match o with
  | [] => None
  | (k', v) :: r => if String.eqb k k' then Some v else get k r
  end.

Fixpoint set {V} (k : string) (v : V) (o : t V) : t V :=
  match o with
  | [] => [(k, v)]
  | (k', v') :: r =>
      if String.eqb k k' then (k', v) :: r else (k', v') :: set k v r
  end.

Fixpoint delete {V} (k : string) (o : t V) : t V :=
  match o with
  | [] => []
  | (k', v') :: r =>
      if String.eqb k k' then delete k r else (k', v') :: delete k r
  end.

Definition keys {V} (o : t V) : list string := map fst o.

(** [k in o] *)
Definition has {V} (k : string) (o : t V) : bool :=
  match get k o with Some _ => true | None => false end.
End Obj.

(** ** Values of the Node runtime *)

Inductive Kind := RegularFile | Directory | Other.

(** An [Fs.Stats] object, with the [crc32] property the watcher attaches
    ([None]: the property is undefined). *)
Record Stats := mkStats {
  kind : Kind;
  size : Z;
  mtime : Z;
  crc32 : option Z
}.

Definition isDirectory (s : Stats) : bool :=
  match kind s with Directory => true | _ => false end.

Definition isFile (s : Stats) : bool :=
  match kind s with RegularFile => true | _ => false end.

(** What the file system holds at a path.  [node_data] is what
    [Fs.readFileSync] returns; [None] when the read fails (a directory, or a
    file the process may not read).  [node_watchable] tells whether
    [Fs.watch] can open a watch on the path; it cannot on a directory the
    process may not read, or once the system has run out of watches. *)
Record Node := mkNode {
  node_kind : Kind;
  node_size : Z;
  node_mtime : Z;
  node_data : option (list Z);
  node_watchable : bool
}.

Definition FS : Type := string -> option Node.

(** The parts of the runtime the watcher calls but does not define:
    [Path.resolve], [Path.dirname], the checksum [sse4_crc32.calculate], and
    the outcome of [!=] on the [mtime] of a fresh stat and that of a saved
    one.  Node hands out [mtime] as a Date object, and [!=] on two objects
    compares their identities, not their time values: the runtime of Node
    answers [true] whatever the two times are (see [posix] below). *)
Class Runtime := {
  Path_resolve : string -> string;
  Path_dirname : string -> string;
  calculate : list Z -> Z;
  mtime_ne : Z -> Z -> bool
}.

(** Values handed to the callback as its third argument. *)
Inductive Value :=
| VStats (s : Stats)
| VNull
| VNumber (z : Z)
| VUndefined.

Definition stat_value (s : option Stats) : Value :=
  match s with Some s => VStats s | None => VNull end.

Definition crc32_value (c : option Z) : Value :=
  match c with Some z => VNumber z | None => VUndefined end.

(** One invocation of [pCallback]. *)
Record Call := mkCall {
  call_evt : string;
  call_path : string;
  call_arg : Value
}.

Definition kFileChangeEventName : string := "change".
Definition kFileRenameEventName : string := "rename".
Definition kFileRemoveEventName : string := "remove".
Definition kFileCreateEventName : string := "create".

(** ** The watcher's state *)

Record Options := mkOptions {
  interval : Z;
  validate : bool;
  fullName : bool
}.

Definition default_options : Options :=
  {| interval := 10000; validate := false; fullName := true |}.

(** An entry of [pFiles]; [stat = None] is JavaScript's [null]. *)
Record FileStub := mkFileStub {
  name : string;
  stat : option Stats
}.

(** An entry of [pDirs] ([pWatchers] in part_000).  [handler] is [null] or an
    [FSWatcher]; [watchDir] is read only for its truthiness, so an absent
    property is [false]. *)
Record DirStub := mkDirStub {
  handler : option nat;
  count : Z;
  watchDir : bool
}.

Record World := mkWorld {
  fs : FS;
  (** [FSWatcher] objects not yet closed, each with the directory bound into
      its listener *)
  watchers : list (nat * string);
  next_watcher : nat;
  pFiles : Obj.t FileStub;
  pDirs : Obj.t DirStub;
  pOptions : Options;
  (** the interval of the timer installed by [setInterval], if any *)
  pTimer : option Z;
  (** the calls made to [pCallback], oldest first *)
  calls : list Call
}.

Definition set_fs (f : FS) (w : World) : World :=
  mkWorld f (watchers w) (next_watcher w) (pFiles w) (pDirs w)
          (pOptions w) (pTimer w) (calls w).

Definition set_watchers (l : list (nat * string)) (n : nat) (w : World) : World :=
  mkWorld (fs w) l n (pFiles w) (pDirs w) (pOptions w) (pTimer w) (calls w).

Definition set_pFiles (o : Obj.t FileStub) (w : World) : World :=
  mkWorld (fs w) (watchers w) (next_watcher w) o (pDirs w)
          (pOptions w) (pTimer w) (calls w).

Definition set_pDirs (o : Obj.t DirStub) (w : World) : World :=
  mkWorld (fs w) (watchers w) (next_watcher w) (pFiles w) o
          (pOptions w) (pTimer w) (calls w).

Definition set_calls (l : list Call) (w : World) : World :=
  mkWorld (fs w) (watchers w) (next_watcher w) (pFiles w) (pDirs w)
          (pOptions w) (pTimer w) l.

(** ** Computations: state plus JavaScript exceptions *)

Inductive Exn :=
| TypeError        (* property access on null or undefined *)
| ReferenceError   (* an identifier that is not bound *)
| SystemError.     (* an error raised by the fs module *)

Inductive Outcome (A : Type) :=
| Return (a : A) (w : World)
| Throw (e : Exn) (w : World).
Arguments Return {A} a w.
Arguments Throw {A} e w.

Definition M (A : Type) : Type := World -> Outcome A.

Definition ret {A} (a : A) : M A := fun w => Return a w.

Definition bind {A B} (m : M A) (k : A -> M B) : M B :=
  fun w => match m w with
           | Return a w' => k a w'
           | Throw e w' => Throw e w'
           end.

Definition throw {A} (e : Exn) : M A := fun w => Throw e w.

Definition get : M World := fun w => Return w w.

Definition modify (f : World -> World) : M unit := fun w => Return tt (f w).

Notation "x <- m ;; k" := (bind m (fun x => k))
  (at level 61, m at next level, right associativity).
Notation "m ;; k" := (bind m (fun _ => k))
  (at level 61, right associativity).

(** [for (x in ...) body] over the keys as they were when the loop began;
    no loop body of the watcher adds or deletes a key of the object it
    iterates. *)
Fixpoint forEach {A} (l : list A) (body : A -> M unit) : M unit :=
  match l with
  | [] => ret tt
  | x :: r => body x ;; forEach r body
  end.

Definition world_of {A} (o : Outcome A) : World :=
  match o with Return _ w => w | Throw _ w => w end.

Definition returns {A} (o : Outcome A) : bool :=
  match o with Return _ _ => true | Throw _ _ => false end.

Definition thrown {A} (o : Outcome A) : option Exn :=
  match o with Return _ _ => None | Throw e _ => Some e end.

(** [m] keeps [I], whether it returns or throws. *)
Definition preserves {A} (I : World -> Prop) (m : M A) : Prop :=
  forall w, I w -> I (world_of (m w)).

(** [I] does not depend on the given component of the world. *)
Definition frame_watchers (I : World -> Prop) : Prop :=
  forall l n w, I w -> I (set_watchers l n w).

Definition frame_pFiles (I : World -> Prop) : Prop :=
  forall o w, I w -> I (set_pFiles o w).

Definition frame_pDirs (I : World -> Prop) : Prop :=
  forall o w, I w -> I (set_pDirs o w).

Definition frame_calls (I : World -> Prop) : Prop :=
  forall l w, I w -> I (set_calls l w).

Definition frame_fs (I : World -> Prop) : Prop :=
  forall d w, I w -> I (set_fs d w).

(** ** The fs module *)

Definition Fs_existsSync (p : string) : M bool :=
  w <- get ;;
  ret (match fs w p with Some _ => true | None => false end).

Definition Fs_statSync (p : string) : M Stats :=
  w <- get ;;
  match fs w p with
  | Some n => ret (mkStats (node_kind n) (node_size n) (node_mtime n) None)
  | None => throw SystemError
  end.

Definition Fs_readFileSync (p : string) : M (list Z) :=
  w <- get ;;
  match fs w p with
  | Some n => match node_data n with
              | Some d => ret d
              | None => throw SystemError
              end
  | None => throw SystemError
  end.

(** [Fs.watch(dir, listener)]: a fresh [FSWatcher] whose listener is bound to
    [dir]; an error when [dir] does not exist or cannot be watched. *)
Definition Fs_watch (dir : string) : M nat :=
  w <- get ;;
  match fs w dir with
  | Some n =>
      if node_watchable n then
        let h := next_watcher w in
        modify (set_watchers (watchers w ++ [(h, dir)]) (S h)) ;;
        ret h
      else throw SystemError
  | None => throw SystemError
  end.

(** [handler.close()] *)
Definition close (h : nat) : M unit :=
  w <- get ;;
  modify (set_watchers
            (filter (fun e => negb (Nat.eqb (fst e) h)) (watchers w))
            (next_watcher w)).

(** [this.pCallback(evt, path, arg)] *)
Definition pCallback (evt path : string) (arg : Value) : M unit :=
  w <- get ;;
  modify (set_calls (calls w ++ [mkCall evt path arg])).

(** ** JavaScript idioms *)

(** Truthiness of a value that is a string or [null]. *)
Definition truthy (e : option string) : bool :=
  match e with
  | Some s => negb (String.eqb s EmptyString)
  | None => false
  end.

(** [a || b] *)
Definition js_or (a b : option string) : option string :=
  if truthy a then a else b.

(** [a == b] on two [crc32] properties (numbers or undefined). *)
Definition crc32_eq (a b : option Z) : bool :=
  match a, b with
  | Some x, Some y => Z.eqb x y
  | None, None => true
  | _, _ => false
  end.

(** The property key a value is converted to: [undefined] becomes the
    string "undefined". *)
Definition prop (d : option string) : string :=
  match d with Some s => s | None => "undefined" end.

Definition with_handler (h : option nat) (g : DirStub) : DirStub :=
  mkDirStub h (count g) (watchDir g).

Definition with_count (c : Z) (g : DirStub) : DirStub :=
  mkDirStub (handler g) c (watchDir g).

Definition with_watchDir (b : bool) (g : DirStub) : DirStub :=
  mkDirStub (handler g) (count g) b.

(** [this.pDirs[dir]], for a property read or write that follows: a
    [TypeError] when the entry is undefined. *)
Definition dir_stub (dir : string) : M DirStub :=
  w <- get ;;
  match Obj.get dir (pDirs w) with
  | Some g => ret g
  | None => throw TypeError
  end.

Definition file_stub (fullName : string) : M FileStub :=
  w <- get ;;
  match Obj.get fullName (pFiles w) with
  | Some f => ret f
  | None => throw TypeError
  end.

(** Assignment to a property of the object stored at [pDirs[dir]]. *)
Definition update_dir (dir : string) (f : DirStub -> DirStub) : M unit :=
  g <- dir_stub dir ;;
  modify (fun w => set_pDirs (Obj.set dir (f g) (pDirs w)) w).

(** [this.pFiles[k] = v] and [delete this.pFiles[k]]; likewise for [pDirs]. *)
Definition assign_file (k : string) (v : FileStub) : M unit :=
  modify (fun w => set_pFiles (Obj.set k v (pFiles w)) w).

Definition delete_file (k : string) : M unit :=
  modify (fun w => set_pFiles (Obj.delete k (pFiles w)) w).

Definition assign_dir (k : string) (v : DirStub) : M unit :=
  modify (fun w => set_pDirs (Obj.set k v (pDirs w)) w).

Definition delete_dir (k : string) : M unit :=
  modify (fun w => set_pDirs (Obj.delete k (pDirs w)) w).

(** ** Functions whose text is the same in both files *)

Section Shared.
Context {rt : Runtime}.

(** [pCheckFileExistenceChange] *)
Definition pCheckFileExistenceChange (fullName : string)
           (nstat : option Stats) : M (option string) :=
  file <- file_stub fullName ;;
  if xorb (match stat file with Some _ => true | None => false end)
          (match nstat with Some _ => true | None => false end)
  then match nstat with
       | Some _ => ret (Some kFileCreateEventName)
       | None => ret (Some kFileRemoveEventName)
       end
  else ret None.

(** [pWatchDir].  [dir] is a string or [undefined] ([None]);
    [Fs.existsSync(undefined)] is false. *)
Definition pWatchDir (dir : option string) : M unit :=
  g <- dir_stub (prop dir) ;;
  match handler g, dir with
  | Some _, _ => ret tt
  | None, None => ret tt
  | None, Some d =>
      exist <- Fs_existsSync d ;;
      if negb exist then ret tt
      else
        h <- Fs_watch d ;;
        update_dir d (with_handler (Some h))
  end.

(** The statement [if (!this.pDirs[dir]) { this.pDirs[dir] = {handler: null,
    count: 0}; this.pWatchDir(dir); }] of [watch]. *)
Definition ensure_stub (dir : option string) : M unit :=
  w <- get ;;
  match Obj.get (prop dir) (pDirs w) with
  | Some _ => ret tt
  | None =>
      assign_dir (prop dir) (mkDirStub None 0 false) ;;
      pWatchDir dir
  end.

(** [pUnwatchDir] *)
Definition pUnwatchDir (dir : string) : M unit :=
  g <- dir_stub dir ;;
  match handler g with
  | Some h =>
      close h ;;
      update_dir dir (with_handler None)
  | None => ret tt
  end.

(** [reset] *)
Definition reset : M unit :=
  w <- get ;;
  forEach (Obj.keys (pDirs w)) pUnwatchDir ;;
  modify (set_pFiles []) ;;
  modify (set_pDirs []).

(** [save]: [$valueCopy] yields a copy that shares nothing with the
    registry; a value of the embedding is such a copy. *)
Definition save : M (Obj.t FileStub) :=
  w <- get ;;
  ret (pFiles w).

(** The body of [restore]'s loop, after [this.watch(fullName)]. *)
Definition restore_entry (fullName : string) (saved : FileStub) : M unit :=
  w <- get ;;
  let ostat := stat saved in
  file <- file_stub fullName ;;
  let nstat := stat file in
  let evt :=
    if xorb (match ostat with Some _ => true | None => false end)
            (match nstat with Some _ => true | None => false end)
    then match nstat with
         | Some _ => Some kFileCreateEventName
         | None => Some kFileRemoveEventName
         end
    else match nstat, ostat with
         | Some n, Some s =>
             if validate (pOptions w) then
               if negb (Z.eqb (size n) (size s))
                  || negb (crc32_eq (crc32 n) (crc32 s))
               then Some kFileChangeEventName else None
             else
               if mtime_ne (mtime n) (mtime s)
               then Some kFileChangeEventName else None
         | _, _ => None
         end in
  match evt with
  | Some e =>
      match nstat with
      | Some n => pCallback e fullName (crc32_value (crc32 n))
      | None => throw TypeError
      end
  | None => ret tt
  end.

(** [restore], given the file's own [watch]. *)
Definition restore_with (watch : string -> M unit)
           (files : Obj.t FileStub) : M unit :=
  reset ;;
  forEach files (fun e => watch (fst e) ;; restore_entry (fst e) (snd e)).

(** [pCheckFolders], given the file's own [pHandleChange]. *)
Definition pCheckFolders_with
           (pHandleChange : string -> string -> string -> M unit) : M unit :=
  w <- get ;;
  forEach (Obj.keys (pDirs w)) (fun dir =>
    exist <- Fs_existsSync dir ;;
    g <- dir_stub dir ;;
    if xorb (match handler g with Some _ => true | None => false end) exist
    then
      (if exist then pWatchDir (Some dir) else pUnwatchDir dir) ;;
      w' <- get ;;
      forEach (Obj.keys (pFiles w')) (fun fullName =>
        if String.prefix dir fullName
        then pHandleChange dir kFileRenameEventName
               (String.substring (String.length dir)
                  (String.length fullName - String.length dir) fullName)
        else ret tt)
    else ret tt).

(** The classification inside [pHandleChange] for a watched target:
    the event to report, or [null]. *)
Definition classify (fullName evt : string) (file : FileStub)
           (nstat : option Stats) : M (option string) :=
  w <- get ;;
  if String.eqb evt kFileRenameEventName then
    e <- pCheckFileExistenceChange fullName nstat ;;
    ret (js_or e (Some evt))
  else if String.eqb evt kFileChangeEventName then
    if validate (pOptions w) then
      match nstat, stat file with
      | Some n, Some s =>
          if Z.eqb (size n) (size s) && crc32_eq (crc32 n) (crc32 s)
          then ret None
          else ret (Some evt)
      | _, _ => throw TypeError
      end
    else ret (Some evt)
  else ret (Some evt).
End Shared.

(** ** src/lib/index.js *)
Module LibIndex.
Section Watcher.
Context {rt : Runtime}.

(** The constructor, with [options] already completed by [$extend]:
    the timer is installed whatever the interval. *)
Definition FileWatcher (options : Options) (disk : FS) : World :=
  mkWorld disk [] 0%nat [] [] options (Some (interval options)) [].

(** [pGetFileStat] *)
Definition pGetFileStat (file : string) : M (option Stats) :=
  exist <- Fs_existsSync file ;;
  if negb exist then ret None
  else
    stat <- Fs_statSync file ;;
    w <- get ;;
    if validate (pOptions w) then
      data <- Fs_readFileSync file ;;
      ret (Some (mkStats (kind stat) (size stat) (mtime stat)
                         (Some (calculate data))))
    else ret (Some stat).

(** [watch] *)
Definition watch (file : string) : M unit :=
  let full := Path_resolve file in
  w <- get ;;
  match Obj.get full (pFiles w) with
  | Some _ => ret tt
  | None =>
      st <- pGetFileStat full ;;
      assign_file full
        (mkFileStub (if fullName (pOptions w) then full else file) st) ;;
      let dir := (Path_dirname full ++ "/")%string in
      ensure_stub (Some dir) ;;
      update_dir dir (fun g => with_count (count g + 1) g)
  end.

(** [unwatch] *)
Definition unwatch (file : string) : M unit :=
  let full := Path_resolve file in
  w <- get ;;
  match Obj.get full (pFiles w) with
  | None => ret tt
  | Some _ =>
      delete_file full ;;
      let dir := (Path_dirname full ++ "/")%string in
      update_dir dir (fun g => with_count (count g - 1) g) ;;
      g <- dir_stub dir ;;
      if Z.eqb (count g) 0 then
        pUnwatchDir dir ;;
        delete_dir dir
      else ret tt
  end.

(** [pHandleChange] *)
Definition pHandleChange (dir evt file : string) : M unit :=
  let full := (dir ++ file)%string in
  w <- get ;;
  match Obj.get full (pFiles w) with
  | None => ret tt
  | Some file =>
      nstat <- pGetFileStat full ;;
      evt <- classify full evt file nstat ;;
      assign_file full (mkFileStub (name file) nstat) ;;
      match evt with
      | Some e =>
          if truthy evt then pCallback e (name file) (stat_value nstat)
          else ret tt
      | None => ret tt
      end
  end.

Definition pCheckFolders : M unit := pCheckFolders_with pHandleChange.

Definition restore (files : Obj.t FileStub) : M unit :=
  restore_with watch files.

End Watcher.
End LibIndex.

(** ** src/unnamed/part_000 *)
Module Part000.
Section Watcher.
Context {rt : Runtime}.

(** The constructor, with [options] already completed by [$extend]:
    the timer is installed only for a positive interval. *)
Definition FileWatcher (options : Options) (disk : FS) : World :=
  mkWorld disk [] 0%nat [] [] options
          (if Z.ltb 0 (interval options) then Some (interval options)
           else None) [].

(** [pGetFileStat]; what [console.log] prints is not part of the model. *)
Definition pGetFileStat (file : string) : M (option Stats) :=
  exist <- Fs_existsSync file ;;
  if negb exist then ret None
  else
    stat <- Fs_statSync file ;;
    w <- get ;;
    if isFile stat then
      if validate (pOptions w) then
        data <- Fs_readFileSync file ;;
        ret (Some (mkStats (kind stat) (size stat) (mtime stat)
                           (Some (calculate data))))
      else ret (Some stat)
    else ret (Some stat).

(** [watch].  [dir] and [watchDir] stay undefined when the stat is neither a
    directory nor a regular file. *)
Definition watch (file : string) : M unit :=
  let full := Path_resolve file in
  w <- get ;;
  match Obj.get full (pFiles w) with
  | Some _ => ret tt
  | None =>
      st <- pGetFileStat full ;;
      let stub :=
        mkFileStub (if fullName (pOptions w) then full else file) st in
      assign_file full stub ;;
      dw <- match stat stub with
            | None => throw TypeError
            | Some s =>
                if isDirectory s then ret (Some full, true)
                else if isFile s
                     then ret (Some (Path_dirname full ++ "/")%string, false)
                     else ret (None, false)
            end ;;
      let dir := fst dw in
      let watchDir := snd dw in
      ensure_stub dir ;;
      if watchDir then update_dir (prop dir) (with_watchDir true)
      else update_dir (prop dir) (fun g => with_count (count g + 1) g)
  end.

(** The identifier [dir] in [unwatch]: the function declares no such
    variable and the module has no such global. *)
Definition unbound_dir : M string := throw ReferenceError.

(** [unwatch] *)
Definition unwatch (file : string) : M unit :=
  let full := Path_resolve file in
  w <- get ;;
  match Obj.get full (pFiles w) with
  | None => ret tt
  | Some _ =>
      delete_file full ;;
      w1 <- get ;;
      key <- (if Obj.has full (pDirs w1) then
                update_dir full (with_watchDir false) ;;
                ret full
              else
                let key := (Path_dirname full ++ "/")%string in
                update_dir key (fun g => with_count (count g - 1) g) ;;
                ret key) ;;
      stub <- dir_stub key ;;
      if Z.eqb (count stub) 0 && negb (watchDir stub) then
        dir <- unbound_dir ;;
        pUnwatchDir dir ;;
        delete_dir dir
      else ret tt
  end.

(** [pHandleChange] *)
Definition pHandleChange (dir evt file : string) : M unit :=
  let full := (dir ++ file)%string in
  w <- get ;;
  match Obj.get full (pFiles w) with
  | Some file =>
      nstat <- pGetFileStat full ;;
      evt <- classify full evt file nstat ;;
      assign_file full (mkFileStub (name file) nstat) ;;
      match evt with
      | Some e =>
          if truthy evt then pCallback e (name file) (stat_value nstat)
          else ret tt
      | None => ret tt
      end
  | None =>
      g <- dir_stub dir ;;
      if watchDir g then pCallback evt full VUndefined
      else ret tt
  end.

(** [getFileStat]: [None] is [undefined], [Some None] is [null]. *)
Definition getFileStat (file : string) : M (option (option Stats)) :=
  w <- get ;;
  match Obj.get (Path_resolve file) (pFiles w) with
  | None => ret None
  | Some f => ret (Some (stat f))
  end.

Definition pCheckFolders : M unit := pCheckFolders_with pHandleChange.

Definition restore (files : Obj.t FileStub) : M unit :=
  restore_with watch files.

End Watcher.
End Part000.

(** ** The two files side by side *)

Inductive Source := lib_index | part_000.

Section Dispatch.
Context {rt : Runtime}.

Definition FileWatcher_of (s : Source) : Options -> FS -> World :=
  match s with
  | lib_index => LibIndex.FileWatcher
  | part_000 => Part000.FileWatcher
  end.

Definition pGetFileStat_of (s : Source) : string -> M (option Stats) :=
  match s with
  | lib_index => LibIndex.pGetFileStat
  | part_000 => Part000.pGetFileStat
  end.

Definition watch_of (s : Source) : string -> M unit :=
  match s with
  | lib_index => LibIndex.watch
  | part_000 => Part000.watch
  end.

Definition unwatch_of (s : Source) : string -> M unit :=
  match s with
  | lib_index => LibIndex.unwatch
  | part_000 => Part000.unwatch
  end.

Definition pHandleChange_of (s : Source) : string -> string -> string -> M unit :=
  match s with
  | lib_index => LibIndex.pHandleChange
  | part_000 => Part000.pHandleChange
  end.

Definition pCheckFolders_of (s : Source) : M unit :=
  match s with
  | lib_index => LibIndex.pCheckFolders
  | part_000 => Part000.pCheckFolders
  end.

Definition restore_of (s : Source) : Obj.t FileStub -> M unit :=
  match s with
  | lib_index => LibIndex.restore
  | part_000 => Part000.restore
  end.

(** [getFileStat] exists in part_000 only. *)
Definition getFileStat_of (s : Source) (file : string) : M unit :=
  match s with
  | lib_index => throw TypeError
  | part_000 => Part000.getFileStat file ;; ret tt
  end.

(** ** What can happen to a watcher

    The owner calls an operation; the interval timer fires; an open
    [FSWatcher] delivers a raw event to its listener; the file system
    changes under the watcher. *)
Inductive Action :=
| Watch (file : string)
| Unwatch (file : string)
| GetFileStat (file : string)
| Save
| Restore (files : Obj.t FileStub)
| Reset
| Tick
| Deliver (h : nat) (evt file : string)
| Disk (disk : FS).

(** The directory bound into the listener of watcher [h], while it is open. *)
Fixpoint listener_dir (h : nat) (l : list (nat * string)) : option string :=
  match l with
  | [] => None
  | (h', d) :: r => if Nat.eqb h h' then Some d else listener_dir h r
  end.

Definition perform (s : Source) (a : Action) : M unit :=
  match a with
  | Watch file => watch_of s file
  | Unwatch file => unwatch_of s file
  | GetFileStat file => getFileStat_of s file
  | Save => save ;; ret tt
  | Restore files => restore_of s files
  | Reset => reset
  | Tick =>
      w <- get ;;
      match pTimer w with
      | Some _ => pCheckFolders_of s
      | None => ret tt
      end
  | Deliver h evt file =>
      w <- get ;;
      match listener_dir h (watchers w) with
      | Some dir => pHandleChange_of s dir evt file
      | None => ret tt
      end
  | Disk disk => modify (set_fs disk)
  end.

(** The state an action leaves behind, whether it returned or threw. *)
Definition step (s : Source) (w : World) (a : Action) : World :=
  world_of (perform s a w).

Definition run (s : Source) (l : list Action) (w : World) : World :=
  fold_left (step s) l w.

Inductive reachable (s : Source) : World -> Prop :=
| reachable_new : forall options disk,
    reachable s (FileWatcher_of s options disk)
| reachable_step : forall w a,
    reachable s w -> reachable s (step s w a).

(** Actions that call [watch]: [watch] itself and [restore]. *)
Definition calls_watch (a : Action) : bool :=
  match a with
  | Watch _ | Restore _ => true
  | _ => false
  end.

(** Every open [FSWatcher] is the handler of some directory stub. *)
Definition handlers_owned (w : World) : Prop :=
  forall h d, In (h, d) (watchers w) ->
    exists k g, Obj.get k (pDirs w) = Some g /\ handler g = Some h.

(** A watcher with nothing registered and no open [FSWatcher], whose
    callback has received the calls [c]. *)
Definition idle (c : list Call) (w : World) : Prop :=
  pFiles w = [] /\ pDirs w = [] /\ watchers w = [] /\ calls w = c.

(** What [pHandleChange] does once the probe of a watched target has
    returned [nstat]. *)
Definition after_probe (full evt : string) (file : FileStub)
           (nstat : option Stats) : M unit :=
  evt <- classify full evt file nstat ;;
  assign_file full (mkFileStub (name file) nstat) ;;
  match evt with
  | Some e =>
      if truthy evt then pCallback e (name file) (stat_value nstat)
      else ret tt
  | None => ret tt
  end.

End Dispatch.

(** The world after a classification pass that stored [nstat] and made no
    call, and after one that also made the calls [l]. *)
Definition stored (w : World) (full : string) (f : FileStub)
           (nstat : option Stats) : World :=
  set_pFiles (Obj.set full (mkFileStub (name f) nstat) (pFiles w)) w.

Definition classified (w : World) (full : string) (f : FileStub)
           (nstat : option Stats) (l : list Call) : World :=
  set_calls (calls w ++ l) (stored w full f nstat).

(** ** A runtime and a disk to run the watcher on *)

Definition is_slash (c : Ascii.ascii) : bool := Ascii.eqb c "/"%char.

(** The scan of Node's POSIX [dirname], from the last character down to
    index 1. *)
Fixpoint dirname_end (l : list (nat * Ascii.ascii)) (matchedSlash : bool)
  : option nat :=
  match l with
  | [] => None
  | (i, c) :: r =>
      if is_slash c then
        if matchedSlash then dirname_end r matchedSlash else Some i
      else dirname_end r false
  end.

Definition posix_dirname (path : string) : string :=
  match list_ascii_of_string path with
  | [] => "."
  | c0 :: cs =>
      let hasRoot := is_slash c0 in
      match dirname_end (rev (combine (seq 1 (List.length cs)) cs)) true with
      | None => if hasRoot then "/" else "."
      | Some e =>
          if hasRoot && Nat.eqb e 1 then "//"
          else String.substring 0 e path
      end
  end.

(** CRC-32C (Castagnoli), the checksum of [sse4_crc32]: bit by bit with the
    reflected polynomial, from the initial value 0xFFFFFFFF, the result
    complemented. *)
Definition crc32c_poly : Z := 0x82F63B78.

Fixpoint crc32c_bits (n : nat) (c : Z) : Z :=
  match n with
  | O => c
  | S n' =>
      crc32c_bits n'
        (if Z.testbit c 0 then Z.lxor (Z.shiftr c 1) crc32c_poly
         else Z.shiftr c 1)
  end.

Definition crc32c_byte (c b : Z) : Z :=
  crc32c_bits 8 (Z.lxor c (Z.land b 255)).

Definition crc32c (data : list Z) : Z :=
  Z.lxor (fold_left crc32c_byte data 0xFFFFFFFF) 0xFFFFFFFF.

(** The runtime of Node on a POSIX system.  [Path.resolve] leaves a
    normalized absolute path as it is; the examples pass no other.  [!=] on
    two [mtime] objects is [true]: the fresh stat's Date is never the saved
    one. *)
#[export] Instance posix : Runtime := {
  Path_resolve := fun p => p;
  Path_dirname := posix_dirname;
  calculate := crc32c;
  mtime_ne := fun _ _ => true
}.

Definition disk_of (l : list (string * Node)) : FS := fun p => Obj.get p l.

Definition file_node (mtime : Z) (data : list Z) : Node :=
  mkNode RegularFile (Z.of_nat (List.length data)) mtime (Some data) true.

Definition dir_node (mtime : Z) : Node :=
  mkNode Directory 4096 mtime None true.

(** A regular file the process may not read. *)
Definition locked_node (mtime : Z) : Node :=
  mkNode RegularFile 7 mtime None true.

(** A directory that exists but on which [Fs.watch] fails. *)
Definition unwatchable_node (mtime : Z) : Node :=
  mkNode Directory 4096 mtime None false.

(** Directory /a with files x, y and an unreadable file; nothing else. *)
Definition disk1 : FS :=
  disk_of [("/a", dir_node 10); ("/a/", dir_node 10);
           ("/a/x", file_node 11 [1; 2; 3]);
           ("/a/y", file_node 12 [4; 5]);
           ("/a/locked", locked_node 13)].

(** As [disk1], with /a/x rewritten: same size, other bytes. *)
Definition disk2 : FS :=
  disk_of [("/a", dir_node 10); ("/a/", dir_node 10);
           ("/a/x", file_node 21 [1; 2; 4]);
           ("/a/y", file_node 12 [4; 5]);
           ("/a/locked", locked_node 13)].

(** As [disk1], with /a/x removed. *)
Definition disk3 : FS :=
  disk_of [("/a", dir_node 20); ("/a/", dir_node 20);
           ("/a/y", file_node 12 [4; 5]);
           ("/a/locked", locked_node 13)].

(** Directory /a holding x with five bytes; and the same after x has been
    rewritten with five other bytes that have the same CRC-32C. *)
Definition bytes_x4 : list Z := [1; 2; 3; 4; 5].
Definition bytes_x5 : list Z := [240; 116; 239; 1; 4].

Definition disk4 : FS :=
  disk_of [("/a", dir_node 10); ("/a/", dir_node 10);
           ("/a/x", file_node 11 bytes_x4)].

Definition disk5 : FS :=
  disk_of [("/a", dir_node 10); ("/a/", dir_node 10);
           ("/a/x", file_node 21 bytes_x5)].

(** As [disk1], with a directory /a/noread that cannot be watched, holding
    a file f. *)
Definition disk6 : FS :=
  disk_of [("/a", dir_node 10); ("/a/", dir_node 10);
           ("/a/x", file_node 11 [1; 2; 3]);
           ("/a/y", file_node 12 [4; 5]);
           ("/a/locked", locked_node 13);
           ("/a/noread", unwatchable_node 14);
           ("/a/noread/", unwatchable_node 14);
           ("/a/noread/f", file_node 15 [6])].

Definition validating : Options :=
  {| interval := 10000; validate := true; fullName := true |}.

(** A fresh watcher of source [s] over [disk], after [watch] of each of
    [files]. *)
Definition watching (s : Source) (o : Options) (disk : FS)
           (files : list string) : World :=
  run s (map Watch files) (FileWatcher_of s o disk).

(** The same watcher once the disk has become [disk']. *)
Definition watching_then (s : Source) (o : Options) (disk : FS)
           (files : list string) (disk' : FS) : World :=
  set_fs disk' (watching s o disk files).

(** What [save()] returns on that watcher. *)
Definition snapshot (s : Source) (o : Options) (disk : FS)
           (files : list string) : Obj.t FileStub :=
  pFiles (watching s o disk files).

(** [save()], then the disk becomes [disk'], then [reset()] and
    [restore(snapshot)]: the outcome of the [restore]. *)
Definition round_trip (s : Source) (o : Options) (disk : FS)
           (files : list string) (disk' : FS) : Outcome unit :=
  restore_of s (snapshot s o disk files)
    (run s [Disk disk'; Reset] (watching s o disk files)).

Definition stat_x1 (c : option Z) : Stats := mkStats RegularFile 3 11 c.
Definition stat_x2 (c : option Z) : Stats := mkStats RegularFile 3 21 c.

(** ** Notions used by the properties of the single functions *)

(** Actions that can reach [pCallback]: [restore], a timer tick, a raw
    event. *)
Definition may_call_back (a : Action) : bool :=
  match a with
  | Restore _ | Tick | Deliver _ _ _ => true
  | _ => false
  end.

Definition has_handler (g : DirStub) : bool :=
  match handler g with Some _ => true | None => false end.

Definition on_disk (w : World) (p : string) : bool :=
  match fs w p with Some _ => true | None => false end.

(** [pWatchDir] would not fail on [p]: either [p] does not exist, and
    [Fs.watch] is not called, or [Fs.watch] succeeds on it. *)
Definition watchable (w : World) (p : string) : bool :=
  match fs w p with Some n => node_watchable n | None => true end.

(** A disk on which [Fs.watch] fails nowhere. *)
Definition all_watchable (d : FS) : Prop :=
  forall p n, d p = Some n -> node_watchable n = true.

(** None of the disks that the actions bring has a path on which
    [Fs.watch] fails. *)
Definition disks_watchable (l : list Action) : Prop :=
  forall d, In (Disk d) l -> all_watchable d.

(** No stub has drifted: it holds a handler exactly when its directory
    exists. *)
Definition in_sync (w : World) : bool :=
  forallb (fun e => Bool.eqb (has_handler (snd e)) (on_disk w (fst e)))
          (pDirs w).

(** A disk with a character device, which is neither a regular file nor a
    directory. *)
Definition disk_dev : FS :=
  disk_of [("/dev", dir_node 1); ("/dev/", dir_node 1);
           ("/dev/null", mkNode Other 0 2 (Some []) true)].

Definition polling_off : Options :=
  {| interval := 0; validate := false; fullName := true |}.

(** The count and the [watchDir] flag of the stub at [k], read as 0 and
    [false] when there is none. *)
Definition count_at (k : string) (w : World) : Z :=
  match Obj.get k (pDirs w) with Some g => count g | None => 0 end.

Definition watchDir_at (k : string) (w : World) : bool :=
  match Obj.get k (pDirs w) with Some g => watchDir g | None => false end.

Section Keys.
Context {rt : Runtime}.

(** The key of the stub that owns a file: [Path.dirname(fullName) + '/']. *)
Definition dir_of (full : string) : string :=
  (Path_dirname full ++ "/")%string.

(** The key under which [watch] of part_000 files a target whose stat is
    [st]: the path itself for a directory, the parent for a regular file,
    and the string "undefined" for anything else. *)
Definition part_stub_key (full : string) (st : Stats) : string :=
  match kind st with
  | Directory => full
  | RegularFile => dir_of full
  | Other => "undefined"
  end.

(** The key of the stub under which [watch] files a target whose stat is
    [st]: lib/index.js knows parents only. *)
Definition stub_key (s : Source) (full : string) (st : Stats) : string :=
  match s with
  | lib_index => dir_of full
  | part_000 => part_stub_key full st
  end.

(** The number of registered paths that lie in directory [dir]. *)
Definition files_in (dir : string) (w : World) : Z :=
  Z.of_nat (List.length
              (filter (fun k => String.eqb (dir_of k) dir)
                      (Obj.keys (pFiles w)))).

(** lib/index.js: no path is registered twice, the count of every stub is
    the number of registered paths of its directory, and a directory has a
    stub exactly when some registered path lies in it. *)
Definition lib_consistent (w : World) : Prop :=
  NoDup (Obj.keys (pFiles w))
  /\ forall dir,
       count_at dir w = files_in dir w
       /\ (Obj.get dir (pDirs w) <> None <-> 0 < files_in dir w).

(** What [restore] reports for an entry whose fresh stat is the saved one:
    nothing with validation on; with validation off a [change], carrying
    the [crc32] property of the stat, for each file that exists, whenever
    [!=] holds between its [mtime] and the saved one. *)
Definition unchanged_report (v : bool) (e : string * FileStub) : list Call :=
  match stat (snd e) with
  | Some st =>
      if v then []
      else if mtime_ne (mtime st) (mtime st)
           then [mkCall kFileChangeEventName (fst e)
                        (crc32_value (crc32 st))]
           else []
  | None => []
  end.

End Keys.

(** * Properties *)

(** ** Objects *)

Lemma get_set_same {V} (k : string) (v : V) (o : Obj.t V) :
  Obj.get k (Obj.set k v o) = Some v.
Proof.
  induction o as [|[k' v'] r IH]; simpl.
  - now rewrite String.eqb_refl.
  - destruct (String.eqb k k') eqn:E; simpl; rewrite E; auto.
Qed.

Lemma get_set_other {V} (k k' : string) (v : V) (o : Obj.t V) :
  k <> k' -> Obj.get k' (Obj.set k v o) = Obj.get k' o.
Proof.
  intros Hne. induction o as [|[k0 v0] r IH]; simpl.
  - destruct (String.eqb k' k) eqn:E; auto.
    apply String.eqb_eq in E. congruence.
  - destruct (String.eqb k k0) eqn:E; simpl.
    + apply String.eqb_eq in E. subst k0.
      destruct (String.eqb k' k) eqn:E'; auto.
      apply String.eqb_eq in E'. congruence.
    + now rewrite IH.
Qed.

Lemma get_delete_other {V} (k k' : string) (o : Obj.t V) :
  k <> k' -> Obj.get k' (Obj.delete k o) = Obj.get k' o.
Proof.
  intros Hne. induction o as [|[k0 v0] r IH]; simpl; auto.
  destruct (String.eqb k k0) eqn:E; simpl.
  - apply String.eqb_eq in E. subst k0.
    destruct (String.eqb k' k) eqn:E'; auto.
    apply String.eqb_eq in E'. congruence.
  - now rewrite IH.
Qed.

Lemma keys_set_present {V} (k : string) (v g : V) (o : Obj.t V) :
  Obj.get k o = Some g -> Obj.keys (Obj.set k v o) = Obj.keys o.
Proof.
  induction o as [|[k0 v0] r IH]; simpl; [discriminate|].
  destruct (String.eqb k k0) eqn:E; simpl; [reflexivity|].
  intros H. now rewrite IH.
Qed.

Lemma get_in_keys {V} (k : string) (o : Obj.t V) :
  Obj.get k o <> None -> In k (Obj.keys o).
Proof.
  induction o as [|[k0 v0] r IH]; simpl; [congruence|].
  destruct (String.eqb k k0) eqn:E.
  - apply String.eqb_eq in E. auto.
  - auto.
Qed.

Lemma in_keys_get {V} (k : string) (o : Obj.t V) :
  In k (Obj.keys o) -> Obj.get k o <> None.
Proof.
  induction o as [|[k0 v0] r IH]; simpl; [tauto|].
  intros [->|Hin].
  - rewrite String.eqb_refl. congruence.
  - destruct (String.eqb k k0); [congruence | auto].
Qed.

Lemma crc32_eq_true (a b : option Z) : crc32_eq a b = true <-> a = b.
Proof.
  destruct a as [x|], b as [y|]; simpl; split; intros H;
    try congruence; try reflexivity.
  - apply Z.eqb_eq in H. congruence.
  - apply Z.eqb_eq. congruence.
Qed.

(** ** The probe leaves the world as it found it *)

Section Probe.
Context {rt : Runtime}.

Lemma pGetFileStat_world (s : Source) (file : string) (w : World) :
  world_of (pGetFileStat_of s file w) = w.
Proof.
  destruct s; simpl;
    unfold LibIndex.pGetFileStat, Part000.pGetFileStat, Fs_existsSync,
      Fs_statSync, Fs_readFileSync, bind, get, ret, throw, isFile; simpl;
    destruct (fs w file) as [n|] eqn:E; simpl; rewrite ?E; simpl; auto;
    destruct (validate (pOptions w)), (node_kind n);
    destruct (node_data n) eqn:D;
    simpl; rewrite ?E; simpl; rewrite ?D; reflexivity.
Qed.

(** On a path that does not exist both probes return [null]. *)
Lemma pGetFileStat_absent (s : Source) (file : string) (w : World) :
  fs w file = None -> pGetFileStat_of s file w = Return None w.
Proof.
  intros H. destruct s; simpl;
    unfold LibIndex.pGetFileStat, Part000.pGetFileStat, Fs_existsSync,
      bind, get, ret; simpl; now rewrite H.
Qed.

End Probe.

(** ** The classifier on a watched target *)

Section Classifier.
Context {rt : Runtime}.

Lemma pHandleChange_target (s : Source) (w : World)
      (dir evt file : string) (f : FileStub) (nstat : option Stats) :
  Obj.get (dir ++ file)%string (pFiles w) = Some f ->
  pGetFileStat_of s (dir ++ file)%string w = Return nstat w ->
  pHandleChange_of s dir evt file w
  = after_probe (dir ++ file)%string evt f nstat w.
Proof.
  intros Hf Hp. destruct s; simpl in *;
    unfold LibIndex.pHandleChange, Part000.pHandleChange, after_probe;
    unfold bind at 1; unfold get at 1; rewrite Hf;
    unfold bind at 1; rewrite Hp; reflexivity.
Qed.

(** When the probe of a watched target raises, the handler raises the same
    error: the world is as it was and no call is made. *)
Lemma pHandleChange_probe_throws (s : Source) (w : World)
      (dir evt file : string) (f : FileStub) (e : Exn) :
  Obj.get (dir ++ file)%string (pFiles w) = Some f ->
  pGetFileStat_of s (dir ++ file)%string w = Throw e w ->
  pHandleChange_of s dir evt file w = Throw e w.
Proof.
  intros Hf Hp. destruct s; simpl in *;
    unfold LibIndex.pHandleChange, Part000.pHandleChange;
    unfold bind at 1; unfold get at 1; rewrite Hf;
    unfold bind at 1; rewrite Hp; reflexivity.
Qed.

(** C6, as the sources have it.  Validation suppression: with [validate]
    on, a change-kind raw event for a watched target whose fresh stat has
    the size of the stored one makes no call when the two fingerprints (the
    checksums) are equal, whatever the bytes are, and exactly one [change]
    call, carrying the fresh stat, when the fingerprints differ; in both
    cases the stored stat is replaced by the fresh one. *)
Theorem validation_suppression (s : Source) (w : World) (dir file : string)
        (f : FileStub) (o n : Stats) :
  validate (pOptions w) = true ->
  Obj.get (dir ++ file)%string (pFiles w) = Some f ->
  stat f = Some o ->
  pGetFileStat_of s (dir ++ file)%string w = Return (Some n) w ->
  size n = size o ->
  (crc32 n = crc32 o ->
   pHandleChange_of s dir kFileChangeEventName file w
   = Return tt (stored w (dir ++ file)%string f (Some n)))
  /\ (crc32 n <> crc32 o ->
      pHandleChange_of s dir kFileChangeEventName file w
      = Return tt (classified w (dir ++ file)%string f (Some n)
                     [mkCall kFileChangeEventName (name f) (VStats n)])).
Proof.
  intros Hv Hf Ho Hp Hsz.
  rewrite (pHandleChange_target s w dir _ file f (Some n) Hf Hp).
  unfold after_probe, classify, bind, get, ret. simpl.
  rewrite Hv, Ho, Hsz, Z.eqb_refl. simpl.
  split; intros Hc.
  - apply crc32_eq_true in Hc. rewrite Hc. reflexivity.
  - destruct (crc32_eq (crc32 n) (crc32 o)) eqn:E.
    + apply crc32_eq_true in E. contradiction.
    + reflexivity.
Qed.

(** C5, as the sources have it.  Driven by a rename-kind raw event for a
    watched target whose probe returns, the classifier makes exactly one
    call, with the fresh stat: [create] iff the target was absent and now
    exists, [remove] iff it existed and is now absent, and the raw [rename]
    itself iff existence did not change. *)
Theorem rename_classification (s : Source) (w : World) (dir file : string)
        (f : FileStub) (nstat : option Stats) :
  Obj.get (dir ++ file)%string (pFiles w) = Some f ->
  pGetFileStat_of s (dir ++ file)%string w = Return nstat w ->
  exists e,
    pHandleChange_of s dir kFileRenameEventName file w
    = Return tt (classified w (dir ++ file)%string f nstat
                   [mkCall e (name f) (stat_value nstat)])
    /\ (e = kFileCreateEventName <-> stat f = None /\ nstat <> None)
    /\ (e = kFileRemoveEventName <-> stat f <> None /\ nstat = None)
    /\ (e = kFileRenameEventName <-> (stat f = None <-> nstat = None)).
Proof.
  intros Hf Hp.
  rewrite (pHandleChange_target s w dir _ file f nstat Hf Hp).
  unfold after_probe, classify, pCheckFileExistenceChange, file_stub,
    bind, get, ret. simpl. rewrite Hf.
  destruct (stat f) as [o|] eqn:Ho, nstat as [n|]; simpl.
  - exists kFileRenameEventName. split; [reflexivity|].
    repeat split; intros; try discriminate; try tauto;
      intuition congruence.
  - exists kFileRemoveEventName. split; [reflexivity|].
    repeat split; intros; try discriminate; try tauto;
      intuition congruence.
  - exists kFileCreateEventName. split; [reflexivity|].
    repeat split; intros; try discriminate; try tauto;
      intuition congruence.
  - exists kFileRenameEventName. split; [reflexivity|].
    repeat split; intros; try discriminate; try tauto;
      intuition congruence.
Qed.

End Classifier.

Lemma validation_suppression_witness :
  pHandleChange_of lib_index "/a/" kFileChangeEventName "x"
    (watching lib_index validating disk1 ["/a/x"])
  = Return tt
      (stored (watching lib_index validating disk1 ["/a/x"]) "/a/x"
         (mkFileStub "/a/x" (Some (stat_x1 (Some 4046516766))))
         (Some (stat_x1 (Some 4046516766))))
  /\ pHandleChange_of part_000 "/a/" kFileChangeEventName "x"
       (watching_then part_000 validating disk1 ["/a/x"] disk2)
     = Return tt
         (classified (watching_then part_000 validating disk1 ["/a/x"] disk2)
            "/a/x" (mkFileStub "/a/x" (Some (stat_x1 (Some 4046516766))))
            (Some (stat_x2 (Some 637179637)))
            [mkCall kFileChangeEventName "/a/x"
                    (VStats (stat_x2 (Some 637179637)))]).
Proof.
  split.
  - apply (validation_suppression lib_index
             (watching lib_index validating disk1 ["/a/x"]) "/a/" "x"
             (mkFileStub "/a/x" (Some (stat_x1 (Some 4046516766))))
             (stat_x1 (Some 4046516766)) (stat_x1 (Some 4046516766)));
      reflexivity.
  - apply (validation_suppression part_000
             (watching_then part_000 validating disk1 ["/a/x"] disk2)
             "/a/" "x"
             (mkFileStub "/a/x" (Some (stat_x1 (Some 4046516766))))
             (stat_x1 (Some 4046516766)) (stat_x2 (Some 637179637)));
      try reflexivity.
    simpl. discriminate.
Defined.

(** C6, at an input where the claim as worded fails.  With validation on,
    /a/x is watched while it holds the five bytes 1 2 3 4 5 and is then
    rewritten with the five bytes 240 116 239 1 4: other bytes, the same
    size, and the same CRC-32C.  The change-kind raw event that follows is
    handled without a call, in both files; the stored stat is replaced. *)
Lemma same_size_rewrite_unreported :
  bytes_x5 <> bytes_x4
  /\ List.length bytes_x5 = List.length bytes_x4
  /\ crc32c bytes_x5 = crc32c bytes_x4
  /\ forall s,
       calls (watching_then s validating disk4 ["/a/x"] disk5) = []
       /\ Obj.get "/a/x"
            (pFiles (watching_then s validating disk4 ["/a/x"] disk5))
          = Some (mkFileStub "/a/x"
                    (Some (mkStats RegularFile 5 11 (Some 1397854123))))
       /\ pGetFileStat_of s "/a/x"
            (watching_then s validating disk4 ["/a/x"] disk5)
          = Return (Some (mkStats RegularFile 5 21 (Some 1397854123)))
              (watching_then s validating disk4 ["/a/x"] disk5)
       /\ pHandleChange_of s "/a/" kFileChangeEventName "x"
            (watching_then s validating disk4 ["/a/x"] disk5)
          = Return tt
              (stored (watching_then s validating disk4 ["/a/x"] disk5)
                 "/a/x"
                 (mkFileStub "/a/x"
                    (Some (mkStats RegularFile 5 11 (Some 1397854123))))
                 (Some (mkStats RegularFile 5 21 (Some 1397854123))))
       /\ calls (world_of
                   (pHandleChange_of s "/a/" kFileChangeEventName "x"
                      (watching_then s validating disk4 ["/a/x"] disk5)))
          = [].
Proof.
  split; [discriminate|]. split; [reflexivity|]. split; [reflexivity|].
  intros s; destruct s; repeat split; reflexivity.
Qed.

(** C5, at an input where the claim as worded fails: /a/x exists when it is
    watched and still exists when the rename-kind event arrives, and the
    classifier does make a call, reporting [rename]. *)
Lemma rename_reported_when_existence_unchanged :
  (Obj.get "/a/x" (pFiles (watching lib_index default_options disk1 ["/a/x"]))
   = Some (mkFileStub "/a/x" (Some (stat_x1 None)))
   /\ pGetFileStat_of lib_index "/a/x"
        (watching lib_index default_options disk1 ["/a/x"])
      = Return (Some (stat_x1 None))
          (watching lib_index default_options disk1 ["/a/x"])
   /\ calls (watching lib_index default_options disk1 ["/a/x"]) = []
   /\ calls (world_of (pHandleChange_of lib_index "/a/" kFileRenameEventName
                         "x" (watching lib_index default_options disk1
                                ["/a/x"])))
      = [mkCall "rename" "/a/x" (VStats (stat_x1 None))])
  /\ (Obj.get "/a/x" (pFiles (watching part_000 default_options disk1 ["/a/x"]))
      = Some (mkFileStub "/a/x" (Some (stat_x1 None)))
      /\ pGetFileStat_of part_000 "/a/x"
           (watching part_000 default_options disk1 ["/a/x"])
         = Return (Some (stat_x1 None))
             (watching part_000 default_options disk1 ["/a/x"])
      /\ calls (watching part_000 default_options disk1 ["/a/x"]) = []
      /\ calls (world_of (pHandleChange_of part_000 "/a/"
                            kFileRenameEventName "x"
                            (watching part_000 default_options disk1
                               ["/a/x"])))
         = [mkCall "rename" "/a/x" (VStats (stat_x1 None))]).
Proof. repeat split; reflexivity. Qed.

Lemma rename_classification_witness :
  exists e,
    pHandleChange_of part_000 "/a/" kFileRenameEventName "x"
      (watching_then part_000 default_options disk1 ["/a/x"] disk3)
    = Return tt
        (classified
           (watching_then part_000 default_options disk1 ["/a/x"] disk3)
           "/a/x" (mkFileStub "/a/x" (Some (stat_x1 None))) None
           [mkCall e "/a/x" VNull])
    /\ (e = kFileCreateEventName <->
        Some (stat_x1 None) = None /\ @None Stats <> None)
    /\ (e = kFileRemoveEventName <->
        Some (stat_x1 None) <> None /\ @None Stats = None)
    /\ (e = kFileRenameEventName <->
        (Some (stat_x1 None) = None <-> @None Stats = None)).
Proof.
  apply (rename_classification part_000
           (watching_then part_000 default_options disk1 ["/a/x"] disk3)
           "/a/" "x" (mkFileStub "/a/x" (Some (stat_x1 None))) None);
    reflexivity.
Defined.

(** ** Preservation: the rules of the monad *)

Lemma preserves_ret {A} (I : World -> Prop) (a : A) : preserves I (ret a).
Proof. intros w H. exact H. Qed.

Lemma preserves_throw {A} (I : World -> Prop) (e : Exn) :
  preserves I (@throw A e).
Proof. intros w H. exact H. Qed.

Lemma preserves_get (I : World -> Prop) : preserves I get.
Proof. intros w H. exact H. Qed.

Lemma preserves_modify (I : World -> Prop) (f : World -> World) :
  (forall w, I w -> I (f w)) -> preserves I (modify f).
Proof. intros Hf w H. simpl. auto. Qed.

Lemma preserves_bind {A B} (I : World -> Prop) (m : M A) (k : A -> M B) :
  preserves I m -> (forall a, preserves I (k a)) -> preserves I (bind m k).
Proof.
  intros Hm Hk w H. unfold bind.
  specialize (Hm w H). destruct (m w) as [a w'|e w']; simpl in *.
  - apply Hk. exact Hm.
  - exact Hm.
Qed.

(** What follows a [throw] is never run. *)
Lemma preserves_after_throw {A B} (I : World -> Prop) (e : Exn)
      (k : A -> M B) :
  preserves I (bind (throw e) k).
Proof. intros w H. exact H. Qed.

Lemma preserves_forEach {A} (I : World -> Prop) (l : list A)
      (body : A -> M unit) :
  (forall x, preserves I (body x)) -> preserves I (forEach l body).
Proof.
  intros Hb. induction l as [|x r IH]; simpl.
  - apply preserves_ret.
  - apply preserves_bind; auto.
Qed.

Ltac pres_step :=
  lazymatch goal with
  | |- preserves _ (ret _) => apply preserves_ret
  | |- preserves _ (throw _) => apply preserves_throw
  | |- preserves _ get => apply preserves_get
  | |- preserves _ (bind _ _) => apply preserves_bind
  | |- preserves _ (forEach _ _) => apply preserves_forEach
  | |- preserves _ (modify _) =>
      apply preserves_modify; intros;
      match goal with H : _ |- _ => solve [apply H; assumption] end
  | |- preserves _ (match ?x with _ => _ end) => destruct x
  | |- preserves _ (let _ := _ in _) => cbv zeta
  | |- forall _, _ => intro
  end.

Ltac pres := repeat pres_step.

(** As [pres], trying [tac] on each goal before taking the computation
    apart. *)
Ltac pres_with tac := repeat first [tac | pres_step].

(** ** Preservation: what each function may touch *)

Section Frames.
Context {rt : Runtime}.
Variable I : World -> Prop.
Hypothesis HW : frame_watchers I.
Hypothesis HF : frame_pFiles I.
Hypothesis HD : frame_pDirs I.
Hypothesis HC : frame_calls I.
Hypothesis HS : frame_fs I.

Lemma frame_Fs_existsSync p : preserves I (Fs_existsSync p).
Proof using. unfold Fs_existsSync. pres. Qed.

Lemma frame_Fs_statSync p : preserves I (Fs_statSync p).
Proof using. unfold Fs_statSync. pres. Qed.

Lemma frame_Fs_readFileSync p : preserves I (Fs_readFileSync p).
Proof using. unfold Fs_readFileSync. pres. Qed.

Lemma frame_pGetFileStat s file : preserves I (pGetFileStat_of s file).
Proof using.
  intros w H. now rewrite pGetFileStat_world.
Qed.

Lemma frame_Fs_watch dir : preserves I (Fs_watch dir).
Proof using HW. unfold Fs_watch. pres. Qed.

Lemma frame_close h : preserves I (close h).
Proof using HW. unfold close. pres. Qed.

Lemma frame_pCallback evt path arg : preserves I (pCallback evt path arg).
Proof using HC. unfold pCallback. pres. Qed.

Lemma frame_dir_stub dir : preserves I (dir_stub dir).
Proof using. unfold dir_stub. pres. Qed.

Lemma frame_file_stub full : preserves I (file_stub full).
Proof using. unfold file_stub. pres. Qed.

Lemma frame_update_dir dir f : preserves I (update_dir dir f).
Proof using HD. unfold update_dir. pres; apply frame_dir_stub. Qed.

Lemma frame_assign_dir k v : preserves I (assign_dir k v).
Proof using HD. unfold assign_dir. pres. Qed.

Lemma frame_delete_dir k : preserves I (delete_dir k).
Proof using HD. unfold delete_dir. pres. Qed.

Lemma frame_assign_file k v : preserves I (assign_file k v).
Proof using HF. unfold assign_file. pres. Qed.

Lemma frame_delete_file k : preserves I (delete_file k).
Proof using HF. unfold delete_file. pres. Qed.

Lemma frame_pWatchDir dir : preserves I (pWatchDir dir).
Proof using HW HD.
  unfold pWatchDir. pres;
    auto using frame_dir_stub, frame_Fs_existsSync, frame_Fs_watch,
      frame_update_dir.
Qed.

Lemma frame_pUnwatchDir dir : preserves I (pUnwatchDir dir).
Proof using HW HD.
  unfold pUnwatchDir. pres;
    auto using frame_dir_stub, frame_close, frame_update_dir.
Qed.

Lemma frame_ensure_stub dir : preserves I (ensure_stub dir).
Proof using HW HD.
  unfold ensure_stub. pres; auto using frame_assign_dir, frame_pWatchDir.
Qed.

Lemma frame_reset : preserves I reset.
Proof using HW HD HF.
  unfold reset. pres; auto using frame_pUnwatchDir.
Qed.

Lemma frame_save : preserves I save.
Proof using. unfold save. pres. Qed.

Lemma frame_classify full evt file nstat :
  preserves I (classify full evt file nstat).
Proof using.
  unfold classify, pCheckFileExistenceChange. pres;
    auto using frame_file_stub.
Qed.

Lemma frame_restore_entry full saved : preserves I (restore_entry full saved).
Proof using HC.
  unfold restore_entry. pres; auto using frame_file_stub, frame_pCallback.
Qed.

Lemma frame_probe_lib file : preserves I (LibIndex.pGetFileStat file).
Proof using. exact (frame_pGetFileStat lib_index file). Qed.

Lemma frame_probe_part file : preserves I (Part000.pGetFileStat file).
Proof using. exact (frame_pGetFileStat part_000 file). Qed.

Lemma frame_watch s file : preserves I (watch_of s file).
Proof using HW HD HF.
  destruct s; simpl; unfold LibIndex.watch, Part000.watch; pres;
    auto using frame_probe_lib, frame_probe_part, frame_assign_file,
      frame_ensure_stub, frame_update_dir.
Qed.

Lemma frame_watch_lib file : preserves I (LibIndex.watch file).
Proof using HW HD HF. exact (frame_watch lib_index file). Qed.

Lemma frame_watch_part file : preserves I (Part000.watch file).
Proof using HW HD HF. exact (frame_watch part_000 file). Qed.

Lemma frame_unwatch s file : preserves I (unwatch_of s file).
Proof using HW HD HF.
  destruct s; simpl;
    unfold LibIndex.unwatch, Part000.unwatch, Part000.unbound_dir; pres;
    auto using frame_delete_file, frame_update_dir, frame_dir_stub,
      frame_pUnwatchDir, frame_delete_dir.
Qed.

Lemma frame_pHandleChange s dir evt file :
  preserves I (pHandleChange_of s dir evt file).
Proof using HF HC.
  destruct s; simpl;
    unfold LibIndex.pHandleChange, Part000.pHandleChange; pres;
    auto using frame_probe_lib, frame_probe_part, frame_classify,
      frame_assign_file, frame_pCallback, frame_dir_stub.
Qed.

Lemma frame_pHandleChange_lib dir evt file :
  preserves I (LibIndex.pHandleChange dir evt file).
Proof using HF HC. exact (frame_pHandleChange lib_index dir evt file). Qed.

Lemma frame_pHandleChange_part dir evt file :
  preserves I (Part000.pHandleChange dir evt file).
Proof using HF HC. exact (frame_pHandleChange part_000 dir evt file). Qed.

Lemma frame_pCheckFolders s : preserves I (pCheckFolders_of s).
Proof using HW HD HF HC.
  destruct s; simpl;
    unfold LibIndex.pCheckFolders, Part000.pCheckFolders, pCheckFolders_with;
    pres;
    auto using frame_Fs_existsSync, frame_dir_stub, frame_pWatchDir,
      frame_pUnwatchDir, frame_pHandleChange_lib, frame_pHandleChange_part.
Qed.

Lemma frame_restore s files : preserves I (restore_of s files).
Proof using HW HD HF HC.
  destruct s; simpl; unfold LibIndex.restore, Part000.restore, restore_with;
    pres;
    auto using frame_reset, frame_watch_lib, frame_watch_part,
      frame_restore_entry.
Qed.

Lemma frame_getFileStat s file : preserves I (getFileStat_of s file).
Proof using.
  destruct s; simpl; unfold Part000.getFileStat; pres.
Qed.

Lemma frame_perform s a : preserves I (perform s a).
Proof using HW HD HF HC HS.
  destruct a; simpl; pres;
    auto using frame_watch, frame_unwatch, frame_getFileStat, frame_save,
      frame_restore, frame_reset, frame_pCheckFolders, frame_pHandleChange.
Qed.

End Frames.

(** ** watch *)

Section Watch.
Context {rt : Runtime}.

Lemma probe_cases (s : Source) (file : string) (w : World) :
  (exists st, pGetFileStat_of s file w = Return st w)
  \/ (exists e, pGetFileStat_of s file w = Throw e w).
Proof.
  pose proof (pGetFileStat_world s file w) as H.
  destruct (pGetFileStat_of s file w) as [st w'|e w']; simpl in H; subst w';
    eauto.
Qed.

Lemma watch_present (s : Source) (file : string) (w : World) :
  Obj.get (Path_resolve file) (pFiles w) <> None ->
  watch_of s file w = Return tt w.
Proof.
  intros H. destruct s; simpl; unfold LibIndex.watch, Part000.watch;
    unfold bind at 1; unfold get at 1;
    (destruct (Obj.get (Path_resolve file) (pFiles w));
     [reflexivity | congruence]).
Qed.

Lemma watch_probe_throws (s : Source) (file : string) (w : World) (e : Exn) :
  Obj.get (Path_resolve file) (pFiles w) = None ->
  pGetFileStat_of s (Path_resolve file) w = Throw e w ->
  watch_of s file w = Throw e w.
Proof.
  intros H Hp. destruct s; simpl in *; unfold LibIndex.watch, Part000.watch;
    unfold bind at 1; unfold get at 1; rewrite H;
    unfold bind at 1; rewrite Hp; reflexivity.
Qed.

(** Once the probe has returned, the target is registered with the probed
    stat, however the rest of [watch] ends. *)
Lemma watch_registers (s : Source) (file : string) (w : World)
      (st : option Stats) :
  Obj.get (Path_resolve file) (pFiles w) = None ->
  pGetFileStat_of s (Path_resolve file) w = Return st w ->
  Obj.get (Path_resolve file) (pFiles (world_of (watch_of s file w)))
  = Some (mkFileStub (if fullName (pOptions w) then Path_resolve file else file)
                     st).
Proof.
  intros H Hp.
  set (full := Path_resolve file) in *.
  set (stub := mkFileStub (if fullName (pOptions w) then full else file) st).
  set (I := fun x : World => Obj.get full (pFiles x) = Some stub).
  assert (HW : frame_watchers I) by (intros l n x Hx; exact Hx).
  assert (HD : frame_pDirs I) by (intros o x Hx; exact Hx).
  assert (H0 : I (set_pFiles (Obj.set full stub (pFiles w)) w)).
  { unfold I. simpl. apply get_set_same. }
  destruct s; simpl in *; unfold LibIndex.watch, Part000.watch;
    fold full; unfold bind at 1; unfold get at 1; rewrite H;
    unfold bind at 1; rewrite Hp;
    unfold bind at 1; unfold assign_file at 1; unfold modify at 1;
    fold stub.
  - cbv beta.
    match goal with
    | |- Obj.get _ (pFiles (world_of (?m ?x))) = _ =>
        cut (preserves I m); [intros Hm; exact (Hm x H0)|]
    end.
    pres; auto using frame_ensure_stub, frame_update_dir.
  - cbv beta.
    match goal with
    | |- Obj.get _ (pFiles (world_of (?m ?x))) = _ =>
        cut (preserves I m); [intros Hm; exact (Hm x H0)|]
    end.
    pres; auto using frame_ensure_stub, frame_update_dir.
Qed.

(** [watch] never calls back. *)
Lemma watch_silent (s : Source) (file : string) (w : World) :
  calls (world_of (watch_of s file w)) = calls w.
Proof.
  apply (frame_watch (fun x => calls x = calls w)); try reflexivity;
    intro; intros; assumption.
Qed.

(** C8.  Idempotent watch: a second [watch] of the same path leaves the
    world exactly as the first left it; it returns normally whenever the
    first call returned, and more generally whenever the first call left the
    path registered; and [watch] makes no call to the callback. *)
Theorem watch_idempotent (s : Source) (file : string) (w : World) :
  world_of (watch_of s file (world_of (watch_of s file w)))
  = world_of (watch_of s file w)
  /\ (returns (watch_of s file w) = true ->
      watch_of s file (world_of (watch_of s file w))
      = Return tt (world_of (watch_of s file w)))
  /\ (Obj.get (Path_resolve file) (pFiles (world_of (watch_of s file w)))
      <> None ->
      watch_of s file (world_of (watch_of s file w))
      = Return tt (world_of (watch_of s file w)))
  /\ calls (world_of (watch_of s file w)) = calls w.
Proof.
  assert (Hreg : Obj.get (Path_resolve file)
                   (pFiles (world_of (watch_of s file w))) <> None ->
                 watch_of s file (world_of (watch_of s file w))
                 = Return tt (world_of (watch_of s file w))).
  { intros Hin. now apply watch_present. }
  destruct (Obj.get (Path_resolve file) (pFiles w)) as [f|] eqn:Hget.
  - assert (H1 : watch_of s file w = Return tt w)
      by (apply watch_present; congruence).
    rewrite H1. simpl. rewrite H1. simpl.
    repeat split; auto.
  - destruct (probe_cases s (Path_resolve file) w) as [[st Hp]|[e Hp]].
    + pose proof (watch_registers s file w st Hget Hp) as Hr.
      assert (Hin : Obj.get (Path_resolve file)
                      (pFiles (world_of (watch_of s file w))) <> None)
        by congruence.
      rewrite (Hreg Hin). simpl.
      repeat split; auto using watch_silent.
    + pose proof (watch_probe_throws s file w e Hget Hp) as Ht.
      rewrite Ht in *. simpl in *. rewrite Ht. simpl.
      repeat split; auto; intros; try discriminate; congruence.
Qed.

End Watch.

Lemma watch_idempotent_witness :
  watch_of part_000 "/a/x"
    (world_of (watch_of part_000 "/a/x"
                 (FileWatcher_of part_000 default_options disk1)))
  = Return tt
      (world_of (watch_of part_000 "/a/x"
                   (FileWatcher_of part_000 default_options disk1))).
Proof.
  apply (proj1 (proj2 (watch_idempotent part_000 "/a/x"
                         (FileWatcher_of part_000 default_options disk1)))).
  reflexivity.
Defined.

(** ** reset *)

Section Reset.
Context {rt : Runtime}.

Lemma pUnwatchDir_run (dir : string) (g : DirStub) (w : World) :
  Obj.get dir (pDirs w) = Some g ->
  pUnwatchDir dir w
  = Return tt
      match handler g with
      | Some h =>
          set_pDirs (Obj.set dir (with_handler None g) (pDirs w))
            (set_watchers
               (filter (fun e => negb (Nat.eqb (fst e) h)) (watchers w))
               (next_watcher w) w)
      | None => w
      end.
Proof.
  intros H. unfold pUnwatchDir, dir_stub, bind, get. simpl. rewrite H.
  destruct g as [[h|] c wd]; simpl; [|reflexivity].
  unfold close, update_dir, dir_stub, bind, get, modify. simpl. rewrite H.
  reflexivity.
Qed.

(** The loop of [reset] returns, and whatever watcher is open after it was
    open before and is the handler of none of the stubs visited. *)
Lemma unwatch_all (ks : list string) : forall w,
  (forall k, In k ks -> Obj.get k (pDirs w) <> None) ->
  exists w',
    forEach ks pUnwatchDir w = Return tt w'
    /\ forall h d, In (h, d) (watchers w') ->
         In (h, d) (watchers w)
         /\ forall k g, In k ks -> Obj.get k (pDirs w) = Some g ->
                        handler g <> Some h.
Proof.
  induction ks as [|k r IH]; intros w Hks.
  - exists w. split; [reflexivity|]. intros h d Hin. split; [exact Hin|].
    intros k g [].
  - destruct (Obj.get k (pDirs w)) as [g|] eqn:Hk;
      [|exfalso; apply (Hks k); simpl; auto].
    simpl. unfold bind at 1. rewrite (pUnwatchDir_run k g w Hk).
    destruct (handler g) as [h0|] eqn:Hh.
    + set (w1 := set_pDirs _ _).
      destruct (IH w1) as [w' [Hrun Hw']].
      { intros k' Hin. unfold w1. simpl.
        destruct (String.eqb k k') eqn:E.
        - apply String.eqb_eq in E. subst k'. rewrite get_set_same.
          congruence.
        - apply String.eqb_neq in E. rewrite get_set_other by exact E.
          apply Hks. simpl. auto. }
      exists w'. split; [exact Hrun|].
      intros h d Hin. destruct (Hw' h d Hin) as [Hin1 Hnot].
      unfold w1 in Hin1. simpl in Hin1. apply filter_In in Hin1.
      destruct Hin1 as [Hin0 Hne]. simpl in Hne.
      split; [exact Hin0|].
      intros k' g' [->|Hin'] Hg'.
      * rewrite Hk in Hg'. injection Hg' as <-. rewrite Hh.
        intros Heq. injection Heq as ->. rewrite Nat.eqb_refl in Hne.
        discriminate.
      * destruct (String.eqb k k') eqn:E.
        -- apply String.eqb_eq in E. subst k'.
           rewrite Hk in Hg'. injection Hg' as <-. rewrite Hh.
           intros Heq. injection Heq as ->. rewrite Nat.eqb_refl in Hne.
           discriminate.
        -- apply String.eqb_neq in E. apply (Hnot k' g' Hin').
           unfold w1. simpl. rewrite get_set_other by exact E. exact Hg'.
    + destruct (IH w) as [w' [Hrun Hw']].
      { intros k' Hin. apply Hks. simpl. auto. }
      exists w'. split; [exact Hrun|].
      intros h d Hin. destruct (Hw' h d Hin) as [Hin1 Hnot].
      split; [exact Hin1|].
      intros k' g' [->|Hin'] Hg'.
      * rewrite Hk in Hg'. injection Hg' as <-. rewrite Hh. discriminate.
      * apply (Hnot k' g' Hin' Hg').
Qed.

(** [reset] always returns; it empties both maps, and no watcher that was
    the handler of a stub is open afterwards. *)
Lemma reset_returns (w : World) :
  exists w',
    reset w = Return tt w'
    /\ pFiles w' = [] /\ pDirs w' = []
    /\ forall h d, In (h, d) (watchers w') ->
         In (h, d) (watchers w)
         /\ forall k g, Obj.get k (pDirs w) = Some g -> handler g <> Some h.
Proof.
  destruct (unwatch_all (Obj.keys (pDirs w)) w) as [w1 [Hrun Hw1]].
  { intros k Hin. now apply in_keys_get. }
  exists (set_pDirs [] (set_pFiles [] w1)).
  split; [|split; [reflexivity|split; [reflexivity|]]].
  - unfold reset. unfold bind at 1. unfold get at 1.
    unfold bind at 1. rewrite Hrun. reflexivity.
  - simpl. intros h d Hin. destruct (Hw1 h d Hin) as [Hin0 Hnot].
    split; [exact Hin0|]. intros k g Hg. apply (Hnot k g); [|exact Hg].
    apply get_in_keys. congruence.
Qed.

(** With every open watcher owned by a stub, [reset] closes them all. *)
Lemma reset_releases (w : World) :
  handlers_owned w -> watchers (world_of (reset w)) = [].
Proof.
  intros Hown. destruct (reset_returns w) as [w' [Hrun [_ [_ Hw']]]].
  rewrite Hrun. simpl.
  destruct (watchers w') as [|[h d] r] eqn:E; [reflexivity|].
  destruct (Hw' h d) as [Hin Hnot]; [simpl; auto|].
  destruct (Hown h d Hin) as [k [g [Hg Hh]]].
  exfalso. exact (Hnot k g Hg Hh).
Qed.

End Reset.

(** ** Every open watcher is owned by a stub *)

Section Owned.
Context {rt : Runtime}.

Lemma owned_frame_pFiles : frame_pFiles handlers_owned.
Proof. intros o w H. exact H. Qed.

Lemma owned_frame_calls : frame_calls handlers_owned.
Proof. intros l w H. exact H. Qed.

Lemma owned_frame_fs : frame_fs handlers_owned.
Proof. intros d w H. exact H. Qed.

Lemma owned_new (s : Source) (o : Options) (d : FS) :
  handlers_owned (FileWatcher_of s o d).
Proof. destruct s; intros h x []. Qed.

(** Replacing a stub by one with the same handler. *)
Lemma owned_same_handler (w : World) (k : string) (g g' : DirStub) :
  handlers_owned w ->
  Obj.get k (pDirs w) = Some g ->
  handler g' = handler g ->
  handlers_owned (set_pDirs (Obj.set k g' (pDirs w)) w).
Proof.
  intros Hown Hk Hh h d Hin. simpl in *.
  destruct (Hown h d Hin) as [k0 [g0 [Hg0 Hh0]]].
  destruct (String.eqb k k0) eqn:E.
  - apply String.eqb_eq in E. subst k0. exists k, g'.
    rewrite get_set_same. split; [reflexivity|]. congruence.
  - apply String.eqb_neq in E. exists k0, g0.
    rewrite get_set_other by exact E. auto.
Qed.

Lemma owned_update_dir (k : string) (f : DirStub -> DirStub) :
  (forall g, handler (f g) = handler g) ->
  preserves handlers_owned (update_dir k f).
Proof.
  intros Hf w Hown. unfold update_dir, dir_stub, bind, get, modify. simpl.
  destruct (Obj.get k (pDirs w)) as [g|] eqn:Hk; simpl; [|exact Hown].
  now apply owned_same_handler with (g := g).
Qed.

Lemma owned_pWatchDir (dir : option string) :
  preserves handlers_owned (pWatchDir dir).
Proof.
  intros w Hown. unfold pWatchDir, dir_stub. unfold bind at 1 2.
  unfold get at 1.
  destruct (Obj.get (prop dir) (pDirs w)) as [g|] eqn:Hk; [|exact Hown].
  unfold ret at 1.
  destruct g as [[h0|] c wd]; simpl; [exact Hown|].
  destruct dir as [d|]; [|exact Hown].
  simpl in Hk.
  unfold Fs_existsSync, Fs_watch, update_dir, dir_stub, bind, get, ret,
    modify. simpl.
  destruct (fs w d) as [n|] eqn:Hn; simpl; [|exact Hown].
  rewrite Hn. destruct (node_watchable n); simpl; [|exact Hown].
  rewrite Hk. simpl.
  intros h x Hin. simpl in Hin. apply in_app_or in Hin.
  destruct Hin as [Hin|[Heq|[]]].
  - destruct (Hown h x Hin) as [k0 [g0 [Hg0 Hh0]]].
    exists k0, g0. split; [|exact Hh0].
    destruct (String.eqb d k0) eqn:E.
    + apply String.eqb_eq in E. subst k0. rewrite Hk in Hg0.
      injection Hg0 as <-. discriminate.
    + apply String.eqb_neq in E. simpl. now rewrite get_set_other.
  - injection Heq as <- <-.
    exists d, (with_handler (Some (next_watcher w)) (mkDirStub None c wd)).
    simpl. rewrite get_set_same. auto.
Qed.

(** After [pUnwatchDir dir] the stub of [dir] has no handler. *)
Lemma owned_pUnwatchDir_strong (dir : string) (w : World) :
  handlers_owned w ->
  handlers_owned (world_of (pUnwatchDir dir w))
  /\ forall g, Obj.get dir (pDirs (world_of (pUnwatchDir dir w))) = Some g ->
               handler g = None.
Proof.
  intros Hown.
  destruct (Obj.get dir (pDirs w)) as [g|] eqn:Hk.
  - rewrite (pUnwatchDir_run dir g w Hk).
    destruct (handler g) as [h0|] eqn:Hh; simpl.
    + split.
      * intros h x Hin. simpl in Hin. apply filter_In in Hin.
        destruct Hin as [Hin Hne]. simpl in Hne.
        destruct (Hown h x Hin) as [k0 [g0 [Hg0 Hh0]]].
        exists k0, g0. split; [|exact Hh0].
        destruct (String.eqb dir k0) eqn:E.
        -- apply String.eqb_eq in E. subst k0. rewrite Hk in Hg0.
           injection Hg0 as <-. rewrite Hh in Hh0. injection Hh0 as ->.
           rewrite Nat.eqb_refl in Hne. discriminate.
        -- apply String.eqb_neq in E. simpl. now rewrite get_set_other.
      * intros g'. simpl. rewrite get_set_same. intros H. injection H as <-.
        reflexivity.
    + split; [exact Hown|]. intros g'. rewrite Hk. intros H.
      injection H as <-. exact Hh.
  - unfold pUnwatchDir, dir_stub, bind, get. simpl. rewrite Hk. simpl.
    split; [exact Hown|]. intros g. rewrite Hk. discriminate.
Qed.

Lemma owned_pUnwatchDir (dir : string) :
  preserves handlers_owned (pUnwatchDir dir).
Proof. intros w H. now apply owned_pUnwatchDir_strong. Qed.

(** Deleting a stub that has no handler. *)
Lemma owned_delete (w : World) (dir : string) :
  handlers_owned w ->
  (forall g, Obj.get dir (pDirs w) = Some g -> handler g = None) ->
  handlers_owned (set_pDirs (Obj.delete dir (pDirs w)) w).
Proof.
  intros Hown Hnone h x Hin. simpl in *.
  destruct (Hown h x Hin) as [k0 [g0 [Hg0 Hh0]]].
  exists k0, g0. split; [|exact Hh0].
  destruct (String.eqb dir k0) eqn:E.
  - apply String.eqb_eq in E. subst k0. rewrite (Hnone g0 Hg0) in Hh0.
    discriminate.
  - apply String.eqb_neq in E. now rewrite get_delete_other.
Qed.

Lemma owned_unwatch_delete (dir : string) :
  preserves handlers_owned (pUnwatchDir dir ;; delete_dir dir).
Proof.
  intros w Hown. unfold bind.
  destruct (owned_pUnwatchDir_strong dir w Hown) as [H1 H2].
  destruct (pUnwatchDir dir w) as [[] w1|e w1]; simpl in *; [|exact H1].
  now apply owned_delete.
Qed.

Lemma owned_ensure_stub (dir : option string) :
  preserves handlers_owned (ensure_stub dir).
Proof.
  intros w Hown. unfold ensure_stub. unfold bind at 1. unfold get at 1.
  destruct (Obj.get (prop dir) (pDirs w)) as [g|] eqn:Hk; [exact Hown|].
  unfold bind, assign_dir, modify.
  apply (owned_pWatchDir dir).
  intros h x Hin. simpl in *.
  destruct (Hown h x Hin) as [k0 [g0 [Hg0 Hh0]]].
  exists k0, g0. split; [|exact Hh0].
  destruct (String.eqb (prop dir) k0) eqn:E.
  - apply String.eqb_eq in E. subst k0. congruence.
  - apply String.eqb_neq in E. simpl. now rewrite get_set_other.
Qed.

Lemma owned_reset : preserves handlers_owned reset.
Proof.
  intros w Hown h x Hin. rewrite (reset_releases w Hown) in Hin.
  destruct Hin.
Qed.

Lemma owned_probe_lib (file : string) :
  preserves handlers_owned (LibIndex.pGetFileStat file).
Proof. exact (frame_pGetFileStat handlers_owned lib_index file). Qed.

Lemma owned_probe_part (file : string) :
  preserves handlers_owned (Part000.pGetFileStat file).
Proof. exact (frame_pGetFileStat handlers_owned part_000 file). Qed.

Lemma owned_assign_file (k : string) (v : FileStub) :
  preserves handlers_owned (assign_file k v).
Proof. exact (frame_assign_file handlers_owned owned_frame_pFiles k v). Qed.

Lemma owned_delete_file (k : string) :
  preserves handlers_owned (delete_file k).
Proof. exact (frame_delete_file handlers_owned owned_frame_pFiles k). Qed.

Lemma owned_dir_stub (k : string) : preserves handlers_owned (dir_stub k).
Proof. exact (frame_dir_stub handlers_owned k). Qed.

Lemma owned_existsSync (p : string) :
  preserves handlers_owned (Fs_existsSync p).
Proof. exact (frame_Fs_existsSync handlers_owned p). Qed.

Lemma owned_restore_entry (full : string) (saved : FileStub) :
  preserves handlers_owned (restore_entry full saved).
Proof.
  exact (frame_restore_entry handlers_owned owned_frame_calls full saved).
Qed.

Lemma owned_save : preserves handlers_owned save.
Proof. exact (frame_save handlers_owned). Qed.

Lemma owned_pHandleChange (s : Source) (dir evt file : string) :
  preserves handlers_owned (pHandleChange_of s dir evt file).
Proof.
  apply frame_pHandleChange;
    auto using owned_frame_pFiles, owned_frame_calls.
Qed.

Lemma owned_pHandleChange_lib (dir evt file : string) :
  preserves handlers_owned (LibIndex.pHandleChange dir evt file).
Proof. exact (owned_pHandleChange lib_index dir evt file). Qed.

Lemma owned_pHandleChange_part (dir evt file : string) :
  preserves handlers_owned (Part000.pHandleChange dir evt file).
Proof. exact (owned_pHandleChange part_000 dir evt file). Qed.

Lemma owned_watch (s : Source) (file : string) :
  preserves handlers_owned (watch_of s file).
Proof.
  destruct s; simpl; unfold LibIndex.watch, Part000.watch; pres;
    auto using owned_probe_lib, owned_probe_part, owned_assign_file,
      owned_ensure_stub;
    apply owned_update_dir; reflexivity.
Qed.

Lemma owned_watch_lib (file : string) :
  preserves handlers_owned (LibIndex.watch file).
Proof. exact (owned_watch lib_index file). Qed.

Lemma owned_watch_part (file : string) :
  preserves handlers_owned (Part000.watch file).
Proof. exact (owned_watch part_000 file). Qed.

Lemma owned_unwatch (s : Source) (file : string) :
  preserves handlers_owned (unwatch_of s file).
Proof.
  destruct s; simpl;
    unfold LibIndex.unwatch, Part000.unwatch, Part000.unbound_dir;
    pres_with ltac:(apply owned_unwatch_delete);
    auto using owned_delete_file, owned_dir_stub;
    apply owned_update_dir; reflexivity.
Qed.

Lemma owned_pCheckFolders (s : Source) :
  preserves handlers_owned (pCheckFolders_of s).
Proof.
  destruct s; simpl;
    unfold LibIndex.pCheckFolders, Part000.pCheckFolders, pCheckFolders_with;
    pres;
    auto using owned_existsSync, owned_dir_stub, owned_pWatchDir,
      owned_pUnwatchDir, owned_pHandleChange_lib, owned_pHandleChange_part.
Qed.

Lemma owned_restore (s : Source) (files : Obj.t FileStub) :
  preserves handlers_owned (restore_of s files).
Proof.
  destruct s; simpl; unfold LibIndex.restore, Part000.restore, restore_with;
    pres;
    auto using owned_reset, owned_watch_lib, owned_watch_part,
      owned_restore_entry.
Qed.

Lemma owned_perform (s : Source) (a : Action) :
  preserves handlers_owned (perform s a).
Proof.
  destruct a; simpl; pres;
    auto using owned_watch, owned_unwatch, owned_save,
      owned_restore, owned_reset, owned_pCheckFolders, owned_pHandleChange.
  apply frame_getFileStat.
Qed.

(** The invariant of every watcher. *)
Lemma reachable_owned (s : Source) (w : World) :
  reachable s w -> handlers_owned w.
Proof.
  induction 1 as [o d|w a Hr IH].
  - apply owned_new.
  - apply owned_perform. exact IH.
Qed.

End Owned.

(** ** After reset *)

Section AfterReset.
Context {rt : Runtime}.

Lemma reset_calls (w : World) : calls (world_of (reset w)) = calls w.
Proof.
  apply (frame_reset (fun x => calls x = calls w)); try reflexivity;
    intro; intros; assumption.
Qed.

Lemma reset_fs (w : World) : fs (world_of (reset w)) = fs w.
Proof.
  apply (frame_reset (fun x => fs x = fs w)); try reflexivity;
    intro; intros; assumption.
Qed.

Lemma perform_timer (s : Source) (a : Action) (w : World) :
  pTimer (step s w a) = pTimer w /\ pOptions (step s w a) = pOptions w.
Proof.
  apply (frame_perform (fun x => pTimer x = pTimer w
                                 /\ pOptions x = pOptions w));
    try (split; reflexivity); intro; intros; assumption.
Qed.

(** A tick over empty maps does nothing. *)
Lemma tick_idle (s : Source) (w : World) :
  pDirs w = [] -> perform s Tick w = Return tt w.
Proof.
  intros HD. unfold perform, bind, get.
  destruct (pTimer w); [|reflexivity].
  destruct s; simpl;
    unfold LibIndex.pCheckFolders, Part000.pCheckFolders, pCheckFolders_with,
      bind, get; rewrite HD; reflexivity.
Qed.

Lemma idle_step (s : Source) (c : list Call) (w : World) (a : Action) :
  calls_watch a = false -> idle c w -> idle c (step s w a).
Proof.
  intros Ha (HF & HD & HW & HC).
  destruct a; simpl in Ha; try discriminate; unfold step.
  - (* unwatch *)
    assert (E : unwatch_of s file w = Return tt w).
    { destruct s; simpl; unfold LibIndex.unwatch, Part000.unwatch, bind, get;
        rewrite HF; reflexivity. }
    unfold perform. rewrite E. repeat split; assumption.
  - (* getFileStat *)
    assert (E : world_of (getFileStat_of s file w) = w).
    { destruct s; simpl; [reflexivity|].
      unfold Part000.getFileStat, bind, get. rewrite HF. reflexivity. }
    unfold perform. rewrite E. repeat split; assumption.
  - (* save *)
    simpl. repeat split; assumption.
  - (* reset *)
    assert (E : reset w = Return tt (set_pDirs [] (set_pFiles [] w))).
    { unfold reset, bind, get. rewrite HD. reflexivity. }
    unfold perform. rewrite E. repeat split; assumption.
  - (* the timer fires *)
    rewrite (tick_idle s w HD). repeat split; assumption.
  - (* a raw event *)
    unfold perform, bind, get. rewrite HW. simpl. repeat split; assumption.
  - (* the disk changes *)
    simpl. repeat split; assumption.
Qed.

Lemma idle_run (s : Source) (c : list Call) (l : list Action) :
  forall w,
    forallb (fun a => negb (calls_watch a)) l = true ->
    idle c w -> idle c (run s l w).
Proof.
  induction l as [|a r IH]; intros w Hl Hw; simpl in *; [exact Hw|].
  apply andb_true_iff in Hl. destruct Hl as [Ha Hr].
  apply IH; [exact Hr|]. apply idle_step; [|exact Hw].
  now apply negb_true_iff.
Qed.

(** A raw event that reaches an idle watcher, were a closed [FSWatcher] to
    deliver one late, makes no call either. *)
Lemma stray_event_silent (s : Source) (c : list Call)
      (dir evt file : string) (w : World) :
  idle c w -> calls (world_of (pHandleChange_of s dir evt file w)) = c.
Proof.
  intros (HF & HD & HW & HC).
  destruct s; simpl;
    unfold LibIndex.pHandleChange, Part000.pHandleChange, dir_stub, bind, get;
    rewrite HF; simpl; rewrite ?HD; simpl; exact HC.
Qed.

(** C9.  Reset finality: on any watcher, [reset] returns with every
    [FSWatcher] closed and both maps empty, without calling back; and from
    then on, whatever happens that does not call [watch] -- changes of the
    disk, timer ticks, raw events of open watchers, [unwatch],
    [getFileStat], [save], [reset] -- the callback is not invoked, not even
    by a raw event delivered late. *)
Theorem reset_finality (s : Source) (w : World) :
  reachable s w ->
  exists w0,
    reset w = Return tt w0
    /\ watchers w0 = [] /\ pFiles w0 = [] /\ pDirs w0 = []
    /\ calls w0 = calls w
    /\ (forall l,
          forallb (fun a => negb (calls_watch a)) l = true ->
          calls (run s l w0) = calls w)
    /\ (forall l dir evt file,
          forallb (fun a => negb (calls_watch a)) l = true ->
          calls (world_of (pHandleChange_of s dir evt file (run s l w0)))
          = calls w).
Proof.
  intros Hr.
  pose proof (reset_releases w (reachable_owned s w Hr)) as HW.
  pose proof (reset_calls w) as HC.
  destruct (reset_returns w) as [w0 [Hrun [HF [HD _]]]].
  rewrite Hrun in HW, HC. simpl in HW, HC.
  assert (Hidle : idle (calls w) w0) by (repeat split; assumption).
  exists w0. repeat split; auto.
  - intros l Hl.
    destruct (idle_run s (calls w) l w0 Hl Hidle) as (_ & _ & _ & H).
    exact H.
  - intros l dir evt file Hl.
    rewrite (stray_event_silent s (calls w) dir evt file _
               (idle_run s (calls w) l w0 Hl Hidle)).
    reflexivity.
Qed.

(** C10.  The timer outlives [reset].  The constructor installs the interval
    timer (lib/index.js: always; part_000: for a positive interval); no
    action ever changes [pTimer] or [pOptions]; [reset] returns having
    emptied the two maps and closed watchers of the stubs, leaving the
    options, the timer, the disk and the callback's history as they were;
    and a tick after [reset] runs to completion and changes nothing. *)
Theorem timer_outlives_reset (s : Source) :
  (forall o d, pTimer (FileWatcher_of lib_index o d) = Some (interval o))
  /\ (forall o d, pTimer (FileWatcher_of part_000 o d)
                  = if Z.ltb 0 (interval o) then Some (interval o) else None)
  /\ (forall w a, pTimer (step s w a) = pTimer w)
  /\ (forall w, exists w',
        reset w = Return tt w'
        /\ pFiles w' = [] /\ pDirs w' = []
        /\ pOptions w' = pOptions w /\ pTimer w' = pTimer w
        /\ calls w' = calls w /\ fs w' = fs w
        /\ incl (watchers w') (watchers w)
        /\ perform s Tick w' = Return tt w').
Proof.
  split; [reflexivity|]. split; [reflexivity|].
  split; [intros w a; apply perform_timer|].
  intros w.
  pose proof (perform_timer s Reset w) as [HT HO].
  pose proof (reset_calls w) as HC.
  pose proof (reset_fs w) as HS.
  destruct (reset_returns w) as [w' [Hrun [HF [HD HWs]]]].
  unfold step in HT, HO. simpl in HT, HO.
  rewrite Hrun in HT, HO, HC, HS. simpl in *.
  exists w'. repeat split; auto.
  - intros [h d] Hin. now apply HWs.
  - now apply tick_idle.
Qed.

End AfterReset.

Lemma reset_finality_witness :
  exists w0,
    reset (watching part_000 default_options disk1 ["/a/x"]) = Return tt w0
    /\ watchers w0 = [] /\ pFiles w0 = [] /\ pDirs w0 = []
    /\ calls w0 = calls (watching part_000 default_options disk1 ["/a/x"])
    /\ (forall l,
          forallb (fun a => negb (calls_watch a)) l = true ->
          calls (run part_000 l w0)
          = calls (watching part_000 default_options disk1 ["/a/x"]))
    /\ (forall l dir evt file,
          forallb (fun a => negb (calls_watch a)) l = true ->
          calls (world_of (pHandleChange_of part_000 dir evt file
                             (run part_000 l w0)))
          = calls (watching part_000 default_options disk1 ["/a/x"])).
Proof.
  apply (reset_finality part_000
           (watching part_000 default_options disk1 ["/a/x"])).
  exact (reachable_step part_000 _ (Watch "/a/x")
           (reachable_new part_000 default_options disk1)).
Defined.

(** ** What the two files do on paths that are absent or cannot be read *)

Section Absent.
Context {rt : Runtime}.

(** The stub of [d] is there already, or [Fs.watch] does not fail on [d]:
    the statement of [watch] that makes sure of the stub returns. *)
Lemma ensure_stub_returns (d : string) (w : World) :
  Obj.get d (pDirs w) <> None \/ watchable w d = true ->
  exists w' g,
    ensure_stub (Some d) w = Return tt w'
    /\ Obj.get d (pDirs w') = Some g
    /\ count g = match Obj.get d (pDirs w) with
                 | Some g0 => count g0
                 | None => 0
                 end
    /\ pFiles w' = pFiles w /\ calls w' = calls w.
Proof.
  intros Hok.
  unfold ensure_stub, pWatchDir, assign_dir, Fs_existsSync, Fs_watch,
    update_dir, dir_stub, bind, get, ret, modify. simpl.
  destruct (Obj.get d (pDirs w)) as [g0|] eqn:Hd.
  - exists w, g0. auto.
  - destruct Hok as [Hok|Hok]; [congruence|]. unfold watchable in Hok.
    rewrite get_set_same. simpl.
    destruct (fs w d) as [n|] eqn:Hn; simpl.
    + rewrite Hn, Hok. simpl. rewrite get_set_same. simpl.
      eexists. eexists. split; [reflexivity|]. simpl.
      rewrite get_set_same. auto.
    + eexists. eexists. split; [reflexivity|]. simpl.
      rewrite get_set_same. auto.
Qed.

(** lib/index.js: [watch] of a path that does not exist returns, records
    the target with a [null] stat, and the stub of its directory exists with
    the count raised by one; no call is made.  (The directory has its stub
    already, or does not exist either, or can be watched.) *)
Lemma lib_watch_absent (file : string) (w : World) :
  Obj.get (Path_resolve file) (pFiles w) = None ->
  fs w (Path_resolve file) = None ->
  Obj.get (Path_dirname (Path_resolve file) ++ "/")%string (pDirs w) <> None
  \/ watchable w (Path_dirname (Path_resolve file) ++ "/")%string = true ->
  exists w' g,
    LibIndex.watch file w = Return tt w'
    /\ Obj.get (Path_resolve file) (pFiles w')
       = Some (mkFileStub (if fullName (pOptions w) then Path_resolve file
                           else file) None)
    /\ Obj.get (Path_dirname (Path_resolve file) ++ "/")%string (pDirs w')
       = Some g
    /\ count g
       = match Obj.get (Path_dirname (Path_resolve file) ++ "/")%string
                       (pDirs w) with
         | Some g0 => count g0 + 1
         | None => 1
         end
    /\ calls w' = calls w.
Proof.
  intros Hget Hfs Hok.
  pose proof (pGetFileStat_absent lib_index (Path_resolve file) w Hfs) as Hp.
  simpl in Hp.
  unfold LibIndex.watch. unfold bind at 1. unfold get at 1. rewrite Hget.
  unfold bind at 1. rewrite Hp.
  unfold bind at 1. unfold assign_file at 1. unfold modify at 1.
  set (stub := mkFileStub _ None).
  set (w1 := set_pFiles _ w).
  set (dir := (Path_dirname (Path_resolve file) ++ "/")%string).
  destruct (ensure_stub_returns dir w1 Hok)
    as [w2 [g [Hrun [Hg [Hc [HF HC]]]]]].
  unfold bind at 1. rewrite Hrun.
  unfold update_dir, dir_stub, bind, get, modify. simpl. rewrite Hg. simpl.
  eexists. eexists. split; [reflexivity|]. simpl.
  rewrite HF, HC, get_set_same. unfold w1. simpl. rewrite get_set_same.
  repeat split; auto.
  unfold w1 in Hc. simpl in Hc. rewrite Hc.
  destruct (Obj.get dir (pDirs w)); reflexivity.
Qed.

(** part_000: the probe of a directory carries no fingerprint. *)
Lemma part_directory_no_fingerprint (file : string) (w w' : World)
      (st : Stats) :
  Part000.pGetFileStat file w = Return (Some st) w' ->
  isDirectory st = true -> crc32 st = None.
Proof.
  unfold Part000.pGetFileStat, Fs_existsSync, Fs_statSync, Fs_readFileSync,
    bind, get, ret, throw, isFile, isDirectory. simpl.
  destruct (fs w file) as [[k sz mt data wt]|] eqn:E; simpl; rewrite ?E; simpl;
    [|discriminate].
  destruct k; simpl; rewrite ?E; simpl;
    try (intros H; injection H as <- _; simpl; congruence).
  destruct (validate (pOptions w)); simpl; rewrite ?E; simpl.
  - destruct data; simpl; intros H; [|discriminate].
    injection H as <- _. simpl. discriminate.
  - intros H. injection H as <- _. simpl. discriminate.
Qed.

(** Whatever [restore] reports for an entry, the third argument of the call
    is the [crc32] property of the fresh stat (a number, or undefined),
    never the stat. *)
Lemma restore_entry_argument (full : string) (saved : FileStub) (w : World) :
  calls (world_of (restore_entry full saved w)) = calls w
  \/ exists e c,
       calls (world_of (restore_entry full saved w))
       = calls w ++ [mkCall e full (crc32_value c)].
Proof.
  unfold restore_entry, file_stub, bind, get. simpl.
  destruct (Obj.get full (pFiles w)) as [f|]; simpl; [|auto].
  destruct (stat saved) as [o|], (stat f) as [n|]; simpl; eauto.
  destruct (validate (pOptions w)).
  - destruct (negb (size n =? size o) || negb (crc32_eq (crc32 n) (crc32 o)));
      simpl; eauto.
  - destruct (mtime_ne (mtime n) (mtime o)); simpl; eauto.
Qed.

(** On an entry whose fresh stat is the saved one, [restore] makes no call:
    always with validation on, and with validation off when [!=] finds an
    [mtime] equal to itself. *)
Lemma restore_entry_same (full : string) (saved f : FileStub) (w : World) :
  Obj.get full (pFiles w) = Some f ->
  stat f = stat saved ->
  validate (pOptions w) = true \/ (forall t, mtime_ne t t = false) ->
  restore_entry full saved w = Return tt w.
Proof.
  intros Hf Hs Hv. unfold restore_entry, file_stub, bind, get. simpl.
  rewrite Hf. simpl. rewrite Hs.
  destruct (stat saved) as [o|]; simpl; [|reflexivity].
  assert (Hc : crc32_eq (crc32 o) (crc32 o) = true)
    by (now apply crc32_eq_true).
  destruct (validate (pOptions w)).
  - rewrite Z.eqb_refl, Hc. reflexivity.
  - destruct Hv as [Hv|Hv]; [discriminate|]. rewrite Hv. reflexivity.
Qed.

(** With validation on, on an entry whose fresh stat differs from the saved
    one in size or fingerprint, [restore] makes one [change] call, and its
    third argument is the fingerprint. *)
Lemma restore_entry_changed (full : string) (saved f : FileStub)
      (o n : Stats) (w : World) :
  Obj.get full (pFiles w) = Some f ->
  stat f = Some n -> stat saved = Some o ->
  validate (pOptions w) = true ->
  size n <> size o \/ crc32 n <> crc32 o ->
  restore_entry full saved w
  = Return tt
      (set_calls (calls w ++ [mkCall kFileChangeEventName full
                                     (crc32_value (crc32 n))]) w).
Proof.
  intros Hf Hn Ho Hv Hd. unfold restore_entry, file_stub, bind, get. simpl.
  rewrite Hf. simpl. rewrite Hn, Ho, Hv. simpl.
  assert (E : negb (size n =? size o)
              || negb (crc32_eq (crc32 n) (crc32 o)) = true).
  { apply orb_true_iff. destruct Hd as [Hd|Hd].
    - left. apply negb_true_iff. now apply Z.eqb_neq.
    - right. apply negb_true_iff.
      destruct (crc32_eq (crc32 n) (crc32 o)) eqn:E; [|reflexivity].
      apply crc32_eq_true in E. contradiction. }
  rewrite E. reflexivity.
Qed.

(** part_000: [unwatch] never removes a directory stub, however it ends. *)
Lemma part_unwatch_keeps_stubs (file : string) (w : World) :
  Obj.keys (pDirs (world_of (Part000.unwatch file w))) = Obj.keys (pDirs w).
Proof.
  set (I := fun x : World => Obj.keys (pDirs x) = Obj.keys (pDirs w)).
  assert (HF : frame_pFiles I) by (intros o x Hx; exact Hx).
  assert (Hupd : forall k f, preserves I (update_dir k f)).
  { intros k f x Hx. unfold update_dir, dir_stub, bind, get, modify. simpl.
    destruct (Obj.get k (pDirs x)) as [g|] eqn:Hk; simpl; [|exact Hx].
    unfold I in *. simpl. rewrite <- Hx. now apply keys_set_present with g. }
  cut (preserves I (Part000.unwatch file)); [intros H; now apply H|].
  unfold Part000.unwatch, Part000.unbound_dir;
    pres_with ltac:(apply preserves_after_throw);
    auto using frame_delete_file, frame_dir_stub.
Qed.

End Absent.

(** ** Where the sources depart from the specification *)

(** C1.  Snapshot round trip, on a watcher of /a/x and /a/y, in both files.
    With validation on: on an unchanged disk [restore] makes no call; when
    /a/x has been rewritten between [save] and [restore] it makes exactly
    one call, a [change] for /a/x -- but the third argument of that call is
    the fingerprint of the fresh stat, a number, not the fresh stat that the
    registry now holds.
    With validation off [restore] compares the two [mtime] objects with
    [!=], which holds of any two distinct objects: on the unchanged disk it
    reports a [change] for each of the two files, and after the rewrite of
    /a/x it reports /a/y as well; the third argument is undefined. *)
Theorem restore_passes_fingerprint (s : Source) :
  (returns (round_trip s validating disk1 ["/a/x"; "/a/y"] disk1) = true
   /\ calls (world_of (round_trip s validating disk1 ["/a/x"; "/a/y"] disk1))
      = [])
  /\ (returns (round_trip s validating disk1 ["/a/x"; "/a/y"] disk2) = true
      /\ calls (world_of
                  (round_trip s validating disk1 ["/a/x"; "/a/y"] disk2))
         = [mkCall "change" "/a/x" (VNumber 637179637)]
      /\ Obj.get "/a/x"
           (pFiles (world_of
                      (round_trip s validating disk1 ["/a/x"; "/a/y"] disk2)))
         = Some (mkFileStub "/a/x" (Some (stat_x2 (Some 637179637))))
      /\ VNumber 637179637 <> VStats (stat_x2 (Some 637179637)))
  /\ (forall a b, mtime_ne a b = true)
  /\ (returns (round_trip s default_options disk1 ["/a/x"; "/a/y"] disk1)
      = true
      /\ calls (world_of
                  (round_trip s default_options disk1 ["/a/x"; "/a/y"] disk1))
         = [mkCall "change" "/a/x" VUndefined;
            mkCall "change" "/a/y" VUndefined])
  /\ (returns (round_trip s default_options disk1 ["/a/x"; "/a/y"] disk2)
      = true
      /\ calls (world_of
                  (round_trip s default_options disk1 ["/a/x"; "/a/y"] disk2))
         = [mkCall "change" "/a/x" VUndefined;
            mkCall "change" "/a/y" VUndefined]
      /\ Obj.get "/a/x"
           (pFiles (world_of
                      (round_trip s default_options disk1 ["/a/x"; "/a/y"]
                         disk2)))
         = Some (mkFileStub "/a/x" (Some (stat_x2 None)))
      /\ VUndefined <> VStats (stat_x2 None)).
Proof.
  destruct s; repeat split; try reflexivity; discriminate.
Qed.

(** C2.  Operations and handlers that throw:
    - part_000, [unwatch] of the only target of its directory:
      [ReferenceError] (the identifier [dir] is not bound);
    - both files, [restore] of a snapshot whose file has since been removed:
      [TypeError] ([nstat.crc32] on [null]);
    - both files, with validation on, a change-kind raw event for a target
      that has since been removed: [TypeError] ([nstat.size] on [null]);
    - part_000, [watch] of a path that does not exist: [TypeError];
    - both files, with validation on, [watch] of a file that may not be
      read: the error of [Fs.readFileSync]. *)
Theorem operations_can_throw :
  thrown (Part000.unwatch "/a/x"
            (watching part_000 default_options disk1 ["/a/x"]))
  = Some ReferenceError
  /\ (forall s, thrown (round_trip s default_options disk1 ["/a/x"] disk3)
                = Some TypeError)
  /\ (forall s, thrown (pHandleChange_of s "/a/" kFileChangeEventName "x"
                          (watching_then s validating disk1 ["/a/x"] disk3))
                = Some TypeError)
  /\ thrown (Part000.watch "/nope"
               (Part000.FileWatcher default_options disk1))
     = Some TypeError
  /\ (forall s, thrown (watch_of s "/a/locked"
                          (FileWatcher_of s validating disk1))
                = Some SystemError).
Proof.
  repeat split; try (intros s; destruct s); reflexivity.
Qed.

(** C3.  part_000: [watch] of a path that does not exist throws a
    [TypeError] ([stub.stat.isDirectory()] on [null]); the target has been
    recorded with a [null] stat, but no directory stub has been created.
    lib/index.js returns on the same input, with the stub created. *)
Theorem watch_absent_path_throws :
  Part000.watch "/nope" (Part000.FileWatcher default_options disk1)
  = Throw TypeError
      (set_pFiles [("/nope", mkFileStub "/nope" None)]
         (Part000.FileWatcher default_options disk1))
  /\ pDirs (world_of (Part000.watch "/nope"
                        (Part000.FileWatcher default_options disk1))) = []
  /\ LibIndex.watch "/nope" (LibIndex.FileWatcher default_options disk1)
     = Return tt
         (set_pDirs [("//", mkDirStub None 1 false)]
            (set_pFiles [("/nope", mkFileStub "/nope" None)]
               (LibIndex.FileWatcher default_options disk1))).
Proof. repeat split; reflexivity. Qed.

(** C4.  Directory share.  In both files, watching /a/x and /a/y creates
    one stub for /a/ with count 2, and unwatching /a/x leaves it with count
    1.  Unwatching /a/y then destroys the stub and closes its watcher in
    lib/index.js; in part_000 it throws a [ReferenceError] instead, and the
    stub stays, with count 0, no [watchDir] and its watcher still open. *)
Theorem last_unwatch_throws :
  (forall s,
     pDirs (run s [Watch "/a/x"; Watch "/a/y"]
              (FileWatcher_of s default_options disk1))
     = [("/a/", mkDirStub (Some 0%nat) 2 false)]
     /\ pDirs (run s [Watch "/a/x"; Watch "/a/y"; Unwatch "/a/x"]
                 (FileWatcher_of s default_options disk1))
        = [("/a/", mkDirStub (Some 0%nat) 1 false)])
  /\ (returns (LibIndex.unwatch "/a/y"
                 (run lib_index [Watch "/a/x"; Watch "/a/y"; Unwatch "/a/x"]
                    (LibIndex.FileWatcher default_options disk1))) = true
      /\ pDirs (run lib_index
                  [Watch "/a/x"; Watch "/a/y"; Unwatch "/a/x"; Unwatch "/a/y"]
                  (LibIndex.FileWatcher default_options disk1)) = []
      /\ watchers (run lib_index
                     [Watch "/a/x"; Watch "/a/y"; Unwatch "/a/x";
                      Unwatch "/a/y"]
                     (LibIndex.FileWatcher default_options disk1)) = [])
  /\ (thrown (Part000.unwatch "/a/y"
                (run part_000 [Watch "/a/x"; Watch "/a/y"; Unwatch "/a/x"]
                   (Part000.FileWatcher default_options disk1)))
      = Some ReferenceError
      /\ pFiles (run part_000
                   [Watch "/a/x"; Watch "/a/y"; Unwatch "/a/x"; Unwatch "/a/y"]
                   (Part000.FileWatcher default_options disk1)) = []
      /\ pDirs (run part_000
                  [Watch "/a/x"; Watch "/a/y"; Unwatch "/a/x"; Unwatch "/a/y"]
                  (Part000.FileWatcher default_options disk1))
         = [("/a/", mkDirStub (Some 0%nat) 0 false)]
      /\ watchers (run part_000
                     [Watch "/a/x"; Watch "/a/y"; Unwatch "/a/x";
                      Unwatch "/a/y"]
                     (Part000.FileWatcher default_options disk1))
         = [(0%nat, "/a/")]).
Proof.
  repeat split; try (destruct s); reflexivity.
Qed.

(** C7.  The probe.  On a path that does not exist both probes return
    [null] ([pGetFileStat_absent]), and the probe of part_000 attaches no
    fingerprint to a directory ([part_directory_no_fingerprint]).  But with
    validation on, the probe of lib/index.js reads a directory as if it were
    a file, and the read raises; and both probes raise on a regular file
    that may not be read. *)
Theorem probe_can_raise :
  thrown (LibIndex.pGetFileStat "/a" (LibIndex.FileWatcher validating disk1))
  = Some SystemError
  /\ Part000.pGetFileStat "/a" (Part000.FileWatcher validating disk1)
     = Return (Some (mkStats Directory 4096 10 None))
         (Part000.FileWatcher validating disk1)
  /\ (forall s, thrown (pGetFileStat_of s "/a/locked"
                          (FileWatcher_of s validating disk1))
                = Some SystemError)
  /\ (forall s, pGetFileStat_of s "/nope" (FileWatcher_of s validating disk1)
                = Return None (FileWatcher_of s validating disk1)).
Proof.
  repeat split; try (intros s; destruct s); reflexivity.
Qed.

(** * Further properties of the two files *)

(** ** Which operations can call back *)

Section Quiet.
Context {rt : Runtime}.

(** X1.  [watch], [unwatch], [getFileStat], [save] and [reset] never invoke the
    callback, whether they return or throw; nor does a change of the disk
    by itself. *)
Theorem operations_never_call_back (s : Source) (a : Action) (w : World) :
  may_call_back a = false -> calls (step s w a) = calls w.
Proof.
  intros Ha. destruct a; simpl in Ha; try discriminate; unfold step;
    simpl perform.
  - apply watch_silent.
  - apply (frame_unwatch (fun x => calls x = calls w)); try reflexivity;
      intro; intros; assumption.
  - exact (frame_getFileStat (fun x => calls x = calls w) s file w eq_refl).
  - reflexivity.
  - apply reset_calls.
  - reflexivity.
Qed.

Lemma run_app (s : Source) (l1 l2 : list Action) (w : World) :
  run s (l1 ++ l2) w = run s l2 (run s l1 w).
Proof. unfold run. apply fold_left_app. Qed.

Lemma run_reachable (s : Source) (l : list Action) :
  forall w, reachable s w -> reachable s (run s l w).
Proof.
  induction l as [|a r IH]; intros w Hw; simpl; [exact Hw|].
  apply IH. now apply reachable_step.
Qed.

Lemma run_timer (s : Source) (l : list Action) :
  forall w, pTimer (run s l w) = pTimer w
            /\ pOptions (run s l w) = pOptions w.
Proof.
  induction l as [|a r IH]; intros w; simpl; [auto|].
  destruct (IH (step s w a)) as [HT HO].
  destruct (perform_timer s a w) as [HT' HO'].
  split; congruence.
Qed.

(** X2.  No native handle leaks: in every state a watcher can reach, also
    through operations that threw, each open [FSWatcher] is the handler of
    some directory stub. *)
Theorem no_orphan_watchers (s : Source) (o : Options) (d : FS)
        (l : list Action) :
  handlers_owned (run s l (FileWatcher_of s o d)).
Proof.
  apply (reachable_owned s). apply run_reachable. apply reachable_new.
Qed.

(** X3.  Polling.  part_000 installs no timer for a non-positive interval, and
    nothing installs one later: a tick never runs, whatever has happened to
    the watcher.  lib/index.js installs the timer whatever the interval.
    The options are those given at construction for the watcher's whole
    life. *)
Theorem no_polling_for_nonpositive_interval (o : Options) (d : FS)
        (l : list Action) :
  interval o <= 0 ->
  pTimer (run part_000 l (Part000.FileWatcher o d)) = None
  /\ perform part_000 Tick (run part_000 l (Part000.FileWatcher o d))
     = Return tt (run part_000 l (Part000.FileWatcher o d))
  /\ pTimer (run lib_index l (LibIndex.FileWatcher o d))
     = Some (interval o)
  /\ (forall s, pOptions (run s l (FileWatcher_of s o d)) = o).
Proof.
  intros Hi.
  assert (HT : pTimer (run part_000 l (Part000.FileWatcher o d)) = None).
  { destruct (run_timer part_000 l (Part000.FileWatcher o d)) as [H _].
    rewrite H. simpl. destruct (Z.ltb_spec 0 (interval o)); [lia|].
    reflexivity. }
  split; [exact HT|]. split.
  - unfold perform, bind, get. rewrite HT. reflexivity.
  - split.
    + destruct (run_timer lib_index l (LibIndex.FileWatcher o d)) as [H _].
      rewrite H. reflexivity.
    + intros s. destruct (run_timer s l (FileWatcher_of s o d)) as [_ H].
      rewrite H. destruct s; reflexivity.
Qed.

End Quiet.

Lemma operations_never_call_back_witness :
  calls (step part_000 (watching part_000 default_options disk1 ["/a/x"])
           (Unwatch "/a/x"))
  = calls (watching part_000 default_options disk1 ["/a/x"]).
Proof.
  apply (operations_never_call_back part_000 (Unwatch "/a/x")).
  reflexivity.
Defined.

Lemma no_polling_for_nonpositive_interval_witness :
  pTimer (run part_000 [Watch "/a/x"; Tick]
            (Part000.FileWatcher polling_off disk1)) = None
  /\ perform part_000 Tick
       (run part_000 [Watch "/a/x"; Tick]
          (Part000.FileWatcher polling_off disk1))
     = Return tt (run part_000 [Watch "/a/x"; Tick]
                    (Part000.FileWatcher polling_off disk1))
  /\ pTimer (run lib_index [Watch "/a/x"; Tick]
               (LibIndex.FileWatcher polling_off disk1))
     = Some (interval polling_off)
  /\ (forall s, pOptions (run s [Watch "/a/x"; Tick]
                            (FileWatcher_of s polling_off disk1))
                = polling_off).
Proof.
  apply (no_polling_for_nonpositive_interval polling_off disk1
           [Watch "/a/x"; Tick]).
  simpl. lia.
Defined.

(** ** The reconciliation tick *)

Section Tick.
Context {rt : Runtime}.

Lemma get_In {V} (k : string) (v : V) (o : Obj.t V) :
  Obj.get k o = Some v -> In (k, v) o.
Proof.
  induction o as [|[k0 v0] r IH]; simpl; [discriminate|].
  destruct (String.eqb k k0) eqn:E.
  - apply String.eqb_eq in E. subst k0. intros H. injection H as ->. auto.
  - auto.
Qed.

Lemma sweep_no_drift
      (pHandleChange : string -> string -> string -> M unit)
      (ks : list string) (w : World) :
  in_sync w = true ->
  (forall d, In d ks -> Obj.get d (pDirs w) <> None) ->
  forEach ks (fun dir =>
    exist <- Fs_existsSync dir ;;
    g <- dir_stub dir ;;
    if xorb (match handler g with Some _ => true | None => false end) exist
    then
      (if exist then pWatchDir (Some dir) else pUnwatchDir dir) ;;
      w' <- get ;;
      forEach (Obj.keys (pFiles w')) (fun fullName =>
        if String.prefix dir fullName
        then pHandleChange dir kFileRenameEventName
               (String.substring (String.length dir)
                  (String.length fullName - String.length dir) fullName)
        else ret tt)
    else ret tt) w
  = Return tt w.
Proof.
  intros Hs. induction ks as [|d r IH]; intros Hks; [reflexivity|].
  simpl. unfold bind at 1.
  assert (Hd : Obj.get d (pDirs w) <> None) by (apply Hks; simpl; auto).
  destruct (Obj.get d (pDirs w)) as [g|] eqn:Hg; [|congruence].
  unfold in_sync in Hs. rewrite forallb_forall in Hs.
  specialize (Hs (d, g) (get_In d g (pDirs w) Hg)). simpl in Hs.
  unfold has_handler, on_disk in Hs.
  unfold Fs_existsSync, dir_stub, bind, get, ret. simpl. rewrite Hg.
  destruct (handler g), (fs w d); simpl in *; try discriminate;
    apply IH; intros d' Hd'; apply Hks; simpl; auto.
Qed.

(** X4.  A tick that finds no drift does nothing: when every stub holds a handler
    exactly when its directory exists, [pCheckFolders] returns and the world
    is as it was -- no handle is opened or closed, no file is probed, no
    call is made. *)
Theorem tick_without_drift (s : Source) (w : World) :
  in_sync w = true -> pCheckFolders_of s w = Return tt w.
Proof.
  intros Hs.
  destruct s; simpl;
    unfold LibIndex.pCheckFolders, Part000.pCheckFolders, pCheckFolders_with;
    unfold bind at 1; unfold get at 1;
    (apply sweep_no_drift; [exact Hs|]);
    intros d Hd; now apply in_keys_get.
Qed.

End Tick.

Lemma tick_without_drift_witness :
  pCheckFolders_of part_000
    (watching part_000 default_options disk1 ["/a/x"; "/a"])
  = Return tt (watching part_000 default_options disk1 ["/a/x"; "/a"]).
Proof.
  apply (tick_without_drift part_000
           (watching part_000 default_options disk1 ["/a/x"; "/a"])).
  reflexivity.
Defined.

(** ** Raw events *)

Section RawEvents.
Context {rt : Runtime}.

(** X5.  Any raw event for a watched target that is not a [rename] -- and, with
    validation on, not a [change] either -- is forwarded under its own name
    with the fresh stat, which replaces the stored one.  In particular,
    with validation off every [change] is forwarded, also for a target that
    no longer exists (the stat is then [null]). *)
Theorem raw_event_forwarded (s : Source) (w : World)
        (dir evt file : string) (f : FileStub) (nstat : option Stats) :
  Obj.get (dir ++ file)%string (pFiles w) = Some f ->
  pGetFileStat_of s (dir ++ file)%string w = Return nstat w ->
  evt <> kFileRenameEventName ->
  evt <> EmptyString ->
  validate (pOptions w) = false \/ evt <> kFileChangeEventName ->
  pHandleChange_of s dir evt file w
  = Return tt (classified w (dir ++ file)%string f nstat
                 [mkCall evt (name f) (stat_value nstat)]).
Proof.
  intros Hf Hp Hr He Hv.
  rewrite (pHandleChange_target s w dir evt file f nstat Hf Hp).
  unfold after_probe, classify. unfold bind at 1 2. unfold get at 1.
  apply String.eqb_neq in Hr. rewrite Hr.
  assert (Ht : truthy (Some evt) = true).
  { simpl. apply String.eqb_neq in He. now rewrite He. }
  destruct (String.eqb evt kFileChangeEventName) eqn:Ec.
  - destruct Hv as [Hv|Hv].
    + rewrite Hv. unfold ret at 1. unfold bind, assign_file, modify.
      rewrite Ht. reflexivity.
    + apply String.eqb_eq in Ec. contradiction.
  - unfold ret at 1. unfold bind, assign_file, modify.
    rewrite Ht. reflexivity.
Qed.

End RawEvents.

Lemma raw_event_forwarded_witness :
  pHandleChange_of lib_index "/a/" "change" "x"
    (watching_then lib_index default_options disk1 ["/a/x"] disk3)
  = Return tt
      (classified
         (watching_then lib_index default_options disk1 ["/a/x"] disk3)
         "/a/x" (mkFileStub "/a/x" (Some (stat_x1 None))) None
         [mkCall "change" "/a/x" VNull]).
Proof.
  apply (raw_event_forwarded lib_index
           (watching_then lib_index default_options disk1 ["/a/x"] disk3)
           "/a/" "change" "x" (mkFileStub "/a/x" (Some (stat_x1 None))) None);
    try reflexivity; try discriminate.
  left. reflexivity.
Defined.

(** ** The probe *)

Section ProbeResult.
Context {rt : Runtime}.

(** X6.  A stat returned by the probe describes what the disk holds at the
    path, and the world is untouched.  Its fingerprint is the checksum of
    the file's bytes; it is present exactly when validation is on and, in
    part_000, the path is a regular file. *)
Theorem probe_result (s : Source) (file : string) (w w' : World)
        (st : Stats) :
  pGetFileStat_of s file w = Return (Some st) w' ->
  w' = w
  /\ exists n,
       fs w file = Some n
       /\ kind st = node_kind n /\ size st = node_size n
       /\ mtime st = node_mtime n
       /\ if validate (pOptions w)
             && match s with lib_index => true | part_000 => isFile st end
          then exists data,
                 node_data n = Some data /\ crc32 st = Some (calculate data)
          else crc32 st = None.
Proof.
  intros H.
  pose proof (pGetFileStat_world s file w) as Hw. rewrite H in Hw.
  simpl in Hw. split; [exact Hw|]. subst w'.
  destruct s; simpl in H;
    unfold LibIndex.pGetFileStat, Part000.pGetFileStat, Fs_existsSync,
      Fs_statSync, Fs_readFileSync, bind, get, ret, throw, isFile in *;
    simpl in *;
    destruct (fs w file) as [[k sz mt data wt]|] eqn:E; simpl in *;
    rewrite ?E in H; simpl in H; try discriminate;
    exists (mkNode k sz mt data wt); (split; [reflexivity|]).
  - destruct (validate (pOptions w)); simpl in *; rewrite ?E in H;
      simpl in H.
    + destruct data as [bytes|]; simpl in H; [|discriminate].
      injection H as <-. simpl. repeat split. exists bytes. auto.
    + injection H as <-. simpl. auto.
  - destruct k; simpl in *; rewrite ?E in H; simpl in H;
      destruct (validate (pOptions w)); simpl in *; rewrite ?E in H;
      simpl in H;
      try (injection H as <-; simpl; auto).
    destruct data as [bytes|]; simpl in H; [|discriminate].
    injection H as <-. simpl. repeat split. exists bytes. auto.
Qed.

End ProbeResult.

Lemma probe_result_witness :
  watching part_000 validating disk1 [] = watching part_000 validating disk1 []
  /\ exists n,
       fs (watching part_000 validating disk1 []) "/a" = Some n
       /\ kind (mkStats Directory 4096 10 None) = node_kind n
       /\ size (mkStats Directory 4096 10 None) = node_size n
       /\ mtime (mkStats Directory 4096 10 None) = node_mtime n
       /\ if validate (pOptions (watching part_000 validating disk1 []))
             && isFile (mkStats Directory 4096 10 None)
          then exists data,
                 node_data n = Some data
                 /\ crc32 (mkStats Directory 4096 10 None)
                    = Some (calculate data)
          else crc32 (mkStats Directory 4096 10 None) = None.
Proof.
  apply (probe_result part_000 "/a"
           (watching part_000 validating disk1 [])
           (watching part_000 validating disk1 [])
           (mkStats Directory 4096 10 None)).
  reflexivity.
Defined.

(** ** The cached stat *)

Section Cache.
Context {rt : Runtime}.

(** X7.  part_000: after [watch] of a path that was not registered, and whose
    probe returned, [getFileStat] gives back the probed stat ([null] for a
    path that does not exist) without touching the world -- also when
    [watch] itself threw after registering the target. *)
Theorem getFileStat_after_watch (file : string) (w : World)
        (st : option Stats) :
  Obj.get (Path_resolve file) (pFiles w) = None ->
  Part000.pGetFileStat (Path_resolve file) w = Return st w ->
  Part000.getFileStat file (world_of (Part000.watch file w))
  = Return (Some st) (world_of (Part000.watch file w)).
Proof.
  intros Hg Hp.
  pose proof (watch_registers part_000 file w st Hg Hp) as Hr.
  simpl in Hr. unfold Part000.getFileStat, bind, get. rewrite Hr.
  reflexivity.
Qed.

Lemma classify_world (full evt : string) (f : FileStub)
      (nstat : option Stats) (w : World) :
  world_of (classify full evt f nstat w) = w.
Proof.
  unfold classify, pCheckFileExistenceChange, file_stub, bind, get, ret,
    throw. simpl.
  destruct (String.eqb evt kFileRenameEventName).
  - destruct (Obj.get full (pFiles w)) as [f0|]; simpl; [|reflexivity].
    destruct (stat f0), nstat; reflexivity.
  - destruct (String.eqb evt kFileChangeEventName); [|reflexivity].
    destruct (validate (pOptions w)); [|reflexivity].
    destruct nstat as [n|], (stat f) as [o|]; try reflexivity.
    destruct (Z.eqb (size n) (size o) && crc32_eq (crc32 n) (crc32 o));
      reflexivity.
Qed.

(** X8.  After a raw event for a watched target has been handled without a
    throw, the registered stat is the fresh one, whatever the event was and
    whether or not it was reported; the target keeps its reported name. *)
Theorem stat_tracks_events (s : Source) (w : World)
        (dir evt file : string) (f : FileStub) (nstat : option Stats) :
  Obj.get (dir ++ file)%string (pFiles w) = Some f ->
  pGetFileStat_of s (dir ++ file)%string w = Return nstat w ->
  returns (pHandleChange_of s dir evt file w) = true ->
  Obj.get (dir ++ file)%string
          (pFiles (world_of (pHandleChange_of s dir evt file w)))
  = Some (mkFileStub (name f) nstat).
Proof.
  intros Hf Hp.
  rewrite (pHandleChange_target s w dir evt file f nstat Hf Hp).
  unfold after_probe, bind.
  pose proof (classify_world (dir ++ file) evt f nstat w) as Hc.
  destruct (classify (dir ++ file) evt f nstat w) as [e w1|x w1];
    simpl in Hc; subst w1; [|discriminate].
  intros _. unfold assign_file, modify, pCallback, bind, get. simpl.
  destruct e as [e|]; simpl; [|apply get_set_same].
  destruct (negb (String.eqb e EmptyString)); simpl; apply get_set_same.
Qed.

End Cache.

Lemma getFileStat_after_watch_witness :
  Part000.getFileStat "/nope"
    (world_of (Part000.watch "/nope"
                 (Part000.FileWatcher default_options disk1)))
  = Return (Some None)
      (world_of (Part000.watch "/nope"
                   (Part000.FileWatcher default_options disk1))).
Proof.
  apply (getFileStat_after_watch "/nope"
           (Part000.FileWatcher default_options disk1) None);
    reflexivity.
Defined.

Lemma stat_tracks_events_witness :
  Obj.get "/a/x"
    (pFiles (world_of
               (pHandleChange_of lib_index "/a/" "change" "x"
                  (watching_then lib_index validating disk1 ["/a/x"] disk2))))
  = Some (mkFileStub "/a/x" (Some (stat_x2 (Some 637179637)))).
Proof.
  apply (stat_tracks_events lib_index
           (watching_then lib_index validating disk1 ["/a/x"] disk2)
           "/a/" "change" "x" (mkFileStub "/a/x" (Some (stat_x1 (Some 4046516766))))
           (Some (stat_x2 (Some 637179637))));
    reflexivity.
Defined.

(** ** What watch and unwatch do to the stubs *)

Section StubEffects.
Context {rt : Runtime}.

Lemma ensure_stub_effect (dir : option string) (w : World) :
  dir = None \/ Obj.get (prop dir) (pDirs w) <> None
  \/ watchable w (prop dir) = true ->
  exists w' g,
    ensure_stub dir w = Return tt w'
    /\ Obj.get (prop dir) (pDirs w') = Some g
    /\ count g = count_at (prop dir) w
    /\ watchDir g = watchDir_at (prop dir) w
    /\ pFiles w' = pFiles w /\ calls w' = calls w
    /\ fs w' = fs w /\ pOptions w' = pOptions w
    /\ (forall k, k <> prop dir ->
                  Obj.get k (pDirs w') = Obj.get k (pDirs w))
    /\ (dir = None -> watchers w' = watchers w).
Proof.
  intros Hok.
  unfold ensure_stub, pWatchDir, assign_dir, Fs_existsSync, Fs_watch,
    update_dir, dir_stub, bind, get, ret, modify, count_at, watchDir_at.
  simpl.
  destruct (Obj.get (prop dir) (pDirs w)) as [g0|] eqn:Hd.
  - exists w, g0. repeat split; auto.
  - rewrite get_set_same. simpl.
    destruct dir as [d|]; simpl in *.
    + destruct Hok as [Hok|[Hok|Hok]]; [discriminate|congruence|].
      unfold watchable in Hok.
      destruct (fs w d) as [n|] eqn:Hn; simpl.
      * rewrite Hn, Hok. simpl. rewrite get_set_same. simpl.
        eexists. eexists. split; [reflexivity|]. simpl.
        rewrite get_set_same. repeat split; auto; try discriminate.
        intros k Hk. now rewrite !get_set_other by congruence.
      * eexists. eexists. split; [reflexivity|]. simpl.
        rewrite get_set_same. repeat split; auto; try discriminate.
        intros k Hk. now rewrite get_set_other by congruence.
    + eexists. eexists. split; [reflexivity|]. simpl.
      rewrite get_set_same. repeat split; auto.
      intros k Hk. now rewrite get_set_other by congruence.
Qed.

(** When [Fs.watch] fails, the stub has already been created. *)
Lemma ensure_stub_blocked (d : string) (w : World) :
  Obj.get d (pDirs w) = None -> watchable w d = false ->
  ensure_stub (Some d) w
  = Throw SystemError
      (set_pDirs (Obj.set d (mkDirStub None 0 false) (pDirs w)) w).
Proof.
  intros Hd Hb. unfold watchable in Hb.
  unfold ensure_stub, pWatchDir, assign_dir, Fs_existsSync, Fs_watch,
    update_dir, dir_stub, bind, get, ret, modify, throw. simpl.
  rewrite Hd, get_set_same. simpl.
  destruct (fs w d) as [n|] eqn:Hn; [|discriminate]. simpl.
  rewrite Hn, Hb. reflexivity.
Qed.

(** [watch] of lib/index.js on an unregistered path, once the probe has
    returned, when [Fs.watch] does not fail. *)
Lemma lib_watch_run (file : string) (w : World) (st : option Stats) :
  Obj.get (Path_resolve file) (pFiles w) = None ->
  LibIndex.pGetFileStat (Path_resolve file) w = Return st w ->
  Obj.get (dir_of (Path_resolve file)) (pDirs w) <> None
  \/ watchable w (dir_of (Path_resolve file)) = true ->
  exists w',
    LibIndex.watch file w = Return tt w'
    /\ pFiles w'
       = Obj.set (Path_resolve file)
           (mkFileStub (if fullName (pOptions w) then Path_resolve file
                        else file) st) (pFiles w)
    /\ Obj.get (dir_of (Path_resolve file)) (pDirs w') <> None
    /\ count_at (dir_of (Path_resolve file)) w'
       = count_at (dir_of (Path_resolve file)) w + 1
    /\ (forall k, k <> dir_of (Path_resolve file) ->
                  Obj.get k (pDirs w') = Obj.get k (pDirs w))
    /\ calls w' = calls w.
Proof.
  intros Hget Hp Hok.
  unfold LibIndex.watch. unfold bind at 1. unfold get at 1. rewrite Hget.
  unfold bind at 1. rewrite Hp.
  unfold bind at 1. unfold assign_file at 1. unfold modify at 1.
  set (stub := mkFileStub _ st).
  set (w1 := set_pFiles _ w).
  fold (dir_of (Path_resolve file)).
  set (dir := dir_of (Path_resolve file)) in *.
  destruct (ensure_stub_effect (Some dir) w1)
    as (w2 & g & Hrun & Hg & Hc & _ & HF & HC & _ & _ & Hother & _).
  { right. exact Hok. }
  simpl in Hg, Hc, Hother.
  unfold bind at 1. rewrite Hrun.
  unfold update_dir, dir_stub, bind, get, modify. simpl. rewrite Hg. simpl.
  eexists. split; [reflexivity|]. simpl.
  unfold count_at. simpl. rewrite get_set_same. simpl.
  repeat split; auto.
  - discriminate.
  - rewrite Hc. reflexivity.
  - intros k Hk. rewrite get_set_other by congruence. now apply Hother.
Qed.

(** [watch] of lib/index.js when [Fs.watch] fails: the path has been
    registered and the stub created, and the count has not been raised. *)
Lemma lib_watch_blocked (file : string) (w : World) (st : option Stats) :
  Obj.get (Path_resolve file) (pFiles w) = None ->
  LibIndex.pGetFileStat (Path_resolve file) w = Return st w ->
  Obj.get (dir_of (Path_resolve file)) (pDirs w) = None ->
  watchable w (dir_of (Path_resolve file)) = false ->
  LibIndex.watch file w
  = Throw SystemError
      (set_pDirs
         (Obj.set (dir_of (Path_resolve file)) (mkDirStub None 0 false)
            (pDirs w))
         (set_pFiles
            (Obj.set (Path_resolve file)
               (mkFileStub (if fullName (pOptions w) then Path_resolve file
                            else file) st) (pFiles w)) w)).
Proof.
  intros Hget Hp Hd Hb.
  unfold LibIndex.watch. unfold bind at 1. unfold get at 1. rewrite Hget.
  unfold bind at 1. rewrite Hp.
  unfold bind at 1. unfold assign_file at 1. unfold modify at 1.
  fold (dir_of (Path_resolve file)).
  unfold bind at 1. rewrite ensure_stub_blocked; [reflexivity| |];
    assumption.
Qed.

(** X9.  lib/index.js: [watch] of a path that is not registered, once its probe
    has returned (with a stat, or with [null] for a path that does not
    exist), and provided [Fs.watch] does not fail -- the parent directory
    has its stub already, or does not exist, or can be watched -- returns;
    it registers the path with the probed stat, raises the count of the
    stub of the parent directory by one (creating the stub if need be),
    touches no other stub and makes no call. *)
Theorem lib_watch_effect (file : string) (w : World) (st : option Stats) :
  Obj.get (Path_resolve file) (pFiles w) = None ->
  LibIndex.pGetFileStat (Path_resolve file) w = Return st w ->
  Obj.get (dir_of (Path_resolve file)) (pDirs w) <> None
  \/ watchable w (dir_of (Path_resolve file)) = true ->
  exists w',
    LibIndex.watch file w = Return tt w'
    /\ pFiles w'
       = Obj.set (Path_resolve file)
           (mkFileStub (if fullName (pOptions w) then Path_resolve file
                        else file) st) (pFiles w)
    /\ Obj.get (dir_of (Path_resolve file)) (pDirs w') <> None
    /\ count_at (dir_of (Path_resolve file)) w'
       = count_at (dir_of (Path_resolve file)) w + 1
    /\ (forall k, k <> dir_of (Path_resolve file) ->
                  Obj.get k (pDirs w') = Obj.get k (pDirs w))
    /\ calls w' = calls w.
Proof. exact (lib_watch_run file w st). Qed.



(** [watch] of part_000 on an unregistered path that exists, when
    [Fs.watch] does not fail. *)
Lemma part_watch_run (file : string) (w : World) (st : Stats) :
  Obj.get (Path_resolve file) (pFiles w) = None ->
  Part000.pGetFileStat (Path_resolve file) w = Return (Some st) w ->
  kind st = Other
  \/ Obj.get (part_stub_key (Path_resolve file) st) (pDirs w) <> None
  \/ watchable w (part_stub_key (Path_resolve file) st) = true ->
  exists w',
    Part000.watch file w = Return tt w'
    /\ pFiles w'
       = Obj.set (Path_resolve file)
           (mkFileStub (if fullName (pOptions w) then Path_resolve file
                        else file) (Some st)) (pFiles w)
    /\ Obj.get (part_stub_key (Path_resolve file) st) (pDirs w') <> None
    /\ count_at (part_stub_key (Path_resolve file) st) w'
       = count_at (part_stub_key (Path_resolve file) st) w
         + (if isDirectory st then 0 else 1)
    /\ watchDir_at (part_stub_key (Path_resolve file) st) w'
       = (isDirectory st
          || watchDir_at (part_stub_key (Path_resolve file) st) w)
    /\ (forall k, k <> part_stub_key (Path_resolve file) st ->
                  Obj.get k (pDirs w') = Obj.get k (pDirs w))
    /\ (kind st = Other -> watchers w' = watchers w)
    /\ calls w' = calls w.
Proof.
  intros Hget Hp Hok.
  unfold Part000.watch. unfold bind at 1. unfold get at 1. rewrite Hget.
  unfold bind at 1. rewrite Hp.
  unfold bind at 1. unfold assign_file at 1. unfold modify at 1.
  set (stub := mkFileStub _ (Some st)).
  set (w1 := set_pFiles _ w).
  unfold bind at 1. unfold stub at 1. cbn [stat].
  unfold part_stub_key, isDirectory, isFile, dir_of in *.
  destruct (kind st) eqn:K; unfold ret at 1; cbn [fst snd prop].
  - (* a regular file *)
    set (dir := (Path_dirname (Path_resolve file) ++ "/")%string) in *.
    destruct (ensure_stub_effect (Some dir) w1)
      as (w2 & g & Hrun & Hg & Hc & Hwd & HF & HC & _ & _ & Hother & _).
    { right. destruct Hok as [Hok|Hok]; [discriminate|exact Hok]. }
    simpl in Hg, Hc, Hwd, Hother.
    unfold bind at 1. rewrite Hrun.
    unfold update_dir, dir_stub, bind, get, modify. simpl. rewrite Hg. simpl.
    eexists. split; [reflexivity|]. simpl.
    unfold count_at, watchDir_at. simpl. rewrite get_set_same. simpl.
    repeat split; auto; try discriminate.
    + rewrite Hc. reflexivity.
    + intros k Hk. rewrite get_set_other by congruence. now apply Hother.
  - (* a directory *)
    destruct (ensure_stub_effect (Some (Path_resolve file)) w1)
      as (w2 & g & Hrun & Hg & Hc & Hwd & HF & HC & _ & _ & Hother & _).
    { right. destruct Hok as [Hok|Hok]; [discriminate|exact Hok]. }
    simpl in Hg, Hc, Hwd, Hother.
    unfold bind at 1. rewrite Hrun.
    unfold update_dir, dir_stub, bind, get, modify. simpl. rewrite Hg. simpl.
    eexists. split; [reflexivity|]. simpl.
    unfold count_at, watchDir_at. simpl. rewrite get_set_same. simpl.
    repeat split; auto; try discriminate.
    + rewrite Hc. unfold count_at. simpl. lia.
    + intros k Hk. rewrite get_set_other by congruence. now apply Hother.
  - (* neither *)
    destruct (ensure_stub_effect None w1)
      as (w2 & g & Hrun & Hg & Hc & Hwd & HF & HC & _ & _ & Hother & HW).
    { left. reflexivity. }
    simpl in Hg, Hc, Hwd, Hother.
    unfold bind at 1. rewrite Hrun.
    unfold update_dir, dir_stub, bind, get, modify. simpl. rewrite Hg. simpl.
    eexists. split; [reflexivity|]. simpl.
    unfold count_at, watchDir_at. simpl. rewrite get_set_same. simpl.
    repeat split; auto; try discriminate.
    + rewrite Hc. reflexivity.
    + intros k Hk. rewrite get_set_other by congruence. now apply Hother.
Qed.

(** [watch] of part_000 when [Fs.watch] fails. *)
Lemma part_watch_blocked (file : string) (w : World) (st : Stats) :
  Obj.get (Path_resolve file) (pFiles w) = None ->
  Part000.pGetFileStat (Path_resolve file) w = Return (Some st) w ->
  kind st <> Other ->
  Obj.get (part_stub_key (Path_resolve file) st) (pDirs w) = None ->
  watchable w (part_stub_key (Path_resolve file) st) = false ->
  Part000.watch file w
  = Throw SystemError
      (set_pDirs
         (Obj.set (part_stub_key (Path_resolve file) st)
            (mkDirStub None 0 false) (pDirs w))
         (set_pFiles
            (Obj.set (Path_resolve file)
               (mkFileStub (if fullName (pOptions w) then Path_resolve file
                            else file) (Some st)) (pFiles w)) w)).
Proof.
  intros Hget Hp Hk Hd Hb.
  unfold Part000.watch. unfold bind at 1. unfold get at 1. rewrite Hget.
  unfold bind at 1. rewrite Hp.
  unfold bind at 1. unfold assign_file at 1. unfold modify at 1.
  unfold bind at 1. cbn [stat].
  unfold part_stub_key, isDirectory, isFile, dir_of in *.
  destruct (kind st) eqn:K; [| |congruence]; unfold ret at 1;
    cbn [fst snd prop];
    unfold bind at 1; rewrite ensure_stub_blocked;
    try reflexivity; assumption.
Qed.

(** X11.  part_000: [watch] of a path that is not registered and whose probe
    returned a stat returns, provided [Fs.watch] does not fail (the target
    is neither a file nor a directory, or the stub is there already, or its
    path can be watched).  The target is filed under the stub of the path
    itself when it is a directory ([watchDir] is set, the count is left
    alone), under the stub of the parent when it is a regular file (the
    count is raised by one), and under the stub named "undefined" when it
    is neither (the count of that stub is raised, and no native watch is
    opened for it).  No other stub is touched and no call is made. *)
Theorem part_watch_effect (file : string) (w : World) (st : Stats) :
  Obj.get (Path_resolve file) (pFiles w) = None ->
  Part000.pGetFileStat (Path_resolve file) w = Return (Some st) w ->
  kind st = Other
  \/ Obj.get (part_stub_key (Path_resolve file) st) (pDirs w) <> None
  \/ watchable w (part_stub_key (Path_resolve file) st) = true ->
  exists w',
    Part000.watch file w = Return tt w'
    /\ pFiles w'
       = Obj.set (Path_resolve file)
           (mkFileStub (if fullName (pOptions w) then Path_resolve file
                        else file) (Some st)) (pFiles w)
    /\ Obj.get (part_stub_key (Path_resolve file) st) (pDirs w') <> None
    /\ count_at (part_stub_key (Path_resolve file) st) w'
       = count_at (part_stub_key (Path_resolve file) st) w
         + (if isDirectory st then 0 else 1)
    /\ watchDir_at (part_stub_key (Path_resolve file) st) w'
       = (isDirectory st
          || watchDir_at (part_stub_key (Path_resolve file) st) w)
    /\ (forall k, k <> part_stub_key (Path_resolve file) st ->
                  Obj.get k (pDirs w') = Obj.get k (pDirs w))
    /\ (kind st = Other -> watchers w' = watchers w)
    /\ calls w' = calls w.
Proof. exact (part_watch_run file w st). Qed.

(** X26.  When [Fs.watch] fails, [watch] throws half way, in both files: the
    path is not registered, its probe returns a stat, the stub that would
    own it is missing and its directory exists but cannot be watched.  The
    error of [Fs.watch] propagates; the path has been registered and the
    stub created, with no handler and the count 0, which [watch] did not
    get to raise. *)
Theorem watch_fails_after_registering (s : Source) (file : string)
        (w : World) (st : Stats) :
  Obj.get (Path_resolve file) (pFiles w) = None ->
  pGetFileStat_of s (Path_resolve file) w = Return (Some st) w ->
  s = lib_index \/ kind st <> Other ->
  Obj.get (stub_key s (Path_resolve file) st) (pDirs w) = None ->
  watchable w (stub_key s (Path_resolve file) st) = false ->
  watch_of s file w
  = Throw SystemError
      (set_pDirs
         (Obj.set (stub_key s (Path_resolve file) st)
            (mkDirStub None 0 false) (pDirs w))
         (set_pFiles
            (Obj.set (Path_resolve file)
               (mkFileStub (if fullName (pOptions w) then Path_resolve file
                            else file) (Some st)) (pFiles w)) w)).
Proof.
  intros Hget Hp Hk Hd Hb. destruct s; simpl in *.
  - now apply lib_watch_blocked.
  - destruct Hk as [Hk|Hk]; [discriminate|]. now apply part_watch_blocked.
Qed.

End StubEffects.

Lemma lib_watch_effect_witness :
  exists w',
    LibIndex.watch "/b/new" (watching lib_index default_options disk1 ["/a/x"])
    = Return tt w'
    /\ pFiles w'
       = Obj.set "/b/new" (mkFileStub "/b/new" None)
           (pFiles (watching lib_index default_options disk1 ["/a/x"]))
    /\ Obj.get (dir_of "/b/new") (pDirs w') <> None
    /\ count_at (dir_of "/b/new") w'
       = count_at (dir_of "/b/new")
           (watching lib_index default_options disk1 ["/a/x"]) + 1
    /\ (forall k, k <> dir_of "/b/new" ->
                  Obj.get k (pDirs w')
                  = Obj.get k (pDirs (watching lib_index default_options
                                        disk1 ["/a/x"])))
    /\ calls w' = calls (watching lib_index default_options disk1 ["/a/x"]).
Proof.
  exact (lib_watch_effect "/b/new"
           (watching lib_index default_options disk1 ["/a/x"]) None
           eq_refl eq_refl (or_intror eq_refl)).
Defined.


Lemma part_watch_effect_witness :
  exists w',
    Part000.watch "/dev/null" (Part000.FileWatcher default_options disk_dev)
    = Return tt w'
    /\ pFiles w'
       = Obj.set "/dev/null"
           (mkFileStub "/dev/null" (Some (mkStats Other 0 2 None)))
           (pFiles (Part000.FileWatcher default_options disk_dev))
    /\ Obj.get (part_stub_key "/dev/null" (mkStats Other 0 2 None))
               (pDirs w') <> None
    /\ count_at (part_stub_key "/dev/null" (mkStats Other 0 2 None)) w'
       = count_at (part_stub_key "/dev/null" (mkStats Other 0 2 None))
           (Part000.FileWatcher default_options disk_dev)
         + (if isDirectory (mkStats Other 0 2 None) then 0 else 1)
    /\ watchDir_at (part_stub_key "/dev/null" (mkStats Other 0 2 None)) w'
       = (isDirectory (mkStats Other 0 2 None)
          || watchDir_at (part_stub_key "/dev/null" (mkStats Other 0 2 None))
               (Part000.FileWatcher default_options disk_dev))
    /\ (forall k, k <> part_stub_key "/dev/null" (mkStats Other 0 2 None) ->
                  Obj.get k (pDirs w')
                  = Obj.get k (pDirs (Part000.FileWatcher default_options
                                        disk_dev)))
    /\ (kind (mkStats Other 0 2 None) = Other ->
        watchers w'
        = watchers (Part000.FileWatcher default_options disk_dev))
    /\ calls w' = calls (Part000.FileWatcher default_options disk_dev).
Proof.
  exact (part_watch_effect "/dev/null"
           (Part000.FileWatcher default_options disk_dev)
           (mkStats Other 0 2 None) eq_refl eq_refl (or_introl eq_refl)).
Defined.

Lemma watch_fails_after_registering_witness :
  watch_of part_000 "/a/noread" (FileWatcher_of part_000 default_options disk6)
  = Throw SystemError
      (set_pDirs
         (Obj.set "/a/noread" (mkDirStub None 0 false)
            (pDirs (FileWatcher_of part_000 default_options disk6)))
         (set_pFiles
            (Obj.set "/a/noread"
               (mkFileStub "/a/noread"
                  (Some (mkStats Directory 4096 14 None)))
               (pFiles (FileWatcher_of part_000 default_options disk6)))
            (FileWatcher_of part_000 default_options disk6))).
Proof.
  refine (watch_fails_after_registering part_000 "/a/noread"
            (FileWatcher_of part_000 default_options disk6)
            (mkStats Directory 4096 14 None) eq_refl eq_refl _ eq_refl
            eq_refl).
  right. discriminate.
Defined.

(** ** unwatch in part_000 *)

Section PartUnwatch.
Context {rt : Runtime}.

(** X12.  part_000: [unwatch] never destroys a stub, never closes a native watch
    and never calls back, however it ends: the statements that would do so
    come after the evaluation of an identifier that is not bound. *)
Theorem part_unwatch_never_releases (file : string) (w : World) :
  Obj.keys (pDirs (world_of (Part000.unwatch file w))) = Obj.keys (pDirs w)
  /\ watchers (world_of (Part000.unwatch file w)) = watchers w
  /\ calls (world_of (Part000.unwatch file w)) = calls w.
Proof.
  set (I := fun x : World => Obj.keys (pDirs x) = Obj.keys (pDirs w)
                             /\ watchers x = watchers w
                             /\ calls x = calls w).
  assert (HF : frame_pFiles I) by (intros o x Hx; exact Hx).
  assert (Hupd : forall k f, preserves I (update_dir k f)).
  { intros k f x Hx. unfold update_dir, dir_stub, bind, get, modify. simpl.
    destruct (Obj.get k (pDirs x)) as [g|] eqn:Hk; simpl; [|exact Hx].
    destruct Hx as (H1 & H2 & H3). unfold I. simpl.
    repeat split; auto. rewrite <- H1. now apply keys_set_present with g. }
  cut (preserves I (Part000.unwatch file));
    [intros H; apply H; unfold I; auto|].
  unfold Part000.unwatch, Part000.unbound_dir;
    pres_with ltac:(apply preserves_after_throw);
    auto using frame_delete_file, frame_dir_stub.
Qed.

(** X13.  part_000: [unwatch] of a registered file whose parent stub is not
    itself a watched directory removes the file from the registry and
    lowers the count of the stub by one; it returns when other files of the
    directory remain, and throws a [ReferenceError] when this was the last
    one, leaving the stub behind with count 0. *)
Theorem part_unwatch_file (file : string) (w : World) (f : FileStub)
        (g : DirStub) :
  Obj.get (Path_resolve file) (pFiles w) = Some f ->
  Obj.get (Path_resolve file) (pDirs w) = None ->
  Obj.get (dir_of (Path_resolve file)) (pDirs w) = Some g ->
  watchDir g = false ->
  Part000.unwatch file w
  = (if Z.eqb (count g) 1 then Throw ReferenceError else Return tt)
      (set_pDirs (Obj.set (dir_of (Path_resolve file))
                    (with_count (count g - 1) g) (pDirs w))
         (set_pFiles (Obj.delete (Path_resolve file) (pFiles w)) w)).
Proof.
  intros Hf Hk Hg Hwd. unfold dir_of in *.
  unfold Part000.unwatch, Part000.unbound_dir, delete_file, update_dir,
    dir_stub, Obj.has, bind, get, modify, ret, throw. simpl.
  rewrite Hf. simpl. rewrite Hk. simpl. rewrite Hg. simpl.
  rewrite get_set_same. simpl. rewrite Hwd.
  replace (count g - 1 =? 0) with (count g =? 1); [|].
  - destruct (count g =? 1); reflexivity.
  - destruct (Z.eqb_spec (count g) 1), (Z.eqb_spec (count g - 1) 0);
      try reflexivity; lia.
Qed.

(** X14.  part_000: [unwatch] of a registered directory clears [watchDir] on its
    stub; it returns when files of the directory are still counted on the
    stub, and throws a [ReferenceError] otherwise, leaving the stub and its
    native watch behind. *)
Theorem part_unwatch_directory (file : string) (w : World) (f : FileStub)
        (g : DirStub) :
  Obj.get (Path_resolve file) (pFiles w) = Some f ->
  Obj.get (Path_resolve file) (pDirs w) = Some g ->
  Part000.unwatch file w
  = (if Z.eqb (count g) 0 then Throw ReferenceError else Return tt)
      (set_pDirs (Obj.set (Path_resolve file) (with_watchDir false g)
                    (pDirs w))
         (set_pFiles (Obj.delete (Path_resolve file) (pFiles w)) w)).
Proof.
  intros Hf Hg.
  unfold Part000.unwatch, Part000.unbound_dir, delete_file, update_dir,
    dir_stub, Obj.has, bind, get, modify, ret, throw. simpl.
  rewrite Hf. simpl. rewrite Hg. simpl. rewrite Hg. simpl.
  rewrite get_set_same. simpl.
  destruct (count g =? 0); reflexivity.
Qed.

End PartUnwatch.

Lemma part_unwatch_file_witness :
  Part000.unwatch "/a/x"
    (watching part_000 default_options disk1 ["/a/x"; "/a/y"])
  = (if Z.eqb (count (mkDirStub (Some 0%nat) 2 false)) 1
     then Throw ReferenceError else Return tt)
      (set_pDirs
         (Obj.set (dir_of "/a/x")
            (with_count (count (mkDirStub (Some 0%nat) 2 false) - 1)
               (mkDirStub (Some 0%nat) 2 false))
            (pDirs (watching part_000 default_options disk1
                      ["/a/x"; "/a/y"])))
         (set_pFiles
            (Obj.delete "/a/x"
               (pFiles (watching part_000 default_options disk1
                          ["/a/x"; "/a/y"])))
            (watching part_000 default_options disk1 ["/a/x"; "/a/y"]))).
Proof.
  exact (part_unwatch_file "/a/x"
           (watching part_000 default_options disk1 ["/a/x"; "/a/y"])
           (mkFileStub "/a/x" (Some (stat_x1 None)))
           (mkDirStub (Some 0%nat) 2 false)
           eq_refl eq_refl eq_refl eq_refl).
Defined.

Lemma part_unwatch_directory_witness :
  Part000.unwatch "/a"
    (watching part_000 default_options disk1 ["/a"])
  = (if Z.eqb (count (mkDirStub (Some 0%nat) 0 true)) 0
     then Throw ReferenceError else Return tt)
      (set_pDirs
         (Obj.set "/a" (with_watchDir false (mkDirStub (Some 0%nat) 0 true))
            (pDirs (watching part_000 default_options disk1 ["/a"])))
         (set_pFiles
            (Obj.delete "/a"
               (pFiles (watching part_000 default_options disk1 ["/a"])))
            (watching part_000 default_options disk1 ["/a"]))).
Proof.
  exact (part_unwatch_directory "/a"
           (watching part_000 default_options disk1 ["/a"])
           (mkFileStub "/a" (Some (mkStats Directory 4096 10 None)))
           (mkDirStub (Some 0%nat) 0 true) eq_refl eq_refl).
Defined.

(** ** unwatch in lib/index.js *)

Section LibUnwatch.
Context {rt : Runtime}.

Lemma get_delete_same {V} (k : string) (o : Obj.t V) :
  Obj.get k (Obj.delete k o) = None.
Proof.
  induction o as [|[k0 v0] r IH]; simpl; [reflexivity|].
  destruct (String.eqb k k0) eqn:E; simpl; [exact IH|].
  rewrite E. exact IH.
Qed.

(** [unwatch] of lib/index.js on a registered path whose stub exists. *)
Lemma lib_unwatch_run (file : string) (w : World) (f : FileStub)
        (g : DirStub) :
  Obj.get (Path_resolve file) (pFiles w) = Some f ->
  Obj.get (dir_of (Path_resolve file)) (pDirs w) = Some g ->
  exists w',
    LibIndex.unwatch file w = Return tt w'
    /\ pFiles w' = Obj.delete (Path_resolve file) (pFiles w)
    /\ (if Z.eqb (count g) 1
        then Obj.get (dir_of (Path_resolve file)) (pDirs w') = None
             /\ (forall h d, handler g = Some h ->
                             ~ In (h, d) (watchers w'))
        else Obj.get (dir_of (Path_resolve file)) (pDirs w')
             = Some (with_count (count g - 1) g)
             /\ watchers w' = watchers w)
    /\ (forall k, k <> dir_of (Path_resolve file) ->
                  Obj.get k (pDirs w') = Obj.get k (pDirs w))
    /\ calls w' = calls w.
Proof.
  intros Hf Hg. unfold dir_of in *.
  set (dir := (Path_dirname (Path_resolve file) ++ "/")%string) in *.
  unfold LibIndex.unwatch. fold dir.
  unfold bind at 1. unfold get at 1. rewrite Hf.
  unfold bind at 1. unfold delete_file at 1. unfold modify at 1.
  set (w1 := set_pFiles _ w).
  unfold bind at 1. unfold update_dir at 1. unfold bind at 1.
  unfold dir_stub at 1. unfold bind at 1. unfold get at 1.
  change (pDirs w1) with (pDirs w). rewrite Hg. unfold ret at 1.
  unfold modify at 1.
  set (w2 := set_pDirs _ w1).
  assert (Hg2 : Obj.get dir (pDirs w2) = Some (with_count (count g - 1) g))
    by (unfold w2; simpl; apply get_set_same).
  unfold bind at 1. unfold dir_stub at 1. unfold bind at 1.
  unfold get at 1. rewrite Hg2. unfold ret at 1.
  replace (count (with_count (count g - 1) g) =? 0) with (count g =? 1)
    by (simpl; destruct (Z.eqb_spec (count g) 1),
                        (Z.eqb_spec (count g - 1) 0); try reflexivity; lia).
  destruct (count g =? 1) eqn:E.
  - unfold bind at 1.
    rewrite (pUnwatchDir_run dir _ w2 Hg2).
    unfold delete_dir, modify.
    eexists. split; [reflexivity|].
    destruct (handler (with_count (count g - 1) g)) as [h0|] eqn:Hh;
      simpl in Hh; simpl.
    + rewrite get_delete_same.
      repeat split; auto.
      * intros h d Hh' Hin. rewrite Hh in Hh'. injection Hh' as <-.
        apply filter_In in Hin. destruct Hin as [_ Hne]. simpl in Hne.
        rewrite Nat.eqb_refl in Hne. discriminate.
      * intros k Hk. rewrite get_delete_other by congruence.
        rewrite !get_set_other by congruence. reflexivity.
    + rewrite get_delete_same.
      repeat split; auto.
      * intros h d Hh'. congruence.
      * intros k Hk. rewrite get_delete_other by congruence.
        rewrite get_set_other by congruence. reflexivity.
  - exists w2. split; [reflexivity|]. unfold w2, w1. simpl.
    rewrite get_set_same. repeat split; auto.
    intros k Hk. rewrite get_set_other by congruence. reflexivity.
Qed.

(** X15.  lib/index.js: [unwatch] of a registered path whose directory has its
    stub returns and removes the path from the registry.  When the stub
    counted only this path, the stub is destroyed and its native watch, if
    any, is closed; otherwise its count is lowered by one and its watch is
    kept.  No other stub is touched and no call is made. *)
Theorem lib_unwatch_effect (file : string) (w : World) (f : FileStub)
        (g : DirStub) :
  Obj.get (Path_resolve file) (pFiles w) = Some f ->
  Obj.get (dir_of (Path_resolve file)) (pDirs w) = Some g ->
  exists w',
    LibIndex.unwatch file w = Return tt w'
    /\ pFiles w' = Obj.delete (Path_resolve file) (pFiles w)
    /\ (if Z.eqb (count g) 1
        then Obj.get (dir_of (Path_resolve file)) (pDirs w') = None
             /\ (forall h d, handler g = Some h ->
                             ~ In (h, d) (watchers w'))
        else Obj.get (dir_of (Path_resolve file)) (pDirs w')
             = Some (with_count (count g - 1) g)
             /\ watchers w' = watchers w)
    /\ (forall k, k <> dir_of (Path_resolve file) ->
                  Obj.get k (pDirs w') = Obj.get k (pDirs w))
    /\ calls w' = calls w.
Proof. exact (lib_unwatch_run file w f g). Qed.

End LibUnwatch.

Lemma lib_unwatch_effect_witness :
  exists w',
    LibIndex.unwatch "/a/x" (watching lib_index default_options disk1 ["/a/x"])
    = Return tt w'
    /\ pFiles w'
       = Obj.delete "/a/x"
           (pFiles (watching lib_index default_options disk1 ["/a/x"]))
    /\ (if Z.eqb (count (mkDirStub (Some 0%nat) 1 false)) 1
        then Obj.get (dir_of "/a/x") (pDirs w') = None
             /\ (forall h d,
                   handler (mkDirStub (Some 0%nat) 1 false) = Some h ->
                   ~ In (h, d) (watchers w'))
        else Obj.get (dir_of "/a/x") (pDirs w')
             = Some (with_count (count (mkDirStub (Some 0%nat) 1 false) - 1)
                       (mkDirStub (Some 0%nat) 1 false))
             /\ watchers w'
                = watchers (watching lib_index default_options disk1
                              ["/a/x"]))
    /\ (forall k, k <> dir_of "/a/x" ->
                  Obj.get k (pDirs w')
                  = Obj.get k (pDirs (watching lib_index default_options
                                        disk1 ["/a/x"])))
    /\ calls w' = calls (watching lib_index default_options disk1 ["/a/x"]).
Proof.
  exact (lib_unwatch_effect "/a/x"
           (watching lib_index default_options disk1 ["/a/x"])
           (mkFileStub "/a/x" (Some (stat_x1 None)))
           (mkDirStub (Some 0%nat) 1 false) eq_refl eq_refl).
Defined.

(** ** The life of a directory stub in lib/index.js *)

Section Lifecycle.
Context {rt : Runtime}.

Lemma keys_set_absent {V} (k : string) (v : V) (o : Obj.t V) :
  Obj.get k o = None -> Obj.keys (Obj.set k v o) = Obj.keys o ++ [k].
Proof.
  induction o as [|[k0 v0] r IH]; simpl; [reflexivity|].
  destruct (String.eqb k k0) eqn:E; [discriminate|].
  intros H. simpl. now rewrite IH.
Qed.

Lemma keys_delete {V} (k : string) (o : Obj.t V) :
  Obj.keys (Obj.delete k o)
  = filter (fun k' => negb (String.eqb k k')) (Obj.keys o).
Proof.
  induction o as [|[k0 v0] r IH]; simpl; [reflexivity|].
  destruct (String.eqb k k0); simpl; now rewrite IH.
Qed.

Lemma get_none_not_in {V} (k : string) (o : Obj.t V) :
  Obj.get k o = None -> ~ In k (Obj.keys o).
Proof. intros H Hin. now apply (in_keys_get k o Hin). Qed.

Lemma NoDup_snoc {A} (l : list A) (x : A) :
  NoDup l -> ~ In x l -> NoDup (l ++ [x]).
Proof.
  induction l as [|a r IH]; intros Hnd Hx; simpl.
  - constructor; [intros []|constructor].
  - inversion Hnd as [|? ? Ha Hr]; subst. constructor.
    + intros Hin. apply in_app_or in Hin. destruct Hin as [Hin|[->|[]]].
      * contradiction.
      * apply Hx. simpl. auto.
    + apply IH; [exact Hr|]. intros Hin. apply Hx. simpl. auto.
Qed.

Lemma count_snoc {A} (p : A -> bool) (l : list A) (x : A) :
  Z.of_nat (List.length (filter p (l ++ [x])))
  = Z.of_nat (List.length (filter p l)) + (if p x then 1 else 0).
Proof.
  rewrite filter_app, length_app. simpl.
  destruct (p x); simpl; lia.
Qed.

Lemma count_remove (p : string -> bool) (x : string) (l : list string) :
  NoDup l -> In x l ->
  Z.of_nat (List.length
              (filter p (filter (fun y => negb (String.eqb x y)) l)))
  + (if p x then 1 else 0)
  = Z.of_nat (List.length (filter p l)).
Proof.
  induction l as [|a r IH]; intros Hnd Hin; [destruct Hin|].
  inversion Hnd as [|? ? Ha Hr]; subst. simpl.
  destruct (String.eqb x a) eqn:E; simpl.
  - apply String.eqb_eq in E. subst a.
    assert (Hsame : filter (fun y => negb (String.eqb x y)) r = r).
    { clear -Ha. induction r as [|b r IH]; simpl; [reflexivity|].
      destruct (String.eqb x b) eqn:E; simpl.
      - apply String.eqb_eq in E. subst b. exfalso. apply Ha. simpl. auto.
      - rewrite IH; [reflexivity|]. intros H. apply Ha. simpl. auto. }
    rewrite Hsame. destruct (p x); simpl; lia.
  - destruct Hin as [->|Hin]; [rewrite String.eqb_refl in E; discriminate|].
    specialize (IH Hr Hin).
    destruct (p a), (p x); simpl in *; lia.
Qed.

(** The invariant reads the registry through its keys and the stubs through
    their counts only. *)
Lemma lib_consistent_ext (w w' : World) :
  Obj.keys (pFiles w') = Obj.keys (pFiles w) ->
  (forall d, count_at d w' = count_at d w
             /\ (Obj.get d (pDirs w') <> None <->
                 Obj.get d (pDirs w) <> None)) ->
  lib_consistent w -> lib_consistent w'.
Proof.
  intros Hk Hd [Hnd Hc]. split; [now rewrite Hk|].
  intros d. destruct (Hd d) as [H1 H2]. destruct (Hc d) as [H3 H4].
  unfold files_in in *. rewrite Hk. split; [congruence|].
  rewrite H2. exact H4.
Qed.

Lemma cons_frame_watchers : frame_watchers lib_consistent.
Proof. intros l n w H. exact H. Qed.

Lemma cons_frame_calls : frame_calls lib_consistent.
Proof. intros l w H. exact H. Qed.

Lemma cons_frame_fs : frame_fs lib_consistent.
Proof. intros d w H. exact H. Qed.

Lemma cons_update_handler (k : string) (h : option nat) :
  preserves lib_consistent (update_dir k (with_handler h)).
Proof.
  intros w Hw. unfold update_dir, dir_stub, bind, get, modify. simpl.
  destruct (Obj.get k (pDirs w)) as [g|] eqn:Hk; simpl; [|exact Hw].
  apply (lib_consistent_ext w); [reflexivity| |exact Hw].
  intros d. unfold count_at. simpl.
  destruct (String.eqb k d) eqn:E.
  - apply String.eqb_eq in E. subst d. rewrite get_set_same, Hk. simpl.
    split; [reflexivity|]. split; congruence.
  - apply String.eqb_neq in E. rewrite get_set_other by exact E.
    split; [reflexivity|tauto].
Qed.

Lemma cons_dir_stub (k : string) : preserves lib_consistent (dir_stub k).
Proof. exact (frame_dir_stub lib_consistent k). Qed.

Lemma cons_existsSync (p : string) :
  preserves lib_consistent (Fs_existsSync p).
Proof. exact (frame_Fs_existsSync lib_consistent p). Qed.

Lemma cons_Fs_watch (d : string) : preserves lib_consistent (Fs_watch d).
Proof. exact (frame_Fs_watch lib_consistent cons_frame_watchers d). Qed.

Lemma cons_close (h : nat) : preserves lib_consistent (close h).
Proof. exact (frame_close lib_consistent cons_frame_watchers h). Qed.

Lemma cons_pWatchDir (dir : option string) :
  preserves lib_consistent (pWatchDir dir).
Proof.
  unfold pWatchDir. pres;
    auto using cons_dir_stub, cons_existsSync, cons_Fs_watch,
      cons_update_handler.
Qed.

Lemma cons_pUnwatchDir (dir : string) :
  preserves lib_consistent (pUnwatchDir dir).
Proof.
  unfold pUnwatchDir. pres;
    auto using cons_dir_stub, cons_close, cons_update_handler.
Qed.

Lemma cons_restore_entry (full : string) (saved : FileStub) :
  preserves lib_consistent (restore_entry full saved).
Proof.
  exact (frame_restore_entry lib_consistent cons_frame_calls full saved).
Qed.

(** A raw event never registers or unregisters a path, and touches neither
    the stubs nor the native watches. *)
Lemma pHandleChange_registry (s : Source) (dir evt file : string)
      (w : World) :
  Obj.keys (pFiles (world_of (pHandleChange_of s dir evt file w)))
  = Obj.keys (pFiles w)
  /\ pDirs (world_of (pHandleChange_of s dir evt file w)) = pDirs w
  /\ watchers (world_of (pHandleChange_of s dir evt file w)) = watchers w.
Proof.
  destruct (Obj.get (dir ++ file)%string (pFiles w)) as [f|] eqn:Hf.
  - destruct (probe_cases s (dir ++ file)%string w) as [[nstat Hp]|[e Hp]].
    + rewrite (pHandleChange_target s w dir evt file f nstat Hf Hp).
      unfold after_probe, bind.
      pose proof (classify_world (dir ++ file) evt f nstat w) as Hc.
      destruct (classify (dir ++ file) evt f nstat w) as [e w1|x w1];
        simpl in Hc; subst w1; [|auto].
      unfold assign_file, modify, pCallback, bind, get. simpl.
      assert (Hk : Obj.keys (Obj.set (dir ++ file)%string
                               (mkFileStub (name f) nstat) (pFiles w))
                   = Obj.keys (pFiles w))
        by (now apply keys_set_present with f).
      destruct e as [e|]; simpl; [|auto].
      destruct (negb (String.eqb e EmptyString)); simpl; auto.
    + assert (H : pHandleChange_of s dir evt file w = Throw e w).
      { destruct s; simpl in *;
          unfold LibIndex.pHandleChange, Part000.pHandleChange;
          unfold bind at 1; unfold get at 1; rewrite Hf;
          unfold bind at 1; rewrite Hp; reflexivity. }
      rewrite H. auto.
  - destruct s; simpl;
      unfold LibIndex.pHandleChange, Part000.pHandleChange, dir_stub,
        pCallback, bind, get, ret, throw, modify; rewrite Hf; simpl; auto.
    destruct (Obj.get dir (pDirs w)) as [g|]; simpl; auto.
    destruct (watchDir g); simpl; auto.
Qed.

Lemma cons_pHandleChange (dir evt file : string) :
  preserves lib_consistent (LibIndex.pHandleChange dir evt file).
Proof.
  intros w Hw.
  destruct (pHandleChange_registry lib_index dir evt file w)
    as (Hk & Hd & _). simpl in Hk, Hd.
  apply (lib_consistent_ext w); [exact Hk| |exact Hw].
  intros d. unfold count_at. rewrite Hd. tauto.
Qed.

Lemma files_in_positive (full : string) (w : World) :
  In full (Obj.keys (pFiles w)) -> 0 < files_in (dir_of full) w.
Proof.
  intros Hin. unfold files_in.
  assert (H : In full (filter (fun k => String.eqb (dir_of k) (dir_of full))
                              (Obj.keys (pFiles w)))).
  { apply filter_In. split; [exact Hin|apply String.eqb_refl]. }
  destruct (filter _ _); [destruct H|simpl; lia].
Qed.

Lemma cons_watch (file : string) (w : World) :
  lib_consistent w ->
  Obj.get (dir_of (Path_resolve file)) (pDirs w) <> None
  \/ watchable w (dir_of (Path_resolve file)) = true ->
  lib_consistent (world_of (LibIndex.watch file w)).
Proof.
  intros Hw Hok.
  destruct (Obj.get (Path_resolve file) (pFiles w)) as [f|] eqn:Hg.
  - assert (H : watch_of lib_index file w = Return tt w)
      by (apply watch_present; congruence).
    simpl in H. rewrite H. exact Hw.
  - destruct (probe_cases lib_index (Path_resolve file) w)
      as [[st Hp]|[e Hp]].
    + destruct (lib_watch_run file w st Hg Hp Hok)
        as (w' & Hrun & HF & Hex & Hc & Hother & _).
      rewrite Hrun. simpl. destruct Hw as [Hnd Hcons].
      assert (Hk : Obj.keys (pFiles w')
                   = Obj.keys (pFiles w) ++ [Path_resolve file])
        by (rewrite HF; now apply keys_set_absent).
      split.
      * rewrite Hk. apply NoDup_snoc; [exact Hnd|].
        now apply get_none_not_in.
      * intros d. unfold files_in. rewrite Hk, count_snoc.
        fold (files_in d w). destruct (Hcons d) as [H1 H2].
        destruct (String.eqb (dir_of (Path_resolve file)) d) eqn:E.
        -- apply String.eqb_eq in E. subst d. split; [lia|].
           split; [|intros _; exact Hex]. intros _.
           unfold files_in. lia.
        -- apply String.eqb_neq in E.
           assert (Hd : Obj.get d (pDirs w') = Obj.get d (pDirs w))
             by (apply Hother; congruence).
           unfold count_at in *. rewrite Hd. split; [lia|].
           rewrite H2. lia.
    + pose proof (watch_probe_throws lib_index file w e Hg Hp) as H.
      simpl in H. rewrite H. exact Hw.
Qed.

Lemma lib_unwatch_absent (file : string) (w : World) :
  Obj.get (Path_resolve file) (pFiles w) = None ->
  LibIndex.unwatch file w = Return tt w.
Proof.
  intros H. unfold LibIndex.unwatch, bind, get. now rewrite H.
Qed.

(** In a consistent state [unwatch] returns. *)
Lemma cons_unwatch_returns (file : string) (w : World) :
  lib_consistent w ->
  returns (LibIndex.unwatch file w) = true
  /\ lib_consistent (world_of (LibIndex.unwatch file w)).
Proof.
  intros Hw.
  destruct (Obj.get (Path_resolve file) (pFiles w)) as [f|] eqn:Hf;
    [|rewrite (lib_unwatch_absent file w Hf); auto].
  destruct Hw as [Hnd Hcons].
  assert (Hin : In (Path_resolve file) (Obj.keys (pFiles w)))
    by (apply get_in_keys; congruence).
  pose proof (files_in_positive _ w Hin) as Hpos.
  destruct (Hcons (dir_of (Path_resolve file))) as [Hcnt Hex].
  destruct (Obj.get (dir_of (Path_resolve file)) (pDirs w)) as [g|] eqn:Hg;
    [|exfalso; apply Hex in Hpos; congruence].
  assert (Hcg : count g = files_in (dir_of (Path_resolve file)) w)
    by (unfold count_at in Hcnt; now rewrite Hg in Hcnt).
  destruct (lib_unwatch_run file w f g Hf Hg)
    as (w' & Hrun & HF & Hstub & Hother & _).
  rewrite Hrun. simpl. split; [reflexivity|].
  assert (Hk : Obj.keys (pFiles w')
               = filter (fun k' => negb (String.eqb (Path_resolve file) k'))
                        (Obj.keys (pFiles w)))
    by (rewrite HF; apply keys_delete).
  split.
  - rewrite Hk. now apply NoDup_filter.
  - intros d.
    pose proof (count_remove (fun k => String.eqb (dir_of k) d)
                  (Path_resolve file) (Obj.keys (pFiles w)) Hnd Hin) as Hrem.
    fold (files_in d w) in Hrem. rewrite <- Hk in Hrem.
    fold (files_in d w') in Hrem.
    destruct (Hcons d) as [H1 H2].
    destruct (String.eqb (dir_of (Path_resolve file)) d) eqn:E.
    + apply String.eqb_eq in E. subst d. unfold count_at.
      destruct (Z.eqb_spec (count g) 1) as [E1|E1].
      * destruct Hstub as [Hnone _]. rewrite Hnone.
        split; [lia|]. split; [congruence|lia].
      * destruct Hstub as [Hsome _]. rewrite Hsome. simpl.
        split; [lia|]. split; [lia|discriminate].
    + apply String.eqb_neq in E.
      assert (Hd : Obj.get d (pDirs w') = Obj.get d (pDirs w))
        by (apply Hother; congruence).
      unfold count_at in *. rewrite Hd. split; [lia|].
      rewrite H2. lia.
Qed.

Lemma cons_unwatch (file : string) :
  preserves lib_consistent (LibIndex.unwatch file).
Proof. intros w Hw. now apply cons_unwatch_returns. Qed.

Lemma cons_reset : preserves lib_consistent reset.
Proof.
  intros w _. destruct (reset_returns w) as (w' & Hrun & HF & HD & _).
  rewrite Hrun. simpl. split.
  - rewrite HF. constructor.
  - intros d. unfold count_at, files_in. rewrite HF, HD. simpl.
    split; [reflexivity|]. split; [congruence|lia].
Qed.

Lemma all_watchable_watchable (w : World) (p : string) :
  all_watchable (fs w) -> watchable w p = true.
Proof.
  intros H. unfold watchable.
  destruct (fs w p) as [n|] eqn:E; [now apply (H p)|reflexivity].
Qed.

(** A computation that keeps the stubs consistent and cannot touch the disk
    keeps both the consistency and the disk. *)
Lemma sound_of {A} (m : M A) :
  preserves lib_consistent m ->
  (forall I, frame_watchers I -> frame_pFiles I -> frame_pDirs I ->
             frame_calls I -> preserves I m) ->
  preserves (fun x => lib_consistent x /\ all_watchable (fs x)) m.
Proof.
  intros Hc Hf w [H1 H2]. split; [now apply Hc|].
  apply (Hf (fun x => all_watchable (fs x)));
    try (intro; intros; assumption).
  exact H2.
Qed.

Lemma sound_watch (file : string) :
  preserves (fun x => lib_consistent x /\ all_watchable (fs x))
            (LibIndex.watch file).
Proof.
  intros w [H1 H2]. split.
  - apply cons_watch; [exact H1|]. right. now apply all_watchable_watchable.
  - apply (frame_watch_lib (fun x => all_watchable (fs x)));
      try (intro; intros; assumption).
    exact H2.
Qed.

Lemma sound_perform (a : Action) :
  (forall d, a = Disk d -> all_watchable d) ->
  preserves (fun x => lib_consistent x /\ all_watchable (fs x))
            (perform lib_index a).
Proof.
  intros Ha. destruct a; simpl;
    unfold LibIndex.pCheckFolders, LibIndex.restore, pCheckFolders_with,
      restore_with, save;
    pres;
    try apply sound_watch;
    try (apply sound_of;
         [ solve [auto using cons_unwatch, cons_reset, cons_restore_entry,
                    cons_existsSync, cons_dir_stub, cons_pWatchDir,
                    cons_pUnwatchDir, cons_pHandleChange]
         | intros I HW HF HD HC;
           first [ exact (frame_unwatch I HW HF HD lib_index _)
                 | solve [auto using frame_reset, frame_restore_entry,
                            frame_Fs_existsSync, frame_dir_stub,
                            frame_pWatchDir, frame_pUnwatchDir,
                            frame_pHandleChange_lib] ] ]).
  intros w [H1 H2]. simpl. split; [exact H1|]. now apply Ha.
Qed.

Lemma sound_run (l : list Action) :
  forall w,
    disks_watchable l -> lib_consistent w -> all_watchable (fs w) ->
    lib_consistent (run lib_index l w)
    /\ all_watchable (fs (run lib_index l w)).
Proof.
  induction l as [|a r IH]; intros w Hl H1 H2; simpl; [auto|].
  assert (Ha : forall d, a = Disk d -> all_watchable d)
    by (intros d ->; apply Hl; simpl; auto).
  pose proof (sound_perform a Ha w (conj H1 H2)) as H. cbv beta in H.
  destruct H as [H3 H4].
  apply IH; auto. intros d Hin. apply Hl. simpl. auto.
Qed.

Lemma cons_new (o : Options) (d : FS) :
  lib_consistent (LibIndex.FileWatcher o d).
Proof.
  split; [constructor|].
  intros dir. unfold count_at, files_in. simpl.
  split; [reflexivity|]. split; [congruence|lia].
Qed.

Lemma all_watchable_disk_of (l : list (string * Node)) :
  forallb (fun e => node_watchable (snd e)) l = true ->
  all_watchable (disk_of l).
Proof.
  intros H p n. unfold disk_of.
  induction l as [|[k v] r IH]; simpl in *; [discriminate|].
  apply andb_true_iff in H. destruct H as [Hv Hr].
  destruct (String.eqb p k); [|now apply IH].
  intros E. injection E as <-. exact Hv.
Qed.

(** X16.  lib/index.js, group lifecycle.  As long as [Fs.watch] does not fail
    -- the disk the watcher starts on, and every disk it later sees, holds
    no path that cannot be watched -- in every state the watcher can reach,
    also through operations that threw: no path is registered twice; the
    count of each stub is exactly the number of registered paths of its
    directory; and a directory has a stub if and only if at least one
    registered path lies in it. *)
Theorem lib_group_lifecycle (o : Options) (d : FS) (l : list Action) :
  all_watchable d -> disks_watchable l ->
  lib_consistent (run lib_index l (LibIndex.FileWatcher o d)).
Proof.
  intros Hd Hl. apply sound_run; [exact Hl|apply cons_new|exact Hd].
Qed.

(** X17.  lib/index.js: as long as [Fs.watch] does not fail, [unwatch] never
    throws on a watcher that was built by the constructor and driven by any
    sequence of operations, ticks, raw events and disk changes. *)
Theorem lib_unwatch_never_throws (o : Options) (d : FS) (l : list Action)
        (file : string) :
  all_watchable d -> disks_watchable l ->
  returns (LibIndex.unwatch file (run lib_index l (LibIndex.FileWatcher o d)))
  = true.
Proof.
  intros Hd Hl. apply cons_unwatch_returns.
  apply sound_run; [exact Hl|apply cons_new|exact Hd].
Qed.

End Lifecycle.

Lemma lib_group_lifecycle_witness :
  lib_consistent
    (run lib_index
       [Watch "/a/x"; Watch "/a/y"; Disk disk3; Tick; Unwatch "/a/x"]
       (LibIndex.FileWatcher validating disk1)).
Proof.
  apply (lib_group_lifecycle validating disk1
           [Watch "/a/x"; Watch "/a/y"; Disk disk3; Tick; Unwatch "/a/x"]).
  - apply all_watchable_disk_of. reflexivity.
  - intros d [H|[H|[H|[H|[H|[]]]]]]; try discriminate.
    injection H as <-. apply all_watchable_disk_of. reflexivity.
Defined.

Lemma lib_unwatch_never_throws_witness :
  returns (LibIndex.unwatch "/a/x"
             (run lib_index [Watch "/a/x"; Disk disk3; Tick; Unwatch "/a/x"]
                (LibIndex.FileWatcher default_options disk1)))
  = true.
Proof.
  apply (lib_unwatch_never_throws default_options disk1
           [Watch "/a/x"; Disk disk3; Tick; Unwatch "/a/x"] "/a/x").
  - apply all_watchable_disk_of. reflexivity.
  - intros d [H|[H|[H|[H|[]]]]]; try discriminate.
    injection H as <-. apply all_watchable_disk_of. reflexivity.
Defined.

(** ** restore on a disk that has not changed *)

Section RestoreUnchanged.
Context {rt : Runtime}.

(** X18.  A raw event never registers or unregisters a path, and touches neither
    the stubs nor the native watches, whatever the event and however its
    handling ends. *)
Theorem raw_events_keep_registry (s : Source) (dir evt file : string)
        (w : World) :
  Obj.keys (pFiles (world_of (pHandleChange_of s dir evt file w)))
  = Obj.keys (pFiles w)
  /\ pDirs (world_of (pHandleChange_of s dir evt file w)) = pDirs w
  /\ watchers (world_of (pHandleChange_of s dir evt file w)) = watchers w.
Proof. apply pHandleChange_registry. Qed.

(** The probe reads the disk and the [validate] option, nothing else. *)
Lemma probe_stable (s : Source) (k : string) (w c : World)
      (r : option Stats) :
  fs c = fs w -> pOptions c = pOptions w ->
  pGetFileStat_of s k w = Return r w ->
  pGetFileStat_of s k c = Return r c.
Proof.
  intros Hfs Ho.
  destruct w as [f1 ws1 n1 pf1 pd1 o1 t1 c1].
  destruct c as [f2 ws2 n2 pf2 pd2 o2 t2 c2].
  simpl in Hfs, Ho. subst f2 o2.
  destruct s; simpl;
    unfold LibIndex.pGetFileStat, Part000.pGetFileStat, Fs_existsSync,
      Fs_statSync, Fs_readFileSync, bind, get, ret, throw, isFile; simpl;
    destruct (f1 k) as [[kd sz mt data wt]|] eqn:E; simpl; rewrite ?E; simpl;
    try (intros H; injection H as <-; reflexivity);
    destruct (validate o1), kd, data; simpl; rewrite ?E; simpl;
    try discriminate;
    try (intros H; injection H as <-; reflexivity).
Qed.

Lemma watch_frame (s : Source) (file : string) (w : World) :
  fs (world_of (watch_of s file w)) = fs w
  /\ pOptions (world_of (watch_of s file w)) = pOptions w.
Proof.
  apply (frame_watch (fun x => fs x = fs w /\ pOptions x = pOptions w));
    try (split; reflexivity); intro; intros; assumption.
Qed.

(** Whatever follows the registration in [watch] leaves the registry as
    the registration made it. *)
Lemma watch_pFiles (s : Source) (file : string) (w : World)
      (st : option Stats) :
  Obj.get (Path_resolve file) (pFiles w) = None ->
  pGetFileStat_of s (Path_resolve file) w = Return st w ->
  pFiles (world_of (watch_of s file w))
  = Obj.set (Path_resolve file)
      (mkFileStub (if fullName (pOptions w) then Path_resolve file else file)
                  st) (pFiles w).
Proof.
  intros H Hp.
  set (full := Path_resolve file) in *.
  set (stub := mkFileStub (if fullName (pOptions w) then full else file) st).
  set (I := fun x : World => pFiles x = Obj.set full stub (pFiles w)).
  assert (HW : frame_watchers I) by (intros l n x Hx; exact Hx).
  assert (HD : frame_pDirs I) by (intros o x Hx; exact Hx).
  assert (H0 : I (set_pFiles (Obj.set full stub (pFiles w)) w))
    by reflexivity.
  destruct s; simpl in *; unfold LibIndex.watch, Part000.watch;
    fold full; unfold bind at 1; unfold get at 1; rewrite H;
    unfold bind at 1; rewrite Hp;
    unfold bind at 1; unfold assign_file at 1; unfold modify at 1;
    fold stub; cbv beta;
    match goal with
    | |- pFiles (world_of (?m ?x)) = _ =>
        cut (preserves I m); [intros Hm; exact (Hm x H0)|]
    end;
    pres; auto using frame_ensure_stub, frame_update_dir.
Qed.

Lemma set_absent {V} (k : string) (v : V) (o : Obj.t V) :
  Obj.get k o = None -> Obj.set k v o = o ++ [(k, v)].
Proof.
  induction o as [|[k0 v0] r IH]; simpl; [reflexivity|].
  destruct (String.eqb k k0); [discriminate|].
  intros H. now rewrite IH.
Qed.

Lemma restore_loop_silent (s : Source) (w : World)
      (rest : Obj.t FileStub) :
  validate (pOptions w) = true \/ (forall t, mtime_ne t t = false) ->
  forall c,
    fs c = fs w -> pOptions c = pOptions w ->
    (forall k f, In (k, f) rest ->
       Path_resolve k = k
       /\ pGetFileStat_of s k w = Return (stat f) w
       /\ Obj.get k (pFiles c) = None) ->
    NoDup (Obj.keys rest) ->
    calls (world_of
             (forEach rest
                (fun e => watch_of s (fst e) ;;
                          restore_entry (fst e) (snd e)) c))
    = calls c.
Proof.
  intros Hv. induction rest as [|[k f] r IH]; intros c Hfs Ho Hin Hnd;
    [reflexivity|].
  destruct (Hin k f) as (Hres & Hp & Hnone); [simpl; auto|].
  simpl in Hnd. inversion Hnd as [|? ? Hk Hr]; subst.
  pose proof (probe_stable s k w c (stat f) Hfs Ho Hp) as Hpc.
  rewrite <- Hres in Hpc, Hnone.
  pose proof (watch_pFiles s k c (stat f) Hnone Hpc) as HF.
  pose proof (watch_silent s k c) as HC.
  destruct (watch_frame s k c) as [Hfs1 Ho1].
  rewrite Hres in HF.
  simpl forEach. unfold bind at 1. simpl fst. simpl snd. unfold bind at 1.
  destruct (watch_of s k c) as [[] c1|e c1]; simpl in *; [|exact HC].
  assert (Hg : Obj.get k (pFiles c1)
               = Some (mkFileStub (if fullName (pOptions c) then k else k)
                                  (stat f)))
    by (rewrite HF; apply get_set_same).
  rewrite (restore_entry_same k f _ c1 Hg eq_refl)
    by (rewrite Ho1, Ho; exact Hv).
  rewrite IH; [exact HC|congruence|congruence| |exact Hr].
  intros k' f' Hin'. destruct (Hin k' f') as (H1 & H2 & H3); [simpl; auto|].
  repeat split; auto. rewrite HF, get_set_other; [exact H3|].
  intros ->. apply Hk. change k' with (fst (k', f')).
  now apply in_map.
Qed.

(** X19.  Snapshot round trip on an unchanged disk.  When every entry of the
    snapshot names a canonical path whose probe now returns exactly the
    saved stat, [restore] makes no call -- with validation on, and with
    validation off provided [!=] finds an [mtime] equal to itself.  This
    holds however [restore] ends. *)
Theorem restore_unchanged_is_silent (s : Source) (files : Obj.t FileStub)
        (w : World) :
  (forall k f, In (k, f) files ->
     Path_resolve k = k /\ pGetFileStat_of s k w = Return (stat f) w) ->
  NoDup (Obj.keys files) ->
  validate (pOptions w) = true \/ (forall t, mtime_ne t t = false) ->
  calls (world_of (restore_of s files w)) = calls w.
Proof.
  intros Hin Hnd Hv.
  destruct (reset_returns w) as (w0 & Hrun & HF & HD & _).
  pose proof (reset_calls w) as HC. pose proof (reset_fs w) as HS.
  destruct (perform_timer s Reset w) as [_ HO]. unfold step in HO.
  simpl in HO. rewrite Hrun in HC, HS, HO. simpl in HC, HS, HO.
  assert (E : restore_of s files w
              = forEach files
                  (fun e => watch_of s (fst e) ;;
                            restore_entry (fst e) (snd e)) w0).
  { destruct s; simpl; unfold LibIndex.restore, Part000.restore,
      restore_with; unfold bind at 1; rewrite Hrun; reflexivity. }
  rewrite E, (restore_loop_silent s w files Hv w0 HS HO); [exact HC| |exact Hnd].
  intros k f Hkf. destruct (Hin k f Hkf) as [H1 H2].
  repeat split; auto. now rewrite HF.
Qed.

End RestoreUnchanged.

Lemma restore_unchanged_is_silent_witness :
  calls (world_of
           (restore_of lib_index
              (snapshot lib_index validating disk1 ["/a/x"; "/a/y"])
              (watching lib_index validating disk1 ["/a/x"; "/a/y"])))
  = calls (watching lib_index validating disk1 ["/a/x"; "/a/y"]).
Proof.
  apply (restore_unchanged_is_silent lib_index
           (snapshot lib_index validating disk1 ["/a/x"; "/a/y"])
           (watching lib_index validating disk1 ["/a/x"; "/a/y"])).
  - intros k f [H|[H|[]]]; injection H as <- <-; split; reflexivity.
  - repeat constructor; simpl; intuition discriminate.
  - left. reflexivity.
Defined.

(** ** restore in lib/index.js *)

Section LibRestore.
Context {rt : Runtime}.

Lemma restore_entry_unchanged (full : string) (saved f : FileStub)
      (w : World) :
  Obj.get full (pFiles w) = Some f ->
  stat f = stat saved ->
  exists w',
    restore_entry full saved w = Return tt w'
    /\ calls w'
       = calls w ++ unchanged_report (validate (pOptions w)) (full, saved)
    /\ pFiles w' = pFiles w /\ fs w' = fs w /\ pOptions w' = pOptions w.
Proof.
  intros Hf Hs.
  unfold restore_entry, file_stub, pCallback, bind, get, modify,
    unchanged_report. simpl.
  rewrite Hf. simpl. rewrite Hs.
  destruct (stat saved) as [o|]; simpl;
    [|exists w; rewrite app_nil_r; auto].
  assert (Hc : crc32_eq (crc32 o) (crc32 o) = true)
    by (now apply crc32_eq_true).
  destruct (validate (pOptions w)).
  - rewrite Z.eqb_refl, Hc. simpl. exists w. rewrite app_nil_r. auto.
  - destruct (mtime_ne (mtime o) (mtime o)); simpl.
    + eexists. split; [reflexivity|]. auto.
    + exists w. rewrite app_nil_r. auto.
Qed.

Lemma lib_restore_loop (w : World) (rest : Obj.t FileStub) :
  forall c,
    fs c = fs w -> pOptions c = pOptions w ->
    (forall k f, In (k, f) rest ->
       Path_resolve k = k
       /\ LibIndex.pGetFileStat k w = Return (stat f) w
       /\ watchable w (dir_of k) = true
       /\ Obj.get k (pFiles c) = None) ->
    NoDup (Obj.keys rest) ->
    exists c',
      forEach rest
        (fun e => LibIndex.watch (fst e) ;; restore_entry (fst e) (snd e)) c
      = Return tt c'
      /\ pFiles c'
         = pFiles c
           ++ map (fun e => (fst e, mkFileStub (fst e) (stat (snd e)))) rest
      /\ calls c'
         = calls c
           ++ flat_map (unchanged_report (validate (pOptions w))) rest.
Proof.
  induction rest as [|[k f] r IH]; intros c Hfs Ho Hin Hnd.
  - exists c. simpl. rewrite !app_nil_r. auto.
  - destruct (Hin k f) as (Hres & Hp & Hwt & Hnone); [simpl; auto|].
    simpl in Hnd. inversion Hnd as [|? ? Hk Hr]; subst.
    pose proof (probe_stable lib_index k w c (stat f) Hfs Ho Hp) as Hpc.
    simpl in Hpc.
    assert (Hok : watchable c (dir_of (Path_resolve k)) = true)
      by (rewrite Hres; unfold watchable in *; now rewrite Hfs).
    rewrite <- Hres in Hpc, Hnone.
    destruct (lib_watch_run k c (stat f) Hnone Hpc (or_intror Hok))
      as (c1 & Hrun & HF & _ & _ & _ & HC).
    destruct (watch_frame lib_index k c) as [Hfs1 Ho1].
    simpl in Hfs1, Ho1. rewrite Hrun in Hfs1, Ho1. simpl in Hfs1, Ho1.
    rewrite Hres in HF, Hnone.
    assert (HF' : pFiles c1 = pFiles c ++ [(k, mkFileStub k (stat f))]).
    { rewrite HF, (set_absent k _ _ Hnone).
      destruct (fullName (pOptions c)); reflexivity. }
    assert (Hg : Obj.get k (pFiles c1) = Some (mkFileStub k (stat f))).
    { rewrite HF. rewrite get_set_same.
      destruct (fullName (pOptions c)); reflexivity. }
    destruct (restore_entry_unchanged k f _ c1 Hg eq_refl)
      as (c2 & Hent & HC2 & HF2 & Hfs2 & Ho2).
    destruct (IH c2) as (c' & Hloop & HFc & HCc);
      [congruence|congruence| |exact Hr|].
    { intros k' f' Hin'.
      destruct (Hin k' f') as (H1 & H2 & H3 & H4); [simpl; auto|].
      repeat split; auto. rewrite HF2, HF, get_set_other; [exact H4|].
      intros ->. apply Hk. change k' with (fst (k', f')).
      now apply in_map. }
    exists c'. simpl forEach. unfold bind at 1. simpl fst. simpl snd.
    unfold bind at 1. rewrite Hrun, Hent.
    split; [exact Hloop|]. split.
    + rewrite HFc, HF2, HF'. simpl. now rewrite <- app_assoc.
    + rewrite HCc, HC2, HC, Ho1, Ho. simpl flat_map.
      now rewrite <- app_assoc.
Qed.

(** X20.  lib/index.js: [restore] of a snapshot of canonical paths, on a disk
    where each probe returns the saved stat and [Fs.watch] fails on none of
    their directories, returns, and the registry it leaves holds exactly
    the paths of the snapshot, in the order of the snapshot, each with its
    saved stat -- whatever was registered before is gone.  With validation
    on it makes no call.  With validation off it reports a [change] for
    each file of the snapshot that exists, whenever [!=] holds between the
    file's [mtime] and the saved one -- which it always does in Node. *)
Theorem lib_restore_rebuilds_registry (files : Obj.t FileStub) (w : World) :
  (forall k f, In (k, f) files ->
     Path_resolve k = k
     /\ LibIndex.pGetFileStat k w = Return (stat f) w
     /\ watchable w (dir_of k) = true) ->
  NoDup (Obj.keys files) ->
  exists w',
    LibIndex.restore files w = Return tt w'
    /\ pFiles w'
       = map (fun e => (fst e, mkFileStub (fst e) (stat (snd e)))) files
    /\ calls w'
       = calls w ++ flat_map (unchanged_report (validate (pOptions w))) files.
Proof.
  intros Hin Hnd.
  destruct (reset_returns w) as (w0 & Hrun & HF & HD & _).
  pose proof (reset_calls w) as HC. pose proof (reset_fs w) as HS.
  destruct (perform_timer lib_index Reset w) as [_ HO]. unfold step in HO.
  simpl in HO. rewrite Hrun in HC, HS, HO. simpl in HC, HS, HO.
  destruct (lib_restore_loop w files w0 HS HO) as (w' & Hloop & HF' & HC');
    [|exact Hnd|].
  { intros k f Hkf. destruct (Hin k f Hkf) as (H1 & H2 & H3).
    repeat split; auto. now rewrite HF. }
  exists w'. unfold LibIndex.restore, restore_with. unfold bind at 1.
  rewrite Hrun. split; [exact Hloop|]. rewrite HF', HF. simpl.
  split; [reflexivity|congruence].
Qed.

End LibRestore.

Lemma lib_restore_rebuilds_registry_witness :
  exists w',
    LibIndex.restore
      (snapshot lib_index default_options disk1 ["/a/x"; "/a/y"])
      (watching lib_index default_options disk1 ["/a/y"])
    = Return tt w'
    /\ pFiles w'
       = map (fun e => (fst e, mkFileStub (fst e) (stat (snd e))))
             (snapshot lib_index default_options disk1 ["/a/x"; "/a/y"])
    /\ calls w'
       = calls (watching lib_index default_options disk1 ["/a/y"])
         ++ flat_map
              (unchanged_report
                 (validate
                    (pOptions (watching lib_index default_options disk1
                                 ["/a/y"]))))
              (snapshot lib_index default_options disk1 ["/a/x"; "/a/y"]).
Proof.
  apply (lib_restore_rebuilds_registry
           (snapshot lib_index default_options disk1 ["/a/x"; "/a/y"])
           (watching lib_index default_options disk1 ["/a/y"])).
  - intros k f [H|[H|[]]]; injection H as <- <-; repeat split; reflexivity.
  - repeat constructor; simpl; intuition discriminate.
Defined.

(** ** Events inside a watched directory (part_000) *)

Section DirectoryEvents.
Context {rt : Runtime}.

Lemma append_same (s t : string) : (s ++ t)%string = s -> t = EmptyString.
Proof.
  induction s as [|a s IH]; simpl; [auto|].
  intros H. injection H as H. auto.
Qed.

(** X21.  part_000: once [watch] of a directory has returned, a raw event of
    its listener for a name that is not empty and not itself registered is
    reported as it came: one call, with the event name unfiltered, the path
    made of the directory's path immediately followed by the name, and no
    stat. *)
Theorem part_directory_event_forwarded (p evt file : string) (w w' : World)
        (st : Stats) :
  Obj.get (Path_resolve p) (pFiles w) = None ->
  Part000.pGetFileStat (Path_resolve p) w = Return (Some st) w ->
  isDirectory st = true ->
  Part000.watch p w = Return tt w' ->
  file <> EmptyString ->
  Obj.get (Path_resolve p ++ file)%string (pFiles w) = None ->
  Part000.pHandleChange (Path_resolve p) evt file w'
  = Return tt
      (set_calls
         (calls w ++ [mkCall evt (Path_resolve p ++ file)%string
                             VUndefined]) w').
Proof.
  intros Hg Hp Hd Hret Hfile Hnone.
  assert (Hkind : kind st = Directory)
    by (unfold isDirectory in Hd; destruct (kind st); congruence).
  assert (Hok : kind st = Other
                \/ Obj.get (part_stub_key (Path_resolve p) st) (pDirs w)
                   <> None
                \/ watchable w (part_stub_key (Path_resolve p) st) = true).
  { destruct (Obj.get (part_stub_key (Path_resolve p) st) (pDirs w))
      as [g0|] eqn:Hs; [right; left; discriminate|].
    destruct (watchable w (part_stub_key (Path_resolve p) st)) eqn:Hb;
      [right; right; reflexivity|].
    exfalso.
    rewrite (part_watch_blocked p w st Hg Hp) in Hret;
      [discriminate|congruence|exact Hs|exact Hb]. }
  destruct (part_watch_run p w st Hg Hp Hok)
    as (w1 & Hrun & HF & Hex & _ & Hwd & _ & _ & HC).
  rewrite Hrun in Hret. injection Hret as <-.
  unfold part_stub_key, isDirectory in *. rewrite Hkind in *.
  simpl in Hwd. unfold watchDir_at in Hwd.
  destruct (Obj.get (Path_resolve p) (pDirs w1)) as [g|] eqn:Hstub;
    [|congruence].
  assert (Hn' : Obj.get (Path_resolve p ++ file)%string (pFiles w1) = None).
  { rewrite HF, get_set_other; [exact Hnone|].
    intros E. symmetry in E. apply append_same in E. contradiction. }
  unfold Part000.pHandleChange, dir_stub, pCallback, bind, get, ret, modify.
  simpl. rewrite Hn'. simpl. rewrite Hstub. simpl. rewrite Hwd. simpl.
  now rewrite HC.
Qed.

End DirectoryEvents.

Lemma part_directory_event_forwarded_witness :
  Part000.pHandleChange "/a" "rename" "x"
    (world_of (Part000.watch "/a" (Part000.FileWatcher default_options disk1)))
  = Return tt
      (set_calls
         (calls (Part000.FileWatcher default_options disk1)
          ++ [mkCall "rename" ("/a" ++ "x")%string VUndefined])
         (world_of (Part000.watch "/a"
                      (Part000.FileWatcher default_options disk1)))).
Proof.
  refine (part_directory_event_forwarded "/a" "rename" "x"
            (Part000.FileWatcher default_options disk1)
            (world_of (Part000.watch "/a"
                         (Part000.FileWatcher default_options disk1)))
            (mkStats Directory 4096 10 None) eq_refl eq_refl eq_refl eq_refl
            _ eq_refl).
  discriminate.
Defined.

(** ** What a tick re-establishes *)

Section TickSync.
Context {rt : Runtime}.

(** [dir + fullName.substr(dir.length)] is [fullName] again when
    [fullName.startsWith(dir)]. *)
Lemma prefix_substring (d full : string) :
  String.prefix d full = true ->
  (d ++ String.substring (String.length d)
          (String.length full - String.length d) full)%string = full.
Proof.
  revert full. induction d as [|a d IH]; intros full H; simpl.
  - rewrite Nat.sub_0_r. clear H.
    induction full as [|b f IHf]; simpl; [reflexivity|]. now rewrite IHf.
  - destruct full as [|b f]; simpl in *; [discriminate|].
    destruct (Ascii.ascii_dec a b) as [->|]; [|discriminate].
    now rewrite IH.
Qed.




Lemma pWatchDir_open (d : string) (g : DirStub) (n : Node) (w : World) :
  Obj.get d (pDirs w) = Some g -> handler g = None -> fs w d = Some n ->
  watchable w d = true ->
  pWatchDir (Some d) w
  = Return tt
      (set_pDirs (Obj.set d (with_handler (Some (next_watcher w)) g)
                    (pDirs w))
         (set_watchers (watchers w ++ [(next_watcher w, d)])
            (S (next_watcher w)) w)).
Proof.
  intros Hg Hh Hfs Hwt. unfold watchable in Hwt. rewrite Hfs in Hwt.
  unfold pWatchDir, dir_stub, Fs_existsSync, Fs_watch, update_dir, dir_stub,
    bind, get, ret, modify. simpl. rewrite Hg. simpl. rewrite Hh, Hfs.
  simpl. rewrite Hfs, Hwt. simpl. rewrite Hg. reflexivity.
Qed.




End TickSync.


(** ** Discovery and loss of a target on a tick *)

Section Discovery.
Context {rt : Runtime}.

Lemma prefix_append (d f : string) : String.prefix d (d ++ f) = true.
Proof.
  induction d as [|a d IH]; simpl.
  - destruct f; reflexivity.
  - destruct (Ascii.ascii_dec a a); [exact IH|congruence].
Qed.

Lemma append_cancel (d f f' : string) :
  (d ++ f)%string = (d ++ f')%string -> f = f'.
Proof.
  induction d as [|a d IH]; simpl; [auto|].
  intros H. injection H as H. auto.
Qed.

Lemma substr_append (d f : string) :
  String.substring (String.length d)
    (String.length (d ++ f) - String.length d) (d ++ f) = f.
Proof.
  apply (append_cancel d). apply prefix_substring. apply prefix_append.
Qed.

(** X23.  A watcher whose only target is the file [d ++ f], owned by the only
    stub [d].  When the existence of directory [d] no longer agrees with the
    stub's handler, and provided [Fs.watch] does not fail on [d] and the
    probe of the file returns, a tick opens or closes the native watch and
    re-probes the file: it makes exactly one call, with the fresh stat --
    [create] if the file was absent and now exists, [remove] if it existed
    and is now absent, [rename] otherwise -- and stores the fresh stat. *)
Theorem tick_reports_single_target (s : Source) (w : World)
        (d f : string) (fstub : FileStub) (g : DirStub)
        (nstat : option Stats) :
  pFiles w = [((d ++ f)%string, fstub)] ->
  pDirs w = [(d, g)] ->
  has_handler g <> on_disk w d ->
  watchable w d = true ->
  pGetFileStat_of s (d ++ f)%string w = Return nstat w ->
  exists w' e,
    pCheckFolders_of s w = Return tt w'
    /\ calls w' = calls w ++ [mkCall e (name fstub) (stat_value nstat)]
    /\ pFiles w' = [((d ++ f)%string, mkFileStub (name fstub) nstat)]
    /\ (forall g', Obj.get d (pDirs w') = Some g' ->
                   has_handler g' = on_disk w d)
    /\ (e = kFileCreateEventName <-> stat fstub = None /\ nstat <> None)
    /\ (e = kFileRemoveEventName <-> stat fstub <> None /\ nstat = None)
    /\ (e = kFileRenameEventName <-> (stat fstub = None <-> nstat = None)).
Proof.
  intros HF HD Hflip Hwt Hp.
  assert (Hgd : Obj.get d (pDirs w) = Some g)
    by (rewrite HD; simpl; now rewrite String.eqb_refl).
  assert (E : pCheckFolders_of s w
              = (w0 <- (exist <- Fs_existsSync d ;;
                        g <- dir_stub d ;;
                        if xorb (match handler g with
                                 | Some _ => true | None => false end) exist
                        then
                          (if exist then pWatchDir (Some d)
                           else pUnwatchDir d) ;;
                          w' <- get ;;
                          forEach (Obj.keys (pFiles w')) (fun fullName =>
                            if String.prefix d fullName
                            then pHandleChange_of s d kFileRenameEventName
                                   (String.substring (String.length d)
                                      (String.length fullName
                                       - String.length d) fullName)
                            else ret tt)
                        else ret tt) ;; ret tt) w).
  { destruct s; simpl;
      unfold LibIndex.pCheckFolders, Part000.pCheckFolders,
        pCheckFolders_with; unfold bind at 1; unfold get at 1;
      rewrite HD; reflexivity. }
  rewrite E. clear E.
  unfold Fs_existsSync at 1. unfold dir_stub at 1.
  unfold bind at 1 2 3 4 5. unfold get at 1 2. unfold ret at 1.
  rewrite Hgd. unfold ret at 1.
  unfold has_handler, on_disk in Hflip.
  (* the world once the native watch has been opened or closed *)
  assert (Hstep :
    exists c0 g0,
      (if match fs w d with Some _ => true | None => false end
       then pWatchDir (Some d) else pUnwatchDir d) w = Return tt c0
      /\ pFiles c0 = pFiles w /\ calls c0 = calls w /\ fs c0 = fs w
      /\ pOptions c0 = pOptions w
      /\ pDirs c0 = [(d, g0)]
      /\ (match handler g0 with Some _ => true | None => false end)
         = (match fs w d with Some _ => true | None => false end)).
  { destruct (handler g) as [h|] eqn:Hh, (fs w d) as [n|] eqn:Hfs;
      try (exfalso; apply Hflip; reflexivity).
    - rewrite (pUnwatchDir_run d g w Hgd), Hh.
      eexists. exists (with_handler None g). split; [reflexivity|].
      simpl. rewrite HD. simpl. rewrite String.eqb_refl. auto 10.
    - rewrite (pWatchDir_open d g n w Hgd Hh Hfs Hwt).
      eexists. exists (with_handler (Some (next_watcher w)) g).
      split; [reflexivity|].
      simpl. rewrite HD. simpl. rewrite String.eqb_refl. auto 10. }
  destruct Hstep as (c0 & g0 & Hrun0 & HF0 & HC0 & Hfs0 & Ho0 & HD0 & Hh0).
  assert (Hx : xorb (match handler g with Some _ => true | None => false end)
                    (match fs w d with Some _ => true | None => false end)
               = true).
  { destruct (handler g), (fs w d); try reflexivity;
      exfalso; apply Hflip; reflexivity. }
  rewrite Hx. unfold bind at 1. rewrite Hrun0.
  unfold bind at 1. unfold get at 1. rewrite HF0, HF.
  cbn [Obj.keys map fst forEach]. rewrite prefix_append, substr_append.
  assert (Hf0 : Obj.get (d ++ f)%string (pFiles c0) = Some fstub)
    by (rewrite HF0, HF; simpl; now rewrite String.eqb_refl).
  pose proof (probe_stable s (d ++ f)%string w c0 nstat Hfs0 Ho0 Hp) as Hp0.
  unfold bind at 1.
  rewrite (pHandleChange_target s c0 d _ f fstub nstat Hf0 Hp0).
  unfold after_probe, classify, pCheckFileExistenceChange, file_stub,
    assign_file, pCallback, bind, get, ret, modify. simpl.
  rewrite Hf0.
  destruct (stat fstub) as [o|] eqn:Ho, nstat as [n|]; simpl;
    eexists; eexists; (split; [reflexivity|]); simpl;
    rewrite HF0, HF, HC0, HD0; simpl; rewrite ?String.eqb_refl;
    (split; [reflexivity|]); (split; [reflexivity|]);
    (split; [intros g' Hg'; injection Hg' as <-; exact Hh0|]);
    repeat split; intros; try discriminate; try tauto;
    intuition congruence.
Qed.

End Discovery.

Lemma tick_reports_single_target_witness :
  exists w' e,
    pCheckFolders_of lib_index
      (watching_then lib_index default_options (disk_of []) ["/a/x"] disk1)
    = Return tt w'
    /\ calls w'
       = calls (watching_then lib_index default_options (disk_of [])
                  ["/a/x"] disk1)
         ++ [mkCall e (name (mkFileStub "/a/x" None))
                    (stat_value (Some (stat_x1 None)))]
    /\ pFiles w'
       = [(("/a/" ++ "x")%string,
           mkFileStub (name (mkFileStub "/a/x" None)) (Some (stat_x1 None)))]
    /\ (forall g', Obj.get "/a/" (pDirs w') = Some g' ->
                   has_handler g'
                   = on_disk (watching_then lib_index default_options
                                (disk_of []) ["/a/x"] disk1) "/a/")
    /\ (e = kFileCreateEventName <->
        stat (mkFileStub "/a/x" None) = None /\ Some (stat_x1 None) <> None)
    /\ (e = kFileRemoveEventName <->
        stat (mkFileStub "/a/x" None) <> None /\ Some (stat_x1 None) = None)
    /\ (e = kFileRenameEventName <->
        (stat (mkFileStub "/a/x" None) = None <->
         Some (stat_x1 None) = None)).
Proof.
  refine (tick_reports_single_target lib_index
            (watching_then lib_index default_options (disk_of []) ["/a/x"]
               disk1)
            "/a/" "x" (mkFileStub "/a/x" None) (mkDirStub None 1 false)
            (Some (stat_x1 None)) eq_refl eq_refl _ eq_refl eq_refl).
  simpl. discriminate.
Defined.

(** ** watch followed by unwatch in lib/index.js *)

Section RoundTrip.
Context {rt : Runtime}.

Lemma delete_set_absent {V} (k : string) (v : V) (o : Obj.t V) :
  Obj.get k o = None -> Obj.delete k (Obj.set k v o) = o.
Proof.
  induction o as [|[k0 v0] r IH]; simpl.
  - now rewrite String.eqb_refl.
  - destruct (String.eqb k k0) eqn:E; [discriminate|].
    intros H. simpl. rewrite E. now rewrite IH.
Qed.

Lemma lib_watch_present_stub (file : string) (w : World)
      (st : option Stats) (g0 : DirStub) :
  Obj.get (Path_resolve file) (pFiles w) = None ->
  LibIndex.pGetFileStat (Path_resolve file) w = Return st w ->
  Obj.get (dir_of (Path_resolve file)) (pDirs w) = Some g0 ->
  LibIndex.watch file w
  = Return tt
      (set_pDirs
         (Obj.set (dir_of (Path_resolve file))
            (with_count (count g0 + 1) g0) (pDirs w))
         (set_pFiles
            (Obj.set (Path_resolve file)
               (mkFileStub (if fullName (pOptions w) then Path_resolve file
                            else file) st) (pFiles w)) w)).
Proof.
  intros Hget Hp Hg. unfold dir_of in *.
  unfold LibIndex.watch. unfold bind at 1. unfold get at 1. rewrite Hget.
  unfold bind at 1. rewrite Hp.
  unfold assign_file, ensure_stub, update_dir, dir_stub, bind, get, ret,
    modify. simpl. rewrite Hg. simpl. rewrite Hg. reflexivity.
Qed.

(** X24.  lib/index.js: [watch] of a path that is not registered and whose
    probe returns, followed by [unwatch] of the same path, undoes itself,
    provided [Fs.watch] does not fail (the parent directory has its stub
    already, or does not exist, or can be watched).  Both calls return, the
    registry is exactly what it was, every stub is what it was (a stub
    created for the path is destroyed again), and no call is made.  The
    stub of the directory, if there is one, must not carry the count 0. *)
Theorem lib_watch_unwatch_round_trip (file : string) (w : World)
        (st : option Stats) :
  Obj.get (Path_resolve file) (pFiles w) = None ->
  LibIndex.pGetFileStat (Path_resolve file) w = Return st w ->
  Obj.get (dir_of (Path_resolve file)) (pDirs w) <> None
  \/ watchable w (dir_of (Path_resolve file)) = true ->
  (forall g0, Obj.get (dir_of (Path_resolve file)) (pDirs w) = Some g0 ->
              count g0 <> 0) ->
  exists w1 w2,
    LibIndex.watch file w = Return tt w1
    /\ LibIndex.unwatch file w1 = Return tt w2
    /\ pFiles w2 = pFiles w
    /\ (forall k, Obj.get k (pDirs w2) = Obj.get k (pDirs w))
    /\ calls w2 = calls w.
Proof.
  intros Hget Hp Hok Hcount.
  set (full := Path_resolve file) in *.
  destruct (lib_watch_run file w st Hget Hp Hok)
    as (w1 & Hrun1 & HF1 & Hex1 & Hc1 & Hother1 & HC1).
  fold full in HF1, Hex1, Hc1, Hother1.
  assert (Hf1 : Obj.get full (pFiles w1) <> None)
    by (rewrite HF1, get_set_same; discriminate).
  destruct (Obj.get full (pFiles w1)) as [f1|] eqn:Hf1'; [|congruence].
  destruct (Obj.get (dir_of full) (pDirs w1)) as [g1|] eqn:Hg1;
    [|congruence].
  destruct (lib_unwatch_run file w1 f1 g1 Hf1' Hg1)
    as (w2 & Hrun2 & HF2 & Hstub2 & Hother2 & HC2).
  fold full in HF2, Hstub2, Hother2.
  exists w1, w2. split; [exact Hrun1|]. split; [exact Hrun2|].
  split; [rewrite HF2, HF1; now apply delete_set_absent|].
  split; [|congruence].
  intros k. destruct (String.eqb (dir_of full) k) eqn:E.
  - apply String.eqb_eq in E. subst k.
    destruct (Obj.get (dir_of full) (pDirs w)) as [g0|] eqn:Hg0.
    + pose proof (lib_watch_present_stub file w st g0 Hget Hp Hg0) as Hw1.
      rewrite Hrun1 in Hw1. injection Hw1 as ->.
      simpl in Hg1. rewrite get_set_same in Hg1. injection Hg1 as <-.
      simpl in Hstub2. specialize (Hcount g0 eq_refl).
      destruct (Z.eqb_spec (count g0 + 1) 1) as [E1|E1]; [lia|].
      destruct Hstub2 as [Hs _]. rewrite Hs. f_equal.
      destruct g0 as [h c wd]. unfold with_count. simpl. f_equal. lia.
    + unfold count_at in Hc1. rewrite Hg1, Hg0 in Hc1. simpl in Hc1.
      rewrite Hc1 in Hstub2. simpl in Hstub2. now destruct Hstub2.
  - apply String.eqb_neq in E.
    rewrite Hother2 by congruence. apply Hother1. congruence.
Qed.

End RoundTrip.

Lemma lib_watch_unwatch_round_trip_witness :
  exists w1 w2,
    LibIndex.watch "/a/y" (watching lib_index default_options disk1 ["/a/x"])
    = Return tt w1
    /\ LibIndex.unwatch "/a/y" w1 = Return tt w2
    /\ pFiles w2 = pFiles (watching lib_index default_options disk1 ["/a/x"])
    /\ (forall k,
          Obj.get k (pDirs w2)
          = Obj.get k (pDirs (watching lib_index default_options disk1
                                ["/a/x"])))
    /\ calls w2 = calls (watching lib_index default_options disk1 ["/a/x"]).
Proof.
  refine (lib_watch_unwatch_round_trip "/a/y"
            (watching lib_index default_options disk1 ["/a/x"])
            (Some (mkStats RegularFile 2 12 None)) eq_refl eq_refl
            (or_intror eq_refl) _).
  intros g0 H. injection H as <-. simpl. discriminate.
Defined.

(** ** unwatch twice *)

Section UnwatchTwice.
Context {rt : Runtime}.

Lemma unwatch_absent (s : Source) (file : string) (w : World) :
  Obj.get (Path_resolve file) (pFiles w) = None ->
  unwatch_of s file w = Return tt w.
Proof.
  intros H. destruct s; simpl;
    unfold LibIndex.unwatch, Part000.unwatch, bind, get; now rewrite H.
Qed.

(** However [unwatch] ends, the path is not registered afterwards. *)
Lemma unwatch_unregisters (s : Source) (file : string) (w : World) :
  Obj.get (Path_resolve file)
          (pFiles (world_of (unwatch_of s file w))) = None.
Proof.
  destruct (Obj.get (Path_resolve file) (pFiles w)) as [f|] eqn:Hf;
    [|rewrite (unwatch_absent s file w Hf); exact Hf].
  set (full := Path_resolve file) in *.
  set (I := fun x : World => Obj.get full (pFiles x) = None).
  assert (HW : frame_watchers I) by (intros l n x Hx; exact Hx).
  assert (HD : frame_pDirs I) by (intros o x Hx; exact Hx).
  assert (H0 : I (set_pFiles (Obj.delete full (pFiles w)) w))
    by (unfold I; simpl; apply get_delete_same).
  destruct s; simpl; unfold LibIndex.unwatch, Part000.unwatch,
    Part000.unbound_dir;
    fold full; unfold bind at 1; unfold get at 1; rewrite Hf;
    unfold bind at 1; unfold delete_file at 1; unfold modify at 1;
    cbv beta;
    match goal with
    | |- Obj.get _ (pFiles (world_of (?m ?x))) = _ =>
        cut (preserves I m); [intros Hm; exact (Hm x H0)|]
    end;
    pres_with ltac:(apply preserves_after_throw);
    auto using frame_update_dir, frame_dir_stub, frame_pUnwatchDir,
      frame_delete_dir.
Qed.

(** X25.  Idempotent unwatch, in both files: [unwatch] of a path that is not
    registered returns at once and changes nothing; and after any
    [unwatch], the path is no longer registered, so that a second [unwatch]
    of the same path is such a silent no-op -- also when the first one
    threw. *)
Theorem unwatch_idempotent (s : Source) (file : string) (w : World) :
  (Obj.get (Path_resolve file) (pFiles w) = None ->
   unwatch_of s file w = Return tt w)
  /\ Obj.get (Path_resolve file)
             (pFiles (world_of (unwatch_of s file w))) = None
  /\ unwatch_of s file (world_of (unwatch_of s file w))
     = Return tt (world_of (unwatch_of s file w)).
Proof.
  split; [apply unwatch_absent|].
  split; [apply unwatch_unregisters|].
  apply unwatch_absent. apply unwatch_unregisters.
Qed.

End UnwatchTwice.

Lemma unwatch_idempotent_witness :
  unwatch_of part_000 "/a/zz"
    (watching part_000 default_options disk1 ["/a/x"])
  = Return tt (watching part_000 default_options disk1 ["/a/x"]).
Proof.
  apply (proj1 (unwatch_idempotent part_000 "/a/zz"
                  (watching part_000 default_options disk1 ["/a/x"]))).
  reflexivity.
Defined.
